(** * Ark Cutt CLI agent: text vectorizer and 2D shape generator

    A shallow embedding of
      python/advanced_text_vectorizer.py   (class AdvancedTextVectorizer)
      python/advanced_2d_shape_generator.py
        (classes Advanced2DShapeGenerator, SpecializedShapes, SmartShapeAgent)
    and the properties of the specification checked against it.

    Modelling conventions.
    - A Python [str] is a [string]; its characters are read as the code
      points U+0000..U+00FF.  [str.lower], [str.upper], the regular
      expression classes [\d] and [\s] and the operator [in] are the
      Python ones restricted to that range.
    - A Python [float] is a binary64 [float] (the kernel's primitive
      floats), so the arithmetic of the vectorizer rounds as CPython's.
    - The dimensions dict is a [gmap string float]; a dict that is
      iterated in order, or returned as descriptive metadata, is an
      association list; a result dict with fixed keys is a record.
    - ezdxf, the drafting library, is outside the repository: a call into
      it is recorded in a trace and an oracle decides whether it raises.
    - Code that can raise runs in a state-and-exception monad. *)

From Stdlib Require Import ZArith NArith List String Ascii Floats Bool Lia.
From stdpp Require Import gmap strings list fin_maps.

Set Warnings "-inexact-float".
Set Default Proof Using "Type".

Local Open Scope string_scope.
Local Open Scope list_scope.

(* ===================================================================== *)
(** * Python values                                                      *)
(* ===================================================================== *)

Module Py.

(** Exceptions (subclasses of [Exception]). *)
Inductive exn : Type :=
| AttributeError (cls attr : string)   (* object of class cls has no attribute attr *)
| ValueError (msg : string)
| TypeError (msg : string)
| Exception (msg : string)             (* raise Exception(msg) *)
| LibraryError (msg : string).         (* raised inside ezdxf or the file system *)

(** [str(e)] *)
Definition str_of_exn (e : exn) : string :=
  match e with
  | AttributeError cls attr =>
      "'" +:+ cls +:+ "' object has no attribute '" +:+ attr +:+ "'"
  | ValueError msg | TypeError msg | Exception msg | LibraryError msg => msg
  end.

(** The result of running a piece of code: a value or a raised exception. *)
Inductive outcome (A : Type) : Type :=
| Return (a : A)
| Raise (e : exn).
Arguments Return {A} a.
Arguments Raise {A} e.

Definition obind {A B} (o : outcome A) (k : A -> outcome B) : outcome B :=
  match o with
  | Return a => k a
  | Raise e => Raise e
  end.

(** ** Characters and strings *)

Definition code (c : ascii) : N := N_of_ascii c.

Definition between (lo hi n : N) : bool := (lo <=? n)%N && (n <=? hi)%N.

(** [c.lower()]: A-Z and the upper-case letters of U+00C0..U+00DE
    (all but the multiplication sign U+00D7) move up by 32. *)
Definition lower_char (c : ascii) : ascii :=
  let n := code c in
  if between 65 90 n || (between 192 222 n && negb (n =? 215)%N)
  then ascii_of_N (n + 32) else c.

Fixpoint str_lower (s : string) : string :=
  match s with
  | EmptyString => EmptyString
  | String c t => String (lower_char c) (str_lower t)
  end.

(** [c.upper()] on the code points U+0000..U+00FF, the only ones a
    string of this development holds: a-z and the lower-case letters of
    U+00E0..U+00FE (all but the division sign U+00F7) move down by 32;
    the sharp s U+00DF becomes the two characters "SS".  The upper-case
    forms of U+00B5 and U+00FF lie outside the 8-bit range (U+039C,
    U+0178); they stand for themselves here.  Beyond U+00FF Python
    lengthens other characters as well (U+FB01 becomes "FI", U+0149
    two characters), so no statement about the length of an upper-cased
    text is made from the absence of the sharp s: such statements take
    the length of [text.upper()] as it is. *)
Definition upper_char (c : ascii) : string :=
  let n := code c in
  if between 97 122 n || (between 224 254 n && negb (n =? 247)%N)
  then String (ascii_of_N (n - 32)) EmptyString
  else if (n =? 223)%N then "SS"
  else String c EmptyString.

Fixpoint str_upper (s : string) : string :=
  match s with
  | EmptyString => EmptyString
  | String c t => upper_char c +:+ str_upper t
  end.

(** [sub in s] on strings *)
Fixpoint str_in (sub s : string) : bool :=
  String.prefix sub s ||
  match s with
  | EmptyString => false
  | String _ t => str_in sub t
  end.

(** [any(keyword in text for keyword in keywords)] *)
Definition any_in (keywords : list string) (text : string) : bool :=
  existsb (fun keyword => str_in keyword text) keywords.

(** ** Numbers *)

(** [float(n)] for an [int] n: the nearest binary64, ties to even. *)
Definition float_of_Z (z : Z) : float :=
  SF2Prim (binary_normalize 53 1024 z 0 false).

Definition is_digit (c : ascii) : bool := between 48 57 (code c).

Definition digit_val (c : ascii) : Z := Z.of_N (code c) - 48.

(** The integer written by a list of decimal digits. *)
Definition digits_val (cs : list ascii) : Z :=
  fold_left (fun acc c => 10 * acc + digit_val c)%Z cs 0%Z.

(** The binary64 nearest to [n / 10^k] (ties to even), for [0 <= n].
    The quotient is taken with at least 64 significant bits and a
    sticky last bit, then rounded once. *)
Definition round_decimal (n : Z) (k : nat) : float :=
  if (n <=? 0)%Z then 0%float
  else
    let d := (10 ^ Z.of_nat k)%Z in
    let sh := Z.max 0 (Z.log2 d - Z.log2 n + 64) in
    let q := ((n * 2 ^ sh) / d)%Z in
    let r := ((n * 2 ^ sh) mod d)%Z in
    let m := (2 * q + (if (r =? 0)%Z then 0 else 1))%Z in
    SF2Prim (binary_normalize 53 1024 m (- (sh + 1)) false).

(** [span p cs]: the longest prefix of cs satisfying p, and the rest. *)
Fixpoint span (p : ascii -> bool) (cs : list ascii) : list ascii * list ascii :=
  match cs with
  | c :: t => if p c then let '(a, b) := span p t in (c :: a, b) else ([], cs)
  | [] => ([], [])
  end.

(** [float(s)] for a string s of the form digits or digits.digits, the
    only strings the dimension patterns capture; on any other string
    the answer is [None] (Python accepts more forms and raises
    ValueError on the rest). *)
Definition float_of_str (s : string) : option float :=
  let '(ip, rest) := span is_digit (list_ascii_of_string s) in
  match ip, rest with
  | _ :: _, [] => Some (round_decimal (digits_val ip) 0)
  | _ :: _, "."%char :: fp =>
      match span is_digit fp with
      | (_ :: _, []) => Some (round_decimal (digits_val (ip ++ fp)) (length fp))
      | _ => None
      end
  | _, _ => None
  end.

(** An [int] or a [float]. *)
Inductive num : Type :=
| Int (z : Z)
| Float (f : float).

Definition to_float (x : num) : float :=
  match x with
  | Int z => float_of_Z z
  | Float f => f
  end.

(** [x * y] *)
Definition mul (x y : num) : num :=
  match x, y with
  | Int a, Int b => Int (a * b)
  | _, _ => Float (to_float x * to_float y)
  end.

(** Values stored in the result dictionaries. *)
Inductive fpiece : Type :=
| Lit (s : string)       (* literal text of an f-string *)
| Hole (x : num).        (* a replacement field {x} *)

Inductive value : Type :=
| Str (s : string)
| Num (x : num)
| FString (pieces : list fpiece).   (* an f-string, kept unformatted *)

End Py.

(* ===================================================================== *)
(** * Regular expressions: the fragment of [re] the patterns use          *)
(* ===================================================================== *)

Module Re.
Import Py.

(** Character classes. [\s] on U+0000..U+00FF is TAB..CR, FS..US, the
    space, NEL (U+0085) and the no-break space (U+00A0). *)
Inductive cclass : Type := Digit | Space.

Definition in_class (k : cclass) (c : ascii) : bool :=
  match k with
  | Digit => is_digit c
  | Space =>
      let n := code c in
      between 9 13 n || between 28 32 n || (n =? 133)%N || (n =? 160)%N
  end.

(** Expressions without capturing groups.  Repetition is only ever
    applied to a character class in the patterns of the program. *)
Inductive rx : Type :=
| Eps                    (* the empty expression *)
| Chr (c : ascii)        (* one literal character, also an escaped one *)
| Cls (k : cclass)       (* \d, \s *)
| Cat (a b : rx)         (* ab *)
| Alt (a b : rx)         (* a|b *)
| Opt (a : rx)           (* a?, greedy *)
| Many (k : cclass)      (* k*, greedy *)
| Many1 (k : cclass).    (* k+, greedy *)

(** A pattern is a sequence of capturing [(r)] and plain pieces. *)
Inductive item : Type :=
| Cap (r : rx)
| Skip (r : rx).

Record pattern : Type := {
  source : string;       (* the pattern as the program writes it *)
  items : list item      (* what it compiles to: [compile source] *)
}.

(** ** Reading a pattern *)

Definition is_alnum (c : ascii) : bool :=
  let n := code c in
  between 48 57 n || between 65 90 n || between 97 122 n.

(** The characters with a meaning of their own in a pattern. *)
Definition is_special (c : ascii) : bool :=
  existsb (Ascii.eqb c) (list_ascii_of_string ".^$*+?{}[]\|()").

(** [ab], with nothing to add after the last piece of a sequence. *)
Definition cat (a b : rx) : rx :=
  match b with
  | Eps => a
  | _ => Cat a b
  end.

(** One atom: an escape, a non-capturing group (read by [group]) or a
    literal character. *)
Definition parse_atom (group : list ascii -> option (rx * list ascii))
    (cs : list ascii) : option (rx * list ascii) :=
  match cs with
  | "\"%char :: "d"%char :: t => Some (Cls Digit, t)
  | "\"%char :: "s"%char :: t => Some (Cls Space, t)
  | "\"%char :: c :: t => if is_alnum c then None else Some (Chr c, t)
  | "("%char :: "?"%char :: ":"%char :: t =>
      match group t with
      | Some (r, ")"%char :: t') => Some (r, t')
      | _ => None
      end
  | c :: t => if is_special c then None else Some (Chr c, t)
  | [] => None
  end.

(** No second quantifier may follow (a lazy or possessive one is outside
    the fragment). *)
Definition unquantified (cs : list ascii) : bool :=
  match cs with
  | c :: _ => negb (existsb (Ascii.eqb c) (list_ascii_of_string "*+?{"))
  | [] => true
  end.

(** The quantifier after an atom, if any. *)
Definition quantify (a : rx) (cs : list ascii) : option (rx * list ascii) :=
  match cs with
  | "+"%char :: t =>
      match a with
      | Cls k => if unquantified t then Some (Many1 k, t) else None
      | _ => None
      end
  | "*"%char :: t =>
      match a with
      | Cls k => if unquantified t then Some (Many k, t) else None
      | _ => None
      end
  | "?"%char :: t => if unquantified t then Some (Opt a, t) else None
  | "{"%char :: _ => None
  | _ => Some (a, cs)
  end.

(** An alternation of sequences, up to a closing parenthesis or the end
    of the pattern.  The fuel bounds the characters read. *)
Fixpoint parse_alt (fuel : nat) (cs : list ascii) : option (rx * list ascii) :=
  match fuel with
  | O => None
  | S f =>
      let fix parse_seq (n : nat) (cs : list ascii) : option (rx * list ascii) :=
        match n with
        | O => None
        | S n' =>
            match cs with
            | [] => Some (Eps, cs)
            | c :: _ =>
                if Ascii.eqb c "|" || Ascii.eqb c ")" then Some (Eps, cs)
                else
                  match parse_atom (parse_alt f) cs with
                  | Some (a, t) =>
                      match quantify a t with
                      | Some (q, t') =>
                          match parse_seq n' t' with
                          | Some (r, t'') => Some (cat q r, t'')
                          | None => None
                          end
                      | None => None
                      end
                  | None => None
                  end
            end
        end in
      match parse_seq fuel cs with
      | Some (r, "|"%char :: t) =>
          match parse_alt f t with
          | Some (r', t') => Some (Alt r r', t')
          | None => None
          end
      | other => other
      end
  end.

(** The pieces of a whole pattern: capturing groups and, between them,
    quantified atoms.  An alternation outside a group and a quantified
    capturing group are outside the fragment. *)
Fixpoint parse_items (fuel : nat) (cs : list ascii) : option (list item) :=
  match fuel with
  | O => None
  | S f =>
      match cs with
      | [] => Some []
      | "("%char :: t =>
          match t with
          | "?"%char :: _ =>
              match parse_atom (parse_alt fuel) cs with
              | Some (a, t1) =>
                  match quantify a t1 with
                  | Some (q, t2) => option_map (cons (Skip q)) (parse_items f t2)
                  | None => None
                  end
              | None => None
              end
          | _ =>
              match parse_alt fuel t with
              | Some (r, ")"%char :: t1) =>
                  if unquantified t1 then option_map (cons (Cap r)) (parse_items f t1)
                  else None
              | _ => None
              end
          end
      | _ =>
          match parse_atom (parse_alt fuel) cs with
          | Some (a, t1) =>
              match quantify a t1 with
              | Some (q, t2) => option_map (cons (Skip q)) (parse_items f t2)
              | None => None
              end
          | None => None
          end
      end
  end.

(** [re.compile(source)] on the fragment; [None] outside it. *)
Definition compile (source : string) : option (list item) :=
  parse_items (S (String.length source)) (list_ascii_of_string source).

(** ** Matching *)

(** [many k s]: what is left of s after k*, longest run first. *)
Fixpoint many (k : cclass) (s : list ascii) : list (list ascii) :=
  match s with
  | c :: t => if in_class k c then many k t ++ [s] else [s]
  | [] => [s]
  end.

(** [rests r s]: every way r matches a prefix of s, as the list of what
    is left of s, in the order a backtracking matcher tries them. *)
Fixpoint rests (r : rx) (s : list ascii) : list (list ascii) :=
  match r with
  | Eps => [s]
  | Chr c =>
      match s with
      | a :: t => if Ascii.eqb a c then [t] else []
      | [] => []
      end
  | Cls k =>
      match s with
      | a :: t => if in_class k a then [t] else []
      | [] => []
      end
  | Cat a b => flat_map (rests b) (rests a s)
  | Alt a b => rests a s ++ rests b s
  | Opt a => rests a s ++ [s]
  | Many k => many k s
  | Many1 k =>
      match s with
      | a :: t => if in_class k a then many k t else []
      | [] => []
      end
  end.

(** The text consumed between s and what is left of it. *)
Definition captured (s s' : list ascii) : string :=
  string_of_list_ascii (firstn (length s - length s') s).

(** [runs p s]: every way p matches a prefix of s: the captured groups
    and what is left, in backtracking order. *)
Fixpoint runs (p : list item) (s : list ascii) : list (list string * list ascii) :=
  match p with
  | [] => [([], s)]
  | Cap r :: p' =>
      flat_map (fun s' => map (fun '(gs, s'') => (captured s s' :: gs, s''))
                              (runs p' s'))
               (rests r s)
  | Skip r :: p' => flat_map (runs p') (rests r s)
  end.

(** Scan from the left: [skip] characters are passed over first (they
    belong to the previous match); at a position where the pattern
    matches, its groups are recorded and the scan resumes after the
    match (one character further after an empty match). *)
Fixpoint scan (p : list item) (s : list ascii) (skip : nat) : list (list string) :=
  match skip, s with
  | S k, _ :: t => scan p t k
  | S _, [] => []
  | O, _ =>
      match runs p s with
      | (gs, s') :: _ =>
          gs :: match s with
                | _ :: t => scan p t (pred (length s - length s'))
                | [] => []
                end
      | [] =>
          match s with
          | _ :: t => scan p t 0
          | [] => []
          end
      end
  end.

(** [re.findall(pattern, text)]: the groups of every non-overlapping
    match, left to right.  (For a pattern with one group Python gives
    the list of the group's strings, here one-element lists.) *)
Definition findall (p : pattern) (text : string) : list (list string) :=
  scan (items p) (list_ascii_of_string text) 0.

End Re.


(* ===================================================================== *)
(** * advanced_2d_shape_generator.py: interpretation of a description     *)
(* ===================================================================== *)

Module Interp.
Import Py Re.

(** [Advanced2DShapeGenerator._initialize_shape_patterns]; the dict is
    iterated in insertion order. *)
Definition shape_patterns : list (string * list string) :=
  [ ("organic", ["apple"; "leaf"; "flower"; "organic"; "curved"; "smooth"]);
    ("mechanical", ["gear"; "cog"; "wheel"; "mechanical"; "technical"; "precision"]);
    ("architectural", ["house"; "building"; "room"; "floor"; "plan"; "architectural"]);
    ("decorative", ["mandala"; "pattern"; "ornament"; "decorative"; "artistic"]);
    ("geometric", ["polygon"; "triangle"; "hexagon"; "geometric"; "regular"]) ].

(** The number [\d+(?:\.\d+)?] every group of the patterns captures. *)
Definition decimal : rx :=
  Cat (Many1 Digit) (Opt (Cat (Chr ".") (Many1 Digit))).

(** A keyword, character by character, then [:?\s*] and the number. *)
Definition keyword_items (keyword : string) : list item :=
  map (fun c => Skip (Chr c)) (list_ascii_of_string keyword)
  ++ [ Skip (Opt (Chr ":")); Skip (Many Space); Cap decimal ].

(** The five patterns of [_extract_dimensions], in list order. *)
Definition pair_pattern : pattern :=
  {| source := "(\d+(?:\.\d+)?)\s*x\s*(\d+(?:\.\d+)?)\s*(?:mm|cm|m)?";
     items := [ Cap decimal; Skip (Many Space); Skip (Chr "x"); Skip (Many Space);
                Cap decimal; Skip (Many Space);
                Skip (Opt (Alt (Cat (Chr "m") (Chr "m"))
                               (Alt (Cat (Chr "c") (Chr "m")) (Chr "m")))) ] |}.

Definition width_pattern : pattern :=
  {| source := "width:?\s*(\d+(?:\.\d+)?)"; items := keyword_items "width" |}.

Definition height_pattern : pattern :=
  {| source := "height:?\s*(\d+(?:\.\d+)?)"; items := keyword_items "height" |}.

Definition radius_pattern : pattern :=
  {| source := "radius:?\s*(\d+(?:\.\d+)?)"; items := keyword_items "radius" |}.

Definition diameter_pattern : pattern :=
  {| source := "diameter:?\s*(\d+(?:\.\d+)?)"; items := keyword_items "diameter" |}.

Definition patterns : list pattern :=
  [ pair_pattern; width_pattern; height_pattern; radius_pattern; diameter_pattern ].

(** [float(s)], raising ValueError where it has no value. *)
Definition py_float (s : string) : outcome float :=
  match float_of_str s with
  | Some f => Return f
  | None => Raise (ValueError ("could not convert string to float: '" +:+ s +:+ "'"))
  end.

(** The body of the loop of [_extract_dimensions] once [matches] is not
    empty; [m] is [matches[0]]. *)
Definition record_match (pattern : pattern) (m : list string)
    (dimensions : gmap string float) : outcome (gmap string float) :=
  if str_in "x" (source pattern) then
    obind (py_float (nth 0 m "")) (fun w =>
    obind (py_float (nth 1 m "")) (fun h =>
    Return (<["height" := h]> (<["width" := w]> dimensions))))
  else if str_in "width" (source pattern) then
    obind (py_float (nth 0 m "")) (fun v => Return (<["width" := v]> dimensions))
  else if str_in "height" (source pattern) then
    obind (py_float (nth 0 m "")) (fun v => Return (<["height" := v]> dimensions))
  else if str_in "radius" (source pattern) then
    obind (py_float (nth 0 m "")) (fun v => Return (<["radius" := v]> dimensions))
  else if str_in "diameter" (source pattern) then
    obind (py_float (nth 0 m "")) (fun v => Return (<["diameter" := v]> dimensions))
  else Return dimensions.

(** One turn of the loop over the patterns. *)
Definition extract_step (text : string) (pattern : pattern)
    (dimensions : gmap string float) : outcome (gmap string float) :=
  match findall pattern (str_lower text) with
  | m :: _ => record_match pattern m dimensions
  | [] => Return dimensions
  end.

Fixpoint extract_loop (text : string) (ps : list pattern)
    (dimensions : gmap string float) : outcome (gmap string float) :=
  match ps with
  | [] => Return dimensions
  | pattern :: ps' =>
      obind (extract_step text pattern dimensions) (extract_loop text ps')
  end.

(** [Advanced2DShapeGenerator._extract_dimensions] *)
Definition _extract_dimensions (text : string) : outcome (gmap string float) :=
  extract_loop text patterns ∅.

(** The table of [_identify_shape_type], in insertion order. *)
Definition shape_types : list (string * list (string * list string)) :=
  [ ("organic",
      [ ("apple", ["apple"; "fruit"]);
        ("leaf", ["leaf"; "foliage"]);
        ("flower", ["flower"; "petal"; "bloom"]) ]);
    ("mechanical",
      [ ("gear", ["gear"; "cog"; "tooth"; "wheel"]);
        ("bearing", ["bearing"; "ring"]);
        ("bracket", ["bracket"; "mount"]) ]);
    ("architectural",
      [ ("floorplan", ["floor"; "room"; "plan"; "house"]);
        ("facade", ["facade"; "front"; "elevation"]);
        ("section", ["section"; "cross-section"]) ]);
    ("decorative",
      [ ("mandala", ["mandala"; "circular"; "radial"]);
        ("spiral", ["spiral"; "helix"; "coil"]);
        ("pattern", ["pattern"; "repeat"; "motif"]) ]) ].

(** [d[key]] / [key in d] on an insertion-ordered dict *)
Definition assoc {A} (key : string) (d : list (string * A)) : option A :=
  option_map snd (find (fun entry => String.eqb (fst entry) key) d).

(** The first entry of the table one of whose keywords occurs in text. *)
Definition first_hit (table : list (string * list string)) (text : string) : option string :=
  option_map fst (find (fun entry => any_in (snd entry) text) table).

(** [Advanced2DShapeGenerator._identify_shape_type] *)
Definition _identify_shape_type (text category : string) : string :=
  match assoc category shape_types with
  | Some table =>
      match first_hit table text with
      | Some shape => shape
      | None => "custom"
      end
  | None => "custom"
  end.

(** The style dict, with its two keys. *)
Record style_modifiers : Type := {
  smoothness : string;
  complexity : string
}.

(** [Advanced2DShapeGenerator._extract_style_modifiers] *)
Definition _extract_style_modifiers (text : string) : style_modifiers :=
  {| smoothness :=
       if any_in ["smooth"; "curved"; "organic"] text then "high"
       else if any_in ["sharp"; "angular"; "precise"] text then "low"
       else "medium";
     complexity :=
       if any_in ["detailed"; "complex"; "intricate"] text then "high"
       else if any_in ["simple"; "basic"; "minimal"] text then "low"
       else "medium" |}.

(** The dict [interpret_shape_request] returns. *)
Record interpretation : Type := {
  category : string;
  type : string;
  dimensions : gmap string float;
  style : style_modifiers;
  description : string
}.

(** [Advanced2DShapeGenerator.interpret_shape_request] *)
Definition interpret_shape_request (description : string) : outcome interpretation :=
  let description_lower := str_lower description in
  obind (_extract_dimensions description) (fun dimensions =>
  let category :=
    match first_hit shape_patterns description_lower with
    | Some cat => cat
    | None => "geometric"
    end in
  let shape_type := _identify_shape_type description_lower category in
  let style := _extract_style_modifiers description_lower in
  Return {| category := category;
            type := shape_type;
            dimensions := dimensions;
            style := style;
            description := description |}).

End Interp.


(* ===================================================================== *)
(** * The drafting surface (ezdxf) and the monad of the drawing code      *)
(* ===================================================================== *)

Module Drafting.
Import Py.

Definition point : Type := float * float.

(** The calls the program makes into ezdxf. *)
Inductive call : Type :=
| New (dxfversion : string) (setup : bool)        (* ezdxf.new(dxfversion, setup=setup) *)
| SetUnits (unit_name : string)                   (* doc.units = units.<unit_name> *)
| Modelspace                                      (* doc.modelspace() *)
| LayersAdd (name : string) (color : Z)           (* doc.layers.add(name, color=color) *)
| AddLine (start_point end_point : point) (layer : string)
                                                  (* msp.add_line(start, end, dxfattribs={'layer': layer}) *)
| SetHeader (var val : string)                    (* doc.header[var] = val *)
| SaveAs (path : string)                          (* doc.saveas(path) *)
| LayerNames                                      (* [layer.dxf.name for layer in doc.layers] *)
| CountEntities.                                  (* len(list(msp)) *)

(** The library is an oracle: given the calls made so far (oldest first)
    it says whether the next one raises, and answers the two queries. *)
Record library : Type := {
  raises : list call -> call -> option exn;
  layer_names : list call -> list string;
  entity_count : list call -> Z
}.

(** The state the code runs in: the trace of library calls, and the
    attributes [doc] and [msp] of the Advanced2DShapeGenerator instance
    ([true] once assigned a document, resp. a modelspace). *)
Record world : Type := {
  trace : list call;
  self_doc : bool;
  self_msp : bool
}.

Definition M (A : Type) : Type := world -> outcome A * world.

Definition ret {A} (a : A) : M A := fun w => (Return a, w).

Definition raise {A} (e : exn) : M A := fun w => (Raise e, w).

Definition bind {A B} (m : M A) (k : A -> M B) : M B :=
  fun w =>
    match m w with
    | (Return a, w') => k a w'
    | (Raise e, w') => (Raise e, w')
    end.

(** [try: body except Exception as e: handler(e)] *)
Definition try_except {A} (body : M A) (handler : exn -> M A) : M A :=
  fun w =>
    match body w with
    | (Return a, w') => (Return a, w')
    | (Raise e, w') => handler e w'
    end.

Definition lift {A} (o : outcome A) : M A := fun w => (o, w).

Definition get : M world := fun w => (Return w, w).

Definition set_doc (b : bool) : M unit :=
  fun w => (Return tt, {| trace := trace w; self_doc := b; self_msp := self_msp w |}).

Definition set_msp (b : bool) : M unit :=
  fun w => (Return tt, {| trace := trace w; self_doc := self_doc w; self_msp := b |}).

(** A call into the library: it is recorded, and raises if the oracle
    says so. *)
Definition invoke (lib : library) (c : call) : M unit :=
  fun w =>
    let w' := {| trace := trace w ++ [c]; self_doc := self_doc w; self_msp := self_msp w |} in
    match raises lib (trace w) c with
    | Some e => (Raise e, w')
    | None => (Return tt, w')
    end.

(** A test double, not ezdxf: an in-memory fake that never raises and
    records the calls.  It answers with the layers added and the number
    of lines drawn; those answers, and its never raising, are its own.
    It serves to run the code on concrete inputs; the general statements
    range over every library. *)
Definition recorder : library :=
  {| raises := fun _ _ => None;
     layer_names := fun t =>
       flat_map (fun c => match c with LayersAdd name _ => [name] | _ => [] end) t;
     entity_count := fun t =>
       Z.of_nat (length (List.filter (fun c => match c with AddLine _ _ _ => true | _ => false end) t)) |}.

(** A library in which no document can be created: [ezdxf.new] raises. *)
Definition broken : library :=
  {| raises := fun _ c =>
       match c with
       | New _ _ => Some (LibraryError "cannot create document")
       | _ => None
       end;
     layer_names := fun _ => [];
     entity_count := fun _ => 0%Z |}.

(** The world before anything has run. *)
Definition fresh : world := {| trace := []; self_doc := false; self_msp := false |}.

End Drafting.

Declare Scope py_scope.
Delimit Scope py_scope with py.
Notation "'let*' x ':=' m 'in' k" := (Drafting.bind m (fun x => k))
  (at level 10, x name, m at level 100, k at level 200) : py_scope.


(* ===================================================================== *)
(** * advanced_text_vectorizer.py                                         *)
(* ===================================================================== *)

Module Vectorizer.
Import Py Drafting.
Local Open Scope float_scope.
Local Open Scope py_scope.

Definition scale : float := 1.0.

(** A point [(x*scale, y*scale)] of the table. *)
Definition pt (x y : float) : point := (x * scale, y * scale).

(** [AdvancedTextVectorizer._create_letter_definitions] *)
Definition letter_definitions : list (ascii * list (list point)) :=
  [ ("A"%char,
      [ [pt 0 0; pt 5 100];
        [pt 5 100; pt 10 0];
        [pt 2.5 50; pt 7.5 50] ]);
    ("R"%char,
      [ [pt 0 0; pt 0 100];
        [pt 0 100; pt 6 100];
        [pt 6 100; pt 8 90];
        [pt 8 90; pt 8 60];
        [pt 8 60; pt 6 50];
        [pt 6 50; pt 0 50];
        [pt 6 50; pt 10 0] ]);
    ("K"%char,
      [ [pt 0 0; pt 0 100];
        [pt 0 50; pt 8 100];
        [pt 0 50; pt 8 0] ]);
    ("C"%char,
      [ [pt 8 20; pt 6 0];
        [pt 6 0; pt 2 0];
        [pt 2 0; pt 0 20];
        [pt 0 20; pt 0 80];
        [pt 0 80; pt 2 100];
        [pt 2 100; pt 6 100];
        [pt 6 100; pt 8 80] ]);
    ("U"%char,
      [ [pt 0 100; pt 0 20];
        [pt 0 20; pt 2 0];
        [pt 2 0; pt 6 0];
        [pt 6 0; pt 8 20];
        [pt 8 20; pt 8 100] ]);
    ("T"%char,
      [ [pt 0 100; pt 10 100];
        [pt 5 100; pt 5 0] ]);
    ("I"%char,
      [ [pt 2 0; pt 8 0];
        [pt 5 0; pt 5 100];
        [pt 2 100; pt 8 100];
        [pt 8 110; pt 12 110] ]);
    ("O"%char,
      [ [pt 2 0; pt 6 0];
        [pt 6 0; pt 8 20];
        [pt 8 20; pt 8 80];
        [pt 8 80; pt 6 100];
        [pt 6 100; pt 2 100];
        [pt 2 100; pt 0 80];
        [pt 0 80; pt 0 20];
        [pt 0 20; pt 2 0] ]);
    ("N"%char,
      [ [pt 0 0; pt 0 100];
        [pt 0 100; pt 8 0];
        [pt 8 0; pt 8 100] ]);
    ("E"%char,
      [ [pt 0 0; pt 0 100];
        [pt 0 100; pt 8 100];
        [pt 0 50; pt 6 50];
        [pt 0 0; pt 8 0] ]);
    ("L"%char,
      [ [pt 0 100; pt 0 0];
        [pt 0 0; pt 8 0] ]);
    ("S"%char,
      [ [pt 8 80; pt 6 100];
        [pt 6 100; pt 2 100];
        [pt 2 100; pt 0 80];
        [pt 0 80; pt 0 60];
        [pt 0 60; pt 2 50];
        [pt 2 50; pt 6 50];
        [pt 6 50; pt 8 40];
        [pt 8 40; pt 8 20];
        [pt 8 20; pt 6 0];
        [pt 6 0; pt 2 0];
        [pt 2 0; pt 0 20] ]);
    ("P"%char,
      [ [pt 0 0; pt 0 100];
        [pt 0 100; pt 6 100];
        [pt 6 100; pt 8 90];
        [pt 8 90; pt 8 60];
        [pt 8 60; pt 6 50];
        [pt 6 50; pt 0 50] ]);
    (" "%char, []) ].

(** [self.letter_definitions[char]], [None] when [char] is not a key. *)
Definition glyph (char : ascii) : option (list (list point)) :=
  option_map snd (find (fun entry => Ascii.eqb (fst entry) char) letter_definitions).

(** ['text_info'] of the result. *)
Record text_info : Type := {
  text : string;
  font_size : float;
  position : point;
  width : float;      (* ['dimensions']['width'] *)
  height : float;     (* ['dimensions']['height'] *)
  layer : string
}.

(** The dict [vectorize_text] returns; a key it does not set is [None]. *)
Record result : Type := {
  success : bool;
  message : string;
  file_path : option string;
  info : option text_info;
  error : option string
}.

Section Vectorize.
Variable lib : library.

(** The body of [for path in paths]. *)
Definition draw_path (layer_name : string) (current_x position_y scale_factor : float)
    (path : list point) : M unit :=
  if (2 <=? length path)%nat then
    let p0 := nth 0 path (0, 0) in
    let p1 := nth 1 path (0, 0) in
    let start_point := (current_x + fst p0 * scale_factor, position_y + snd p0 * scale_factor) in
    let end_point := (current_x + fst p1 * scale_factor, position_y + snd p1 * scale_factor) in
    invoke lib (AddLine start_point end_point layer_name)
  else ret tt.

Fixpoint draw_paths (layer_name : string) (current_x position_y scale_factor : float)
    (paths : list (list point)) : M unit :=
  match paths with
  | [] => ret tt
  | path :: paths' =>
      let* _ := draw_path layer_name current_x position_y scale_factor path in
      draw_paths layer_name current_x position_y scale_factor paths'
  end.

(** The body of [for char in text.upper()], up to the advance of the
    cursor. *)
Definition draw_char (layer_name : string) (font_size current_x position_y : float)
    (char : ascii) : M unit :=
  match glyph char with
  | Some paths =>
      let scale_factor := font_size / 100.0 in
      draw_paths layer_name current_x position_y scale_factor paths
  | None => ret tt
  end.

(** [for char in text.upper(): ...; current_x += letter_spacing]; the
    value is the cursor after the loop. *)
Fixpoint draw_chars (layer_name : string) (font_size letter_spacing position_y : float)
    (chars : list ascii) (current_x : float) : M float :=
  match chars with
  | [] => ret current_x
  | char :: chars' =>
      let* _ := draw_char layer_name font_size current_x position_y char in
      draw_chars layer_name font_size letter_spacing position_y chars'
                 (current_x + letter_spacing)
  end.

Definition letter_width (font_size : float) : float := font_size * 0.6.
Definition letter_spacing (font_size : float) : float := font_size * 0.8.

(** [len(text) * letter_spacing - (letter_spacing - letter_width)] *)
Definition text_width (text : string) (font_size : float) : float :=
  float_of_Z (Z.of_nat (String.length text)) * letter_spacing font_size
  - (letter_spacing font_size - letter_width font_size).

Definition center_x : float := 1000.
Definition center_y : float := 1000.

(** [position = (center_x - text_width/2, center_y - height_units/2)] *)
Definition start_position (text : string) (font_size : float) : point :=
  (center_x - text_width text font_size / 2, center_y - font_size / 2).

(** [AdvancedTextVectorizer.vectorize_text].  [font_size] is a float; an
    int argument behaves as its float. The pictograph that opens each
    message is left out. *)
Definition vectorize_text (text output_path : string) (font_size : float)
    (layer_name : string) : M result :=
  try_except
    (let* _ := invoke lib (New "R2010" true) in
     let* _ := invoke lib (SetUnits "MM") in
     let* _ := invoke lib Modelspace in
     let* _ := invoke lib (LayersAdd layer_name 2) in
     let height_units := font_size in
     let position := start_position text font_size in
     let current_x := fst position in
     let* _ := draw_chars layer_name font_size (letter_spacing font_size) (snd position)
                 (list_ascii_of_string (str_upper text)) current_x in
     let* _ := invoke lib (SaveAs output_path) in
     ret {| success := true;
            message := "Texto vectorizado exitosamente: " +:+ text;
            file_path := Some output_path;
            info := Some {| text := text;
                            font_size := font_size;
                            position := position;
                            width := text_width text font_size;
                            height := height_units;
                            layer := layer_name |};
            error := None |})
    (fun e =>
       ret {| success := false;
              message := "Error vectorizando texto: " +:+ str_of_exn e;
              file_path := None;
              info := None;
              error := Some (str_of_exn e) |}).

End Vectorize.

End Vectorizer.


(* ===================================================================== *)
(** * advanced_2d_shape_generator.py: generation and the agent            *)
(* ===================================================================== *)

Module Shape.
Import Py Drafting Interp.
Local Open Scope py_scope.

(** A dict of descriptive metadata, as a generator returns it.  (In the
    messages below the pictograph that opens each one is left out.) *)
Definition metadata : Type := list (string * value).

(** [dimensions.get(key, default)] with an int default *)
Definition get_dimension (dimensions : gmap string float) (key : string) (default : Z) : num :=
  match dimensions !! key with
  | Some f => Float f
  | None => Int default
  end.

(** ** class SpecializedShapes *)

Definition create_apple_logo (dimensions : gmap string float) (style : style_modifiers)
    : metadata :=
  [ ("type", Str "apple_logo");
    ("method", Str "bezier_curves");
    ("complexity", Str "high") ].

Definition create_gear (dimensions : gmap string float) (style : style_modifiers)
    : metadata :=
  let radius := get_dimension dimensions "radius" 50 in
  let teeth := get_dimension dimensions "teeth" 12 in
  let pitch_diameter := mul radius (Int 2) in
  let tooth_height := mul radius (Float 0.2) in
  [ ("type", Str "gear");
    ("teeth_count", Num teeth);
    ("pitch_diameter", Num pitch_diameter);
    ("tooth_height", Num tooth_height);
    ("method", Str "parametric_generation") ].

Definition create_bedroom_floorplan (dimensions : gmap string float) (style : style_modifiers)
    : metadata :=
  let width := get_dimension dimensions "width" 4000 in
  let height := get_dimension dimensions "height" 3000 in
  [ ("type", Str "floorplan");
    ("room_type", Str "bedroom");
    ("dimensions", FString [Hole width; Lit "x"; Hole height; Lit "mm"]);
    ("method", Str "architectural_standards") ].

(** ** class Advanced2DShapeGenerator *)

Definition class_name : string := "Advanced2DShapeGenerator".

(** Every attribute an instance has: the four [__init__] assigns, and
    the methods the class body defines. *)
Definition attributes : list string :=
  [ "doc"; "msp"; "shape_patterns"; "advanced_shapes";
    "__init__"; "_initialize_shape_patterns"; "create_document";
    "interpret_shape_request"; "_extract_dimensions"; "_identify_shape_type";
    "_extract_style_modifiers"; "generate_shape"; "_generate_organic_shape";
    "_generate_mechanical_shape"; "_generate_architectural_shape";
    "_generate_decorative_shape"; "_generate_geometric_shape"; "save_document" ].

Definition has_attribute (name : string) : bool :=
  existsb (String.eqb name) attributes.

(** The builders the dispatch methods call on [self] although the class
    has no such attribute. *)
Definition undefined_builders : list string :=
  [ "_create_leaf_shape"; "_create_organic_blob"; "_create_mechanical_part";
    "_create_architectural_element"; "_create_mandala"; "_create_spiral";
    "_create_decorative_pattern"; "_create_polygon" ].

(** [self.<name>(...)] for such a name: the attribute lookup raises
    before any argument is evaluated. *)
Definition call_undefined {A} (name : string) : M A :=
  raise (AttributeError class_name name).

Section Generator.
Variable lib : library.

(** [create_document] *)
Definition create_document (units_type : string) : M unit :=
  let* _ := invoke lib (New "R2010" true) in
  let* _ := set_doc true in
  let* _ := invoke lib (SetUnits (str_upper units_type)) in
  let* _ := invoke lib Modelspace in
  let* _ := set_msp true in
  let* _ := invoke lib (LayersAdd "CUT" 1) in
  let* _ := invoke lib (LayersAdd "ENGRAVE" 2) in
  invoke lib (LayersAdd "MARK" 3).

Definition _generate_organic_shape (shape_type : string)
    (dimensions : gmap string float) (style : style_modifiers) : M metadata :=
  if String.eqb shape_type "apple" then ret (create_apple_logo dimensions style)
  else if String.eqb shape_type "leaf" then call_undefined "_create_leaf_shape"
  else call_undefined "_create_organic_blob".

Definition _generate_mechanical_shape (shape_type : string)
    (dimensions : gmap string float) (style : style_modifiers) : M metadata :=
  if String.eqb shape_type "gear" then ret (create_gear dimensions style)
  else call_undefined "_create_mechanical_part".

Definition _generate_architectural_shape (shape_type : string)
    (dimensions : gmap string float) (style : style_modifiers) : M metadata :=
  if String.eqb shape_type "floorplan" then ret (create_bedroom_floorplan dimensions style)
  else call_undefined "_create_architectural_element".

Definition _generate_decorative_shape (shape_type : string)
    (dimensions : gmap string float) (style : style_modifiers) : M metadata :=
  if String.eqb shape_type "mandala" then call_undefined "_create_mandala"
  else if String.eqb shape_type "spiral" then call_undefined "_create_spiral"
  else call_undefined "_create_decorative_pattern".

Definition _generate_geometric_shape (shape_type : string)
    (dimensions : gmap string float) (style : style_modifiers) : M metadata :=
  call_undefined "_create_polygon".

(** [generate_shape] *)
Definition generate_shape (interpretation : interpretation) : M metadata :=
  let category := category interpretation in
  let shape_type := type interpretation in
  let dimensions := dimensions interpretation in
  let style := style interpretation in
  let* w := get in
  let* _ := (if self_doc w then ret tt else create_document "mm") in
  if String.eqb category "organic" then
    _generate_organic_shape shape_type dimensions style
  else if String.eqb category "mechanical" then
    _generate_mechanical_shape shape_type dimensions style
  else if String.eqb category "architectural" then
    _generate_architectural_shape shape_type dimensions style
  else if String.eqb category "decorative" then
    _generate_decorative_shape shape_type dimensions style
  else
    _generate_geometric_shape shape_type dimensions style.

(** The dict [save_document] returns. *)
Record save_result : Type := {
  save_success : bool;
  save_message : string;
  save_file_path : option string;
  save_layers : option (list string);
  save_entities_count : option Z;
  save_error : option string
}.

(** [save_document] *)
Definition save_document (output_path : string) : M save_result :=
  try_except
    (let* w := get in
     let* _ := (if self_doc w then ret tt else raise (Exception "No document to save")) in
     let* _ := invoke lib (SetHeader "$CUSTOMPROPERTYTAG"
                              "Generated by Ark Cutt Advanced 2D Generator") in
     let* _ := invoke lib (SaveAs output_path) in
     let* _ := invoke lib LayerNames in
     let* w1 := get in
     let layers := layer_names lib (trace w1) in
     let* _ := (if self_msp w1 then ret tt
                else raise (TypeError "'NoneType' object is not iterable")) in
     let* _ := invoke lib CountEntities in
     let* w2 := get in
     let entities_count := entity_count lib (trace w2) in
     ret {| save_success := true;
            save_message := "Advanced shape generated successfully";
            save_file_path := Some output_path;
            save_layers := Some layers;
            save_entities_count := Some entities_count;
            save_error := None |})
    (fun e =>
       ret {| save_success := false;
              save_message := "Error saving advanced shape: " +:+ str_of_exn e;
              save_file_path := None;
              save_layers := None;
              save_entities_count := None;
              save_error := Some (str_of_exn e) |}).

(** ** class SmartShapeAgent *)

(** The dict [process_request] returns. *)
Record result : Type := {
  success : bool;
  message : string;
  interpretation_of : option interpretation;
  generation_result : option metadata;
  file_info : option save_result;
  error : option string
}.

(** [SmartShapeAgent.process_request] *)
Definition process_request (description output_path : string) : M result :=
  try_except
    (let* interpretation := lift (interpret_shape_request description) in
     let* result := generate_shape interpretation in
     let* save_result := save_document output_path in
     ret {| success := save_success save_result;
            message := save_message save_result;
            interpretation_of := Some interpretation;
            generation_result := Some result;
            file_info := Some save_result;
            error := None |})
    (fun e =>
       ret {| success := false;
              message := "Error processing shape request: " +:+ str_of_exn e;
              interpretation_of := None;
              generation_result := None;
              file_info := None;
              error := Some (str_of_exn e) |}).

End Generator.

End Shape.


(* ===================================================================== *)
(** * The command lines of the two programs                               *)
(* ===================================================================== *)

Module Cli.
Import Py Drafting Interp.

(** A line written to standard output, named by the [print] statement
    that writes it and the values of its replacement fields.  The text
    of the line, with the pictograph that opens it, is not spelled out,
    and the fields are kept as values, not formatted. *)
Inductive line : Type :=
| Usage (n : nat)                               (* the print number n of the usage text *)
| Message (message : string)                    (* print(result['message']) *)
| Interpreted (category type : string)          (* Interpreted as: {category} - {type} *)
| Dimensions (dimensions : gmap string float)   (* Dimensions: {dimensions} *)
| Style (style : style_modifiers)               (* Style: {style} *)
| FileSaved (output_path : string)              (* File saved: {output_path} *)
| Position (x y : float)                        (* ({x:.1f}, {y:.1f}) *)
| Size (width height : float)                   (* {width:.1f} x {height:.1f} mm *)
| Layer (name : string).                        (* {name} *)

(** Standard output is an oracle, as the library is: given the lines
    written so far it says whether writing the next one raises ([print]
    raises UnicodeEncodeError when the stream cannot encode the line,
    OSError when it is closed). *)
Record console : Type := {
  print_raises : list line -> line -> option exn
}.

(** A console that takes every line. *)
Definition accepting : console := {| print_raises := fun _ _ => None |}.

(** How [main] ends: it returns, or an exception leaves it. *)
Inductive ending : Type :=
| Done
| Uncaught (e : exn)
| KeyError (key : string).

(** One run of a program: the lines it wrote, how it ended, and the
    calls it made into the library. *)
Record run : Type := {
  stdout : list line;
  ending_of : ending;
  calls : list call
}.

(** The [print] statements for the lines [ls], one after the other,
    after the lines [written]: up to the first that raises. *)
Fixpoint prints (con : console) (written ls : list line) : list line * ending :=
  match ls with
  | [] => (written, Done)
  | l :: ls' =>
      match print_raises con written l with
      | Some e => (written, Uncaught e)
      | None => prints con (written ++ [l]) ls'
      end
  end.

(** ** advanced_2d_shape_generator.py *)

Module Shapes.

(** The five [print] statements of the usage text. *)
Definition usage : list line := [Usage 0; Usage 1; Usage 2; Usage 3; Usage 4].

(** [main], with [argv] for [sys.argv].  The agent is new, so its
    generator has no document.  The style dict always has its two keys,
    so its line is always printed. *)
Definition main (lib : library) (con : console) (argv : list string) : run :=
  if (length argv <? 3)%nat then
    let '(out, e) := prints con [] usage in
    {| stdout := out; ending_of := e; calls := [] |}
  else
    let description := nth 1 argv "" in
    let output_path := nth 2 argv "" in
    match Shape.process_request lib description output_path fresh with
    | (Raise e, w) => {| stdout := []; ending_of := Uncaught e; calls := trace w |}
    | (Return result, w) =>
        match prints con [] [Message (Shape.message result)] with
        | (out, Done) =>
            if Shape.success result then
              match Shape.interpretation_of result with
              | None =>
                  {| stdout := out; ending_of := KeyError "interpretation";
                     calls := trace w |}
              | Some i =>
                  let '(out', e) :=
                    prints con out
                      ([Interpreted (category i) (type i)]
                       ++ (if bool_decide (dimensions i = ∅) then []
                           else [Dimensions (dimensions i)])
                       ++ [Style (style i)]
                       ++ [FileSaved output_path]) in
                  {| stdout := out'; ending_of := e; calls := trace w |}
              end
            else {| stdout := out; ending_of := Done; calls := trace w |}
        | (out, e) => {| stdout := out; ending_of := e; calls := trace w |}
        end
    end.

End Shapes.

(** ** advanced_text_vectorizer.py *)

Module Texts.

Section Main.
Variable lib : library.
Variable con : console.

(** The built-in [float] on a string: its value, or the ValueError it
    raises. *)
Variable builtin_float : string -> outcome float.

(** [main], with [argv] for [sys.argv]. *)
Definition main (argv : list string) : run :=
  if (length argv <? 4)%nat then
    let '(out, e) := prints con [] [Usage 0] in
    {| stdout := out; ending_of := e; calls := [] |}
  else
    let text := nth 1 argv "" in
    let output_path := nth 2 argv "" in
    match builtin_float (nth 3 argv "") with
    | Raise e => {| stdout := []; ending_of := Uncaught e; calls := [] |}
    | Return font_size =>
        let layer_name := if (4 <? length argv)%nat then nth 4 argv "" else "TEXT" in
        match Vectorizer.vectorize_text lib text output_path font_size layer_name fresh with
        | (Raise e, w) => {| stdout := []; ending_of := Uncaught e; calls := trace w |}
        | (Return result, w) =>
            match prints con [] [Message (Vectorizer.message result)] with
            | (out, Done) =>
                if Vectorizer.success result then
                  match Vectorizer.info result with
                  | Some info =>
                      let '(out', e) :=
                        prints con out
                          [ Position (fst (Vectorizer.position info))
                                     (snd (Vectorizer.position info));
                            Size (Vectorizer.width info) (Vectorizer.height info);
                            Layer (Vectorizer.layer info) ] in
                      {| stdout := out'; ending_of := e; calls := trace w |}
                  | None => {| stdout := out; ending_of := Done; calls := trace w |}
                  end
                else {| stdout := out; ending_of := Done; calls := trace w |}
            | (out, e) => {| stdout := out; ending_of := e; calls := trace w |}
            end
        end
    end.

End Main.

End Texts.

End Cli.


(* ===================================================================== *)
(** * Definitions the statements use                                      *)
(* ===================================================================== *)

Module Spec.
Import Py Re Drafting Interp.
Local Open Scope float_scope.

(** ** Text vectorizer *)

(** The keys of the glyph table, in the order of the source. *)
Definition supported : list ascii :=
  [ "A"; "R"; "K"; "C"; "U"; "T"; "I"; "O"; "N"; "E"; "L"; "S"; "P"; " " ]%char.

(** The thirteen characters the specification lists. *)
Definition listed : list ascii :=
  [ "A"; "R"; "K"; "C"; "U"; "T"; "I"; "O"; "N"; "E"; "L"; "S"; " " ]%char.

(** The draw call for one segment of a glyph: both end points scaled by
    [s] and moved to the cursor [x] and the base line [y]. *)
Definition segment_line (layer : string) (x y s : float) (path : list point) : call :=
  let p0 := nth 0 path (0, 0) in
  let p1 := nth 1 path (0, 0) in
  AddLine (x + fst p0 * s, y + snd p0 * s) (x + fst p1 * s, y + snd p1 * s) layer.

(** The draw calls of one character met with the cursor at [x]. *)
Definition char_lines (layer : string) (font_size x y : float) (c : ascii) : list call :=
  match Vectorizer.glyph c with
  | Some paths => map (segment_line layer x y (font_size / 100)) paths
  | None => []
  end.

(** The cursor after [i] characters: [i] additions of [font_size * 0.8]. *)
Definition cursor_at (font_size x0 : float) (i : nat) : float :=
  Nat.iter i (fun x => x + font_size * 0.8) x0.

(** The draw calls of a whole text: character number [i] is drawn with
    the cursor at [cursor_at font_size x0 i]. *)
Definition text_lines (layer : string) (font_size y x0 : float) (cs : list ascii) : list call :=
  concat (imap (fun i c => char_lines layer font_size (cursor_at font_size x0 i) y c) cs).

(** The one-character text "sharp s" (U+00DF). *)
Definition sharp_s : string := String (ascii_of_N 223) "".

(** The calls [vectorize_text] makes before the loop. *)
Definition setup_calls (layer : string) : list call :=
  [ New "R2010" true; SetUnits "MM"; Modelspace; LayersAdd layer 2 ].

(** The [msp.add_line] calls of a trace, as pairs of end points. *)
Definition lines_of (t : list call) : list (point * point) :=
  flat_map (fun c => match c with AddLine p q _ => [(p, q)] | _ => [] end) t.

Definition within (lo hi v : float) : bool := PrimFloat.leb lo v && PrimFloat.leb v hi.

(** Both end points of a line lie in the box [x0, x0+dx] x [y0, y0+dy]. *)
Definition line_in_box (x0 y0 dx dy : float) (l : point * point) : bool :=
  let '((ax, ay), (bx, by_)) := l in
  within x0 (x0 + dx) ax && within x0 (x0 + dx) bx &&
  within y0 (y0 + dy) ay && within y0 (y0 + dy) by_.

(** A result that reports a failure: tagged false, with the text of the
    exception in its message and under ['error']. *)
Definition vectorize_failure (r : Vectorizer.result) : Prop :=
  exists e, Vectorizer.success r = false
    /\ Vectorizer.message r = "Error vectorizando texto: " +:+ str_of_exn e
    /\ Vectorizer.error r = Some (str_of_exn e).

(** ** Interpretation *)

(** What the first match of a pattern gives for its group [i]. *)
Definition first_value (p : pattern) (i : nat) (text : string) : option float :=
  match findall p (str_lower text) with
  | m :: _ => float_of_str (nth i m "")
  | [] => None
  end.

(** The specification has the type of the default category come from a
    sides-count heuristic and "not this table": whatever that type is, it
    is not the default "custom" of the type table. *)
Definition from_sides_count (shape_type : string) : Prop := shape_type <> "custom".

(** The four keys [_extract_dimensions] can assign. *)
Definition dimension_keys : gset string :=
  {[ "width"; "height"; "radius"; "diameter" ]}.

(** [a or else b] on optional values. *)
Definition or_else {A} (a b : option A) : option A :=
  match a with
  | Some _ => a
  | None => b
  end.

(** A number as the capture groups write it: digits, or digits, a dot
    and digits. *)
Definition is_decimal (w : list ascii) : Prop :=
  exists ip fp,
    ip <> [] /\ forallb is_digit ip = true /\ forallb is_digit fp = true /\
    (w = ip \/ (fp <> [] /\ w = (ip ++ "."%char :: fp)%list)).

(** A string [float] converts. *)
Definition converts (g : string) : Prop := exists f, float_of_str g = Some f.

(** The number of capturing groups of a pattern. *)
Definition groups (p : list item) : nat :=
  length (List.filter (fun it => match it with Cap _ => true | Skip _ => false end) p).

(** Every capturing group of the pattern is the number [decimal]. *)
Definition captures_decimals (p : list item) : Prop :=
  Forall (fun it => match it with Cap r => r = decimal | Skip _ => True end) p.

(** [dimensions[key] = v] when there is a value, nothing otherwise. *)
Definition assign (key : string) (v : option float) (d : gmap string float)
    : gmap string float :=
  match v with
  | Some f => <[key := f]> d
  | None => d
  end.

(** ** Generation *)

(** The interpretation is routed to a branch of [generate_shape] whose
    builder is one of the placeholders. *)
Definition placeholder_branch (i : interpretation) : bool :=
  if String.eqb (category i) "organic" then negb (String.eqb (type i) "apple")
  else if String.eqb (category i) "mechanical" then negb (String.eqb (type i) "gear")
  else if String.eqb (category i) "architectural" then negb (String.eqb (type i) "floorplan")
  else true.

(** The dict the handler of [process_request] builds from an exception. *)
Definition process_failure (e : exn) : Shape.result :=
  {| Shape.success := false;
     Shape.message := "Error processing shape request: " +:+ str_of_exn e;
     Shape.interpretation_of := None;
     Shape.generation_result := None;
     Shape.file_info := None;
     Shape.error := Some (str_of_exn e) |}.

(** The dict [process_request] builds when nothing was raised up to it:
    its tag and message are those of [save_document]. *)
Definition process_done (i : interpretation) (meta : Shape.metadata)
    (saved : Shape.save_result) : Shape.result :=
  {| Shape.success := Shape.save_success saved;
     Shape.message := Shape.save_message saved;
     Shape.interpretation_of := Some i;
     Shape.generation_result := Some meta;
     Shape.file_info := Some saved;
     Shape.error := None |}.

End Spec.


(* ===================================================================== *)
(** * Further definitions the statements use                              *)
(* ===================================================================== *)

Module SpecMore.
Import Py Re Drafting Interp Spec Cli.
Local Open Scope float_scope.

(** ** Interpretation *)

(** The categories, and with each the types [_identify_shape_type] can
    give it. *)
Definition category_types : list (string * list string) :=
  [ ("organic", ["apple"; "leaf"; "flower"; "custom"]);
    ("mechanical", ["gear"; "bearing"; "bracket"; "custom"]);
    ("architectural", ["floorplan"; "facade"; "section"; "custom"]);
    ("decorative", ["mandala"; "spiral"; "pattern"; "custom"]);
    ("geometric", ["custom"]) ].

Definition levels : list string := ["low"; "medium"; "high"].

(** No character of the string is a decimal digit. *)
Definition no_digit (s : string) : bool :=
  forallb (fun c => negb (is_digit c)) (list_ascii_of_string s).

(** The same on a list of characters. *)
Definition digitless (s : list ascii) : bool :=
  forallb (fun c => negb (is_digit c)) s.

(** Every character of the string is white space for [\s]. *)
Definition all_space (s : string) : bool :=
  forallb (in_class Space) (list_ascii_of_string s).

(** The keywords of the four single-value patterns. *)
Definition dimension_words : list string := ["width"; "height"; "radius"; "diameter"].

(** What is left of [s] after the characters of [word], when [s] starts
    with them. *)
Fixpoint strip (word s : list ascii) : option (list ascii) :=
  match word with
  | [] => Some s
  | k :: word' =>
      match s with
      | c :: t => if Ascii.eqb c k then strip word' t else None
      | [] => None
      end
  end.

(** The characters of a pair of numbers, down to the separator: digits,
    the dot, white space and the letter x. *)
Definition plain (c : ascii) : bool :=
  is_digit c || Ascii.eqb c "." || in_class Space c || Ascii.eqb c "x".

(** A run of the class [k] cannot go on into [t]. *)
Definition stops (k : cclass) (t : list ascii) : bool :=
  match t with
  | [] => true
  | c :: _ => negb (in_class k c)
  end.

(** A number can end where [t] starts: no digit comes next, nor a dot
    with a digit after it. *)
Definition ends_number (t : list ascii) : bool :=
  match t with
  | [] => true
  | c :: t' =>
      negb (is_digit c)
      && negb (Ascii.eqb c "." && match t' with
                                  | d :: _ => is_digit d
                                  | [] => false
                                  end)
  end.

(** The optional unit [(?:mm|cm|m)?] of the paired pattern. *)
Definition unit_suffix : rx :=
  Opt (Alt (Cat (Chr "m") (Chr "m")) (Alt (Cat (Chr "c") (Chr "m")) (Chr "m"))).


(** ** Generation *)

(** The calls of [create_document] with its default units. *)
Definition document_calls : list call :=
  [ New "R2010" true; SetUnits "MM"; Modelspace;
    LayersAdd "CUT" 1; LayersAdd "ENGRAVE" 2; LayersAdd "MARK" 3 ].

(** The calls of a complete [save_document]. *)
Definition save_calls (output_path : string) : list call :=
  [ SetHeader "$CUSTOMPROPERTYTAG" "Generated by Ark Cutt Advanced 2D Generator";
    SaveAs output_path; LayerNames; CountEntities ].

(** The dict [save_document] returns after a complete run that started
    with the trace [t]. *)
Definition saved (lib : library) (t : list call) (output_path : string) : Shape.save_result :=
  {| Shape.save_success := true;
     Shape.save_message := "Advanced shape generated successfully";
     Shape.save_file_path := Some output_path;
     Shape.save_layers := Some (layer_names lib (t ++ firstn 3 (save_calls output_path)));
     Shape.save_entities_count := Some (entity_count lib (t ++ save_calls output_path));
     Shape.save_error := None |}.

(** The dict the handler of [save_document] builds from an exception. *)
Definition save_failure (e : exn) : Shape.save_result :=
  {| Shape.save_success := false;
     Shape.save_message := "Error saving advanced shape: " +:+ str_of_exn e;
     Shape.save_file_path := None;
     Shape.save_layers := None;
     Shape.save_entities_count := None;
     Shape.save_error := Some (str_of_exn e) |}.

(** A list of library calls made one after the other, up to the first
    that raises. *)
Fixpoint run_calls (lib : library) (cs : list call) : M unit :=
  match cs with
  | [] => ret tt
  | c :: cs' => bind (invoke lib c) (fun _ => run_calls lib cs')
  end.

(** The requests whose builder exists, read off the description: the
    first category with a keyword in it must come with a keyword of the
    one type of that category that has a builder. *)
Definition supported_request (description : string) : bool :=
  let text := str_lower description in
  if any_in ["apple"; "leaf"; "flower"; "organic"; "curved"; "smooth"] text then
    any_in ["apple"; "fruit"] text
  else if any_in ["gear"; "cog"; "wheel"; "mechanical"; "technical"; "precision"] text then
    any_in ["gear"; "cog"; "tooth"; "wheel"] text
  else if any_in ["house"; "building"; "room"; "floor"; "plan"; "architectural"] text then
    any_in ["floor"; "room"; "plan"; "house"] text
  else false.


(** ** Text vectorizer *)

(** The library calls of a complete run of [vectorize_text], in order. *)
Definition script (text output_path : string) (font_size : float) (layer_name : string)
    : list call :=
  setup_calls layer_name
  ++ text_lines layer_name font_size
       (snd (Vectorizer.start_position text font_size))
       (fst (Vectorizer.start_position text font_size))
       (list_ascii_of_string (str_upper text))
  ++ [SaveAs output_path].

(** The dict [vectorize_text] returns after a complete run. *)
Definition vectorized (text output_path : string) (font_size : float) (layer_name : string)
    : Vectorizer.result :=
  {| Vectorizer.success := true;
     Vectorizer.message := "Texto vectorizado exitosamente: " +:+ text;
     Vectorizer.file_path := Some output_path;
     Vectorizer.info :=
       Some {| Vectorizer.text := text;
               Vectorizer.font_size := font_size;
               Vectorizer.position := Vectorizer.start_position text font_size;
               Vectorizer.width := Vectorizer.text_width text font_size;
               Vectorizer.height := font_size;
               Vectorizer.layer := layer_name |};
     Vectorizer.error := None |}.

(** The dict its handler builds from an exception. *)
Definition vectorize_failed (e : exn) : Vectorizer.result :=
  {| Vectorizer.success := false;
     Vectorizer.message := "Error vectorizando texto: " +:+ str_of_exn e;
     Vectorizer.file_path := None;
     Vectorizer.info := None;
     Vectorizer.error := Some (str_of_exn e) |}.

(** None of the calls [cs], made in order after the calls [t], raises. *)
Fixpoint passes (lib : library) (t : list call) (cs : list call) : bool :=
  match cs with
  | [] => true
  | c :: cs' =>
      match raises lib t c with
      | None => passes lib (t ++ [c]) cs'
      | Some _ => false
      end
  end.

(** A library no call of which ever raises. *)
Definition never_raises (lib : library) : Prop :=
  forall t c, raises lib t c = None.

(** The call [c] is the first of [cs] to raise, with [e], when the calls
    are made in order after [t]: [pre] are the calls before it. *)
Definition stops_at (lib : library) (t cs pre : list call) (c : call) (e : exn) : Prop :=
  (exists rest, cs = pre ++ c :: rest)
  /\ passes lib t pre = true
  /\ raises lib (t ++ pre) c = Some e.

(** A call that names a layer names [layer], and adds it with color 2. *)
Definition on_layer (layer : string) (c : call) : Prop :=
  match c with
  | AddLine _ _ l => l = layer
  | LayersAdd l color => l = layer /\ color = 2%Z
  | _ => True
  end.

(** A character that draws nothing: it has no glyph, or a glyph without
    segments (the space). *)
Definition blank (c : ascii) : bool :=
  match Vectorizer.glyph c with
  | Some (_ :: _) => false
  | _ => true
  end.

(** ** The command lines *)

(** A console none of whose [print] raises. *)
Definition always_prints (con : console) : Prop :=
  forall written l, print_raises con written l = None.

(** The lines the shape program has to print for the result of a
    request: its message, and after a success the interpretation, the
    dimensions when there are some, the style and the path. *)
Definition shape_report (result : Shape.result) (output_path : string) : list line :=
  Message (Shape.message result)
  :: (if Shape.success result then
        match Shape.interpretation_of result with
        | Some i =>
            [Interpreted (category i) (type i)]
            ++ (if bool_decide (dimensions i = ∅) then [] else [Dimensions (dimensions i)])
            ++ [Style (style i)]
            ++ [FileSaved output_path]
        | None => []
        end
      else []).

(** The lines the vectorizer program has to print for a result: its
    message, and after a success the position, the size and the layer. *)
Definition text_report (result : Vectorizer.result) : list line :=
  Message (Vectorizer.message result)
  :: (if Vectorizer.success result then
        match Vectorizer.info result with
        | Some info =>
            [ Position (fst (Vectorizer.position info)) (snd (Vectorizer.position info));
              Size (Vectorizer.width info) (Vectorizer.height info);
              Layer (Vectorizer.layer info) ]
        | None => []
        end
      else []).

End SpecMore.


(* ===================================================================== *)
(** * The monad: how results and traces flow                              *)
(* ===================================================================== *)

Module MonadFacts.
Import Py Drafting.
Local Open Scope py_scope.

Lemma bind_return_inv {A B} (m : M A) (k : A -> M B) w b w' :
  bind m k w = (Return b, w') ->
  exists a w1, m w = (Return a, w1) /\ k a w1 = (Return b, w').
Proof.
  unfold bind. destruct (m w) as [[a|e] w1]; intros H.
  - exists a, w1. split; [reflexivity | exact H].
  - discriminate.
Qed.

Lemma invoke_return_inv lib c w u w' :
  invoke lib c w = (Return u, w') ->
  trace w' = trace w ++ [c] /\ self_doc w' = self_doc w /\ self_msp w' = self_msp w
  /\ raises lib (trace w) c = None.
Proof.
  unfold invoke. destruct (raises lib (trace w) c); intros H; inversion H; subst.
  simpl. auto.
Qed.

Lemma invoke_recorder c w :
  invoke recorder c w =
  (Return tt, {| trace := trace w ++ [c]; self_doc := self_doc w; self_msp := self_msp w |}).
Proof. reflexivity. Qed.

(** A [try]/[except Exception] whose handler returns never raises. *)
Lemma try_except_total {A} (body : M A) (h : exn -> A) w :
  exists a w', try_except body (fun e => ret (h e)) w = (Return a, w')
    /\ ((body w = (Return a, w')) \/ (exists e, body w = (Raise e, w') /\ a = h e)).
Proof.
  unfold try_except, ret. destruct (body w) as [[a|e] w1].
  - exists a, w1. split; [reflexivity | left; reflexivity].
  - exists (h e), w1. split; [reflexivity | right; exists e; split; reflexivity].
Qed.

End MonadFacts.


(* ===================================================================== *)
(** * Lists of library calls                                              *)
(* ===================================================================== *)

Module RunFacts.
Import Py Drafting Spec SpecMore MonadFacts.
Local Open Scope py_scope.

Section Run.
Variable lib : library.

Lemma run_calls_app a b w :
  run_calls lib (a ++ b) w = bind (run_calls lib a) (fun _ => run_calls lib b) w.
Proof.
  revert w. induction a as [|c a IH]; intros w; [reflexivity|].
  cbn [app run_calls]. unfold bind.
  destruct (invoke lib c w) as [[[]|e] w1]; [|reflexivity].
  rewrite IH. reflexivity.
Qed.

Lemma passes_app a b :
  forall t, passes lib t (a ++ b) = passes lib t a && passes lib (t ++ a) b.
Proof.
  induction a as [|c a IH]; intros t.
  - cbn [app passes andb]. rewrite app_nil_r. reflexivity.
  - cbn [app passes]. destruct (raises lib t c); [reflexivity|].
    rewrite IH, <- app_assoc. reflexivity.
Qed.

(** A list of calls runs to its end when none raises, and otherwise
    stops with the first call that raises, which is the last one made. *)
Lemma run_calls_spec cs w :
  exists o w' done,
    run_calls lib cs w = (o, w')
    /\ trace w' = trace w ++ done
    /\ self_doc w' = self_doc w /\ self_msp w' = self_msp w
    /\ ((o = Return tt /\ done = cs /\ passes lib (trace w) cs = true)
        \/ (exists e pre c,
              o = Raise e /\ done = pre ++ [c] /\ stops_at lib (trace w) cs pre c e)).
Proof.
  revert w. induction cs as [|c cs IH]; intros w.
  - exists (Return tt), w, []. rewrite app_nil_r. repeat split. left. repeat split.
  - cbn [run_calls passes]. unfold bind, invoke.
    destruct (raises lib (trace w) c) as [e|] eqn:R.
    + exists (Raise e), {| trace := trace w ++ [c]; self_doc := self_doc w;
                          self_msp := self_msp w |}, [c].
      repeat split. right. exists e, [], c. split; [reflexivity|]. split; [reflexivity|].
      split; [exists cs; reflexivity|]. split; [reflexivity|].
      rewrite app_nil_r. exact R.
    + destruct (IH {| trace := trace w ++ [c]; self_doc := self_doc w;
                      self_msp := self_msp w |})
        as (o & w' & done & E & T & D & Ms & H).
      cbn [trace self_doc self_msp] in *.
      exists o, w', (c :: done). rewrite E.
      split; [reflexivity|]. split; [rewrite T, <- app_assoc; reflexivity|].
      split; [exact D|]. split; [exact Ms|].
      destruct H as [(-> & -> & P)|(e & pre & c' & -> & -> & (rest & ->) & P & R')].
      * left. repeat split. exact P.
      * right. exists e, (c :: pre), c'. split; [reflexivity|]. split; [reflexivity|].
        split; [exists rest; reflexivity|]. split.
        -- cbn [passes]. rewrite R. exact P.
        -- rewrite <- app_assoc in R'. exact R'.
Qed.

(** The two outcomes exclude each other. *)
Lemma stops_at_not_passes t cs pre c e :
  stops_at lib t cs pre c e -> passes lib t cs = false.
Proof.
  intros ((rest & ->) & P & R). rewrite passes_app, P. cbn [andb passes].
  rewrite R. reflexivity.
Qed.

Lemma never_raises_passes cs :
  never_raises lib -> forall t, passes lib t cs = true.
Proof.
  intros N. induction cs as [|c cs IH]; intros t; [reflexivity|].
  cbn [passes]. rewrite (N t c). apply IH.
Qed.

End Run.

Lemma lines_of_app t u : lines_of (t ++ u) = lines_of t ++ lines_of u.
Proof. unfold lines_of. apply flat_map_app. Qed.

Lemma lines_of_prefix (done l : list call) :
  done `prefix_of` l -> lines_of l = [] -> lines_of done = [].
Proof.
  intros [k ->] H. rewrite lines_of_app in H. apply app_eq_nil in H. exact (proj1 H).
Qed.

(** The calls made up to a call that raises are a prefix of the list. *)
Lemma stops_at_prefix lib t cs pre c e :
  stops_at lib t cs pre c e -> (pre ++ [c]) `prefix_of` cs.
Proof.
  intros ((rest & ->) & _). exists rest. rewrite <- app_assoc. reflexivity.
Qed.

End RunFacts.


(* ===================================================================== *)
(** * The text vectorizer                                                 *)
(* ===================================================================== *)

Module VectorizerFacts.
Import Py Drafting Vectorizer Spec MonadFacts.
Local Open Scope float_scope.
Local Open Scope py_scope.

(** Every path of the table has exactly two points, so the guard
    [len(path) >= 2] of the loop never skips one. *)
Lemma table_paths_two_points :
  forallb (fun entry => forallb (fun path => (length path =? 2)%nat) (snd entry))
          letter_definitions = true.
Proof. reflexivity. Qed.

Lemma glyph_in_table c paths :
  glyph c = Some paths -> In (c, paths) letter_definitions.
Proof.
  unfold glyph. intros H.
  destruct (find _ letter_definitions) as [[c' ps]|] eqn:Hf; simpl in H; [|discriminate].
  apply find_some in Hf. destruct Hf as [Hin Heq]. simpl in Heq.
  apply Ascii.eqb_eq in Heq. inversion H. subst. exact Hin.
Qed.

Lemma glyph_paths_two_points c paths :
  glyph c = Some paths -> Forall (fun path => length path = 2%nat) paths.
Proof.
  intros H. apply glyph_in_table in H.
  pose proof table_paths_two_points as T.
  rewrite forallb_forall in T. specialize (T _ H). simpl in T.
  rewrite forallb_forall in T. apply List.Forall_forall. intros p Hp.
  apply Nat.eqb_eq. apply T. exact Hp.
Qed.

Lemma glyph_supported c :
  glyph c <> None <-> In c supported.
Proof.
  split.
  - intros H. destruct (glyph c) as [paths|] eqn:G; [|congruence].
    apply glyph_in_table in G.
    apply (in_map fst) in G. simpl in G. exact G.
  - intros H. simpl in H.
    repeat (destruct H as [<- | H]; [discriminate|]). destruct H.
Qed.

(** [str.upper] can lengthen a text: the sharp s becomes "SS", and the
    loop of [vectorize_text], which runs over [text.upper()], then takes
    two turns for that one character. *)
Lemma upper_sharp_s :
  str_upper sharp_s = "SS"
  /\ String.length sharp_s = 1%nat
  /\ String.length (str_upper sharp_s) = 2%nat.
Proof. repeat split; reflexivity. Qed.

Lemma length_list_ascii_of_string s :
  length (list_ascii_of_string s) = String.length s.
Proof. induction s as [|c s IH]; simpl; [reflexivity | rewrite IH; reflexivity]. Qed.

Section Loop.
Variable lib : library.

Lemma draw_path_two_points layer x y s path w :
  length path = 2%nat ->
  draw_path lib layer x y s path w = invoke lib (segment_line layer x y s path) w.
Proof. intros H. unfold draw_path. rewrite H. reflexivity. Qed.

Lemma draw_paths_return layer x y s paths w w' :
  Forall (fun path => length path = 2%nat) paths ->
  draw_paths lib layer x y s paths w = (Return tt, w') ->
  trace w' = trace w ++ map (segment_line layer x y s) paths
  /\ self_doc w' = self_doc w /\ self_msp w' = self_msp w.
Proof.
  intros Hall. revert w. induction Hall as [|path paths Hp _ IH]; intros w H.
  - inversion H. subst. simpl. rewrite app_nil_r. auto.
  - simpl in H. apply bind_return_inv in H. destruct H as ([] & w1 & H1 & H2).
    rewrite draw_path_two_points in H1 by exact Hp.
    apply invoke_return_inv in H1. destruct H1 as (T1 & D1 & M1 & _).
    apply IH in H2. destruct H2 as (T2 & D2 & M2).
    rewrite T2, T1, D2, D1, M2, M1. simpl. rewrite <- app_assoc. auto.
Qed.

Lemma draw_char_return layer fs x y c w w' :
  draw_char lib layer fs x y c w = (Return tt, w') ->
  trace w' = trace w ++ char_lines layer fs x y c
  /\ self_doc w' = self_doc w /\ self_msp w' = self_msp w.
Proof.
  unfold draw_char, char_lines. destruct (glyph c) as [paths|] eqn:G.
  - intros H. apply draw_paths_return in H; [exact H|].
    apply (glyph_paths_two_points c). exact G.
  - intros H. inversion H. subst. rewrite app_nil_r. auto.
Qed.

Lemma cursor_at_shift fs x i :
  cursor_at fs x (S i) = cursor_at fs (x + fs * 0.8) i.
Proof. unfold cursor_at. exact (Nat.iter_succ_r i (fun c => c + fs * 0.8) x). Qed.

Lemma text_lines_cons layer fs y x c cs :
  text_lines layer fs y x (c :: cs) =
  char_lines layer fs x y c ++ text_lines layer fs y (x + fs * 0.8) cs.
Proof.
  unfold text_lines. rewrite imap_cons. cbn [concat]. f_equal. f_equal.
  apply imap_ext. intros i c' _. unfold compose. rewrite cursor_at_shift. reflexivity.
Qed.

Lemma draw_chars_return layer fs y cs x w x' w' :
  draw_chars lib layer fs (letter_spacing fs) y cs x w = (Return x', w') ->
  x' = cursor_at fs x (length cs)
  /\ trace w' = trace w ++ text_lines layer fs y x cs
  /\ self_doc w' = self_doc w /\ self_msp w' = self_msp w.
Proof.
  revert x w. induction cs as [|c cs IH]; intros x w H.
  - inversion H. subst. unfold text_lines. simpl. rewrite app_nil_r. auto.
  - simpl in H. apply bind_return_inv in H. destruct H as ([] & w1 & H1 & H2).
    apply draw_char_return in H1. destruct H1 as (T1 & D1 & M1).
    apply IH in H2. destruct H2 as (X2 & T2 & D2 & M2).
    rewrite text_lines_cons. simpl length. rewrite cursor_at_shift.
    rewrite T2, T1, D2, D1, M2, M1. rewrite <- app_assoc. auto.
Qed.

(** A successful run made exactly the set-up calls, the draw calls of
    the upper-cased text from the start position, and the save. *)
Lemma vectorize_text_success text output_path fs layer w r w' :
  vectorize_text lib text output_path fs layer w = (Return r, w') ->
  success r = true ->
  trace w' = trace w ++ setup_calls layer
             ++ text_lines layer fs (snd (start_position text fs))
                  (fst (start_position text fs)) (list_ascii_of_string (str_upper text))
             ++ [SaveAs output_path]
  /\ info r = Some {| text := text; font_size := fs;
                      position := start_position text fs;
                      width := text_width text fs; height := fs; layer := layer |}.
Proof.
  unfold vectorize_text. intros H S.
  match type of H with try_except ?b ?h w = _ =>
    destruct (try_except_total b
      (fun e => {| success := false;
                   message := "Error vectorizando texto: " +:+ str_of_exn e;
                   file_path := None; info := None; error := Some (str_of_exn e) |}) w)
      as (a & w2 & E & Hb)
  end.
  rewrite E in H. inversion H. subst a w2. clear H E.
  destruct Hb as [Hb | (e & _ & ->)]; [|discriminate S].
  apply bind_return_inv in Hb. destruct Hb as (? & w1 & I1 & Hb).
  apply bind_return_inv in Hb. destruct Hb as (? & w2 & I2 & Hb).
  apply bind_return_inv in Hb. destruct Hb as (? & w3 & I3 & Hb).
  apply bind_return_inv in Hb. destruct Hb as (? & w4 & I4 & Hb).
  apply bind_return_inv in Hb. destruct Hb as (x' & w5 & L & Hb).
  apply bind_return_inv in Hb. destruct Hb as (? & w6 & I6 & Hb).
  inversion Hb. subst. clear Hb.
  apply invoke_return_inv in I1, I2, I3, I4, I6.
  apply draw_chars_return in L.
  destruct I1 as (T1 & _), I2 as (T2 & _), I3 as (T3 & _), I4 as (T4 & _), I6 as (T6 & _).
  destruct L as (_ & T5 & _).
  split; [|reflexivity].
  rewrite T6, T5, T4, T3, T2, T1. unfold setup_calls.
  rewrite <- !app_assoc. reflexivity.
Qed.

End Loop.

End VectorizerFacts.


(* ===================================================================== *)
(** * The vectorizer as a list of calls                                   *)
(* ===================================================================== *)

Module ScriptFacts.
Import Py Drafting Vectorizer Spec SpecMore MonadFacts RunFacts VectorizerFacts.
Local Open Scope float_scope.
Local Open Scope py_scope.

Section Script.
Variable lib : library.

Lemma draw_paths_script layer x y s paths w :
  Forall (fun path => length path = 2%nat) paths ->
  draw_paths lib layer x y s paths w
  = run_calls lib (map (segment_line layer x y s) paths) w.
Proof.
  intros Hall. revert w. induction Hall as [|path paths Hp _ IH]; intros w; [reflexivity|].
  cbn [draw_paths map run_calls]. unfold bind.
  rewrite draw_path_two_points by exact Hp.
  destruct (invoke lib _ w) as [[[]|e] w1]; [apply IH | reflexivity].
Qed.

Lemma draw_char_script layer fs x y c w :
  draw_char lib layer fs x y c w = run_calls lib (char_lines layer fs x y c) w.
Proof.
  unfold draw_char, char_lines. destruct (glyph c) as [paths|] eqn:G; [|reflexivity].
  apply draw_paths_script. exact (glyph_paths_two_points c paths G).
Qed.

Lemma draw_chars_script layer fs y cs :
  forall x w,
    draw_chars lib layer fs (letter_spacing fs) y cs x w
    = match run_calls lib (text_lines layer fs y x cs) w with
      | (Return _, w') => (Return (cursor_at fs x (length cs)), w')
      | (Raise e, w') => (Raise e, w')
      end.
Proof.
  induction cs as [|c cs IH]; intros x w; [reflexivity|].
  cbn [draw_chars]. rewrite text_lines_cons, run_calls_app. unfold bind.
  rewrite draw_char_script.
  destruct (run_calls lib (char_lines layer fs x y c) w) as [[[]|e] w1]; [|reflexivity].
  rewrite IH. cbn [length]. rewrite cursor_at_shift. reflexivity.
Qed.

(** [vectorize_text] is its script run under the handler. *)
Lemma vectorize_text_script text output_path fs layer w :
  vectorize_text lib text output_path fs layer w
  = match run_calls lib (script text output_path fs layer) w with
    | (Return _, w') => (Return (vectorized text output_path fs layer), w')
    | (Raise e, w') => (Return (vectorize_failed e), w')
    end.
Proof.
  unfold vectorize_text, script, setup_calls, try_except.
  cbn [app run_calls]. unfold bind.
  destruct (invoke lib (New "R2010" true) w) as [[[]|e] w1]; [|reflexivity].
  destruct (invoke lib (SetUnits "MM") w1) as [[[]|e] w2]; [|reflexivity].
  destruct (invoke lib Modelspace w2) as [[[]|e] w3]; [|reflexivity].
  destruct (invoke lib (LayersAdd layer 2) w3) as [[[]|e] w4]; [|reflexivity].
  rewrite draw_chars_script, run_calls_app. unfold bind.
  destruct (run_calls lib (text_lines layer fs _ _ _) w4) as [[[]|e] w5]; [|reflexivity].
  cbn [run_calls]. unfold bind.
  destruct (invoke lib (SaveAs output_path) w5) as [[[]|e] w6]; reflexivity.
Qed.

End Script.

(** What a run of [vectorize_text] does, for any library: it makes the
    calls of its script in order; when none raises it returns the
    success dict after all of them, and otherwise the failure dict of
    the first call that raised, which is the last call made. *)
Lemma vectorize_text_run lib text output_path fs layer w :
  exists r w' done,
    vectorize_text lib text output_path fs layer w = (Return r, w')
    /\ trace w' = trace w ++ done
    /\ self_doc w' = self_doc w /\ self_msp w' = self_msp w
    /\ ((passes lib (trace w) (script text output_path fs layer) = true
         /\ r = vectorized text output_path fs layer
         /\ done = script text output_path fs layer)
        \/ (exists e pre c,
              stops_at lib (trace w) (script text output_path fs layer) pre c e
              /\ r = vectorize_failed e
              /\ done = pre ++ [c])).
Proof.
  rewrite vectorize_text_script.
  destruct (run_calls_spec lib (script text output_path fs layer) w)
    as (o & w' & done & -> & T & D & Ms & H).
  destruct H as [(-> & -> & P)|(e & pre & c & -> & -> & S)].
  - eexists _, _, _. split; [reflexivity|]. split; [exact T|].
    split; [exact D|]. split; [exact Ms|]. left. repeat split. exact P.
  - eexists _, _, _. split; [reflexivity|]. split; [exact T|].
    split; [exact D|]. split; [exact Ms|]. right. exists e, pre, c.
    split; [exact S|]. split; reflexivity.
Qed.

(** With a library that never raises every run succeeds. *)
Lemma vectorize_text_never_raises lib text output_path fs layer w :
  never_raises lib ->
  vectorize_text lib text output_path fs layer w
  = (Return (vectorized text output_path fs layer),
     {| trace := trace w ++ script text output_path fs layer;
        self_doc := self_doc w; self_msp := self_msp w |}).
Proof.
  intros N.
  destruct (vectorize_text_run lib text output_path fs layer w)
    as (r & w' & done & E & T & D & Ms & H).
  rewrite E. destruct H as [(_ & -> & ->)|(e & pre & c & S & _)].
  - destruct w' as [t d m]. cbn [trace self_doc self_msp] in *. subst. reflexivity.
  - apply stops_at_not_passes in S. rewrite (never_raises_passes lib _ N) in S.
    discriminate S.
Qed.

End ScriptFacts.


(* ===================================================================== *)
(** * Claims on the text vectorizer                                       *)
(* ===================================================================== *)

Module VectorizerClaims.
Import Py Drafting Vectorizer Spec MonadFacts VectorizerFacts.
Local Open Scope float_scope.
Local Open Scope py_scope.

(** A character without a glyph draws nothing; the loop only moves on. *)
Lemma draw_char_unsupported lib layer fs x y c w :
  glyph c = None -> draw_char lib layer fs x y c w = (Return tt, w).
Proof. intros G. unfold draw_char. rewrite G. reflexivity. Qed.

(** C3, as stated, fails: the table has fourteen entries, not sixteen,
    and the character P, which the list of the claim leaves out, has an
    entry.  Nor is every character without an entry skipped: the text is
    upper-cased first, so a lower-case a, which has no entry, is drawn
    with the three lines of A. *)
Lemma C3_counterexample :
  ~ (length letter_definitions = 16%nat)
  /\ ~ (forall c, glyph c <> None -> In c listed)
  /\ (glyph "a" = None
      /\ exists r w',
           vectorize_text recorder "a" "out.dxf" 100 "TEXT" fresh = (Return r, w')
           /\ length (lines_of (trace w')) = 3%nat).
Proof.
  split; [|split].
  - discriminate.
  - intros H. specialize (H "P"%char). simpl in H.
    assert (G : glyph "P" <> None) by discriminate.
    specialize (H G).
    repeat (destruct H as [H | H]; [discriminate H|]). exact H.
  - split; [reflexivity|]. eexists _, _. split; [vm_compute; reflexivity | reflexivity].
Qed.

(** C3 (amended): the glyph table has fourteen entries, exactly the
    characters A, R, K, C, U, T, I, O, N, E, L, S, P and space, each
    once; every other character has no entry, and when the loop of the
    vectorizer meets one it draws nothing and moves the cursor on. *)
Theorem C3_glyph_table (lib : library) :
  map fst letter_definitions = supported
  /\ length letter_definitions = 14%nat
  /\ NoDup supported
  /\ (forall c, glyph c <> None <-> In c supported)
  /\ (forall c, ~ In c supported ->
        glyph c = None
        /\ forall layer fs ls x y cs w,
             draw_char lib layer fs x y c w = (Return tt, w)
             /\ draw_chars lib layer fs ls y (c :: cs) x w
                = draw_chars lib layer fs ls y cs (x + ls) w).
Proof.
  split; [reflexivity|]. split; [reflexivity|]. split.
  { unfold supported. apply NoDup_ListNoDup.
    repeat (constructor; [simpl; intros H; repeat (destruct H as [H|H]; [discriminate H|]); exact H|]).
    constructor. }
  split; [exact glyph_supported|].
  intros c Hc.
  assert (G : glyph c = None).
  { destruct (glyph c) eqn:E; [|reflexivity].
    exfalso. apply Hc. apply glyph_supported. congruence. }
  split; [exact G|]. intros layer fs ls x y cs w. split.
  - apply draw_char_unsupported. exact G.
  - simpl. unfold bind. rewrite draw_char_unsupported by exact G. reflexivity.
Qed.

(** A character outside the table, here Z, is skipped. *)
Lemma C3_witness :
  ~ In "Z"%char supported
  /\ glyph "Z" = None
  /\ draw_char recorder "TEXT" 20 0 0 "Z" fresh = (Return tt, fresh).
Proof.
  assert (N : ~ In "Z"%char supported).
  { simpl. intros H. repeat (destruct H as [H|H]; [discriminate H|]). exact H. }
  split; [exact N|].
  destruct (C3_glyph_table recorder) as (_ & _ & _ & _ & H).
  destruct (H "Z"%char N) as [G D].
  split; [exact G|].
  exact (proj1 (D "TEXT"%string 20 0 0 0 [] fresh)).
Defined.

(** C5: a successful run of [vectorize_text] makes, between the set-up
    calls and the save, exactly the draw calls of the characters of the
    upper-cased text in order, character number i with the cursor at the
    start x advanced i times; a supported character gives one call per
    segment of its glyph, each end point scaled by font_size/100 and
    moved to the cursor and the base line.  In particular
    vectorize_text("A", path, 100, "ENGRAVE") draws exactly 3 lines,
    whose x lie in [cursor, cursor+10] and whose y lie within 0..100
    above the base line. *)
Theorem C5_lines_per_character :
  (forall lib text output_path fs layer w r w',
      vectorize_text lib text output_path fs layer w = (Return r, w') ->
      success r = true ->
      trace w' = trace w ++ setup_calls layer
                 ++ text_lines layer fs (snd (start_position text fs))
                      (fst (start_position text fs))
                      (list_ascii_of_string (str_upper text))
                 ++ [SaveAs output_path])
  /\ (forall c paths layer fs x y,
        glyph c = Some paths ->
        char_lines layer fs x y c = map (segment_line layer x y (fs / 100)) paths
        /\ length (char_lines layer fs x y c) = length paths)
  /\ (forall output_path,
        exists r w',
          vectorize_text recorder "A" output_path 100 "ENGRAVE" fresh = (Return r, w')
          /\ success r = true
          /\ glyph "A" = Some [ [pt 0 0; pt 5 100]; [pt 5 100; pt 10 0]; [pt 2.5 50; pt 7.5 50] ]
          /\ length (lines_of (trace w')) = 3%nat
          /\ forallb (line_in_box (fst (start_position "A" 100)) (snd (start_position "A" 100))
                                  10 100)
                     (lines_of (trace w')) = true).
Proof.
  split; [|split].
  - intros lib text output_path fs layer w r w' H S.
    exact (proj1 (vectorize_text_success lib text output_path fs layer w r w' H S)).
  - intros c paths layer fs x y G. unfold char_lines. rewrite G.
    split; [reflexivity | apply length_map].
  - intros output_path. eexists _, _.
    split; [vm_compute; reflexivity|].
    split; [reflexivity|]. split; [reflexivity|]. split; reflexivity.
Qed.

(** The text of create_examples.py, "ARKCUTT" at size 50 on the layer
    ENGRAVE, with the recording library. *)
Lemma C5_witness :
  exists r w',
    vectorize_text recorder "ARKCUTT" "examples/arkcutt_text.dxf" 50 "ENGRAVE" fresh
    = (Return r, w')
    /\ success r = true
    /\ trace w'
       = trace fresh ++ setup_calls "ENGRAVE"
         ++ text_lines "ENGRAVE" 50 (snd (start_position "ARKCUTT" 50))
              (fst (start_position "ARKCUTT" 50))
              (list_ascii_of_string (str_upper "ARKCUTT"))
         ++ [SaveAs "examples/arkcutt_text.dxf"]
    /\ length (lines_of (trace w')) = (3 + 7 + 3 + 7 + 5 + 2 + 2)%nat.
Proof.
  eexists _, _.
  split; [vm_compute; reflexivity|].
  split; [reflexivity|].
  split; [|reflexivity].
  eapply (proj1 C5_lines_per_character recorder "ARKCUTT" "examples/arkcutt_text.dxf"
            50 "ENGRAVE" fresh).
  - vm_compute. reflexivity.
  - reflexivity.
Defined.

(** C6 (the code departs from it): the loop of [vectorize_text] runs
    over text.upper() while the text width and the start corner are
    computed from len(text).  Every turn of the loop adds exactly
    font_size * 0.8 to the cursor, whether or not the character has a
    glyph, and the start corner is (1000, 1000) minus half the text
    width in x and half the font size in y, with text width len(text) *
    letterSpacing - (letterSpacing - letterWidth), letterWidth =
    font_size * 0.6 and letterSpacing = font_size * 0.8: so far as the
    claim says.  The cursor advances once per character of the text, as
    claimed, whenever upper-casing keeps the length of the text; with a
    library that never raises the run succeeds for every text, font size
    and layer.  Where upper-casing lengthens the text the code departs
    from the claim: for the one-character text "sharp s", whose upper
    case is "SS", the cursor advances twice, and at size 100 the second
    glyph S is drawn at x = 1050, outside the width 60 that was computed
    from len(text) to centre the text at x = 970. *)
Theorem C6_cursor_and_start_corner :
  (forall lib layer fs y c cs x w,
      draw_chars lib layer fs (fs * 0.8) y (c :: cs) x w
      = bind (draw_char lib layer fs x y c)
             (fun _ => draw_chars lib layer fs (fs * 0.8) y cs (x + fs * 0.8)) w)
  /\ (forall lib layer fs y cs x w x' w',
        draw_chars lib layer fs (fs * 0.8) y cs x w = (Return x', w') ->
        x' = cursor_at fs x (length cs)
        /\ forall i, cursor_at fs x (S i) = cursor_at fs x i + fs * 0.8)
  /\ (forall lib layer fs y text x w x' w',
        String.length (str_upper text) = String.length text ->
        draw_chars lib layer fs (fs * 0.8) y (list_ascii_of_string (str_upper text)) x w
        = (Return x', w') ->
        x' = cursor_at fs x (String.length text))
  /\ (forall lib text output_path fs layer w r w',
        vectorize_text lib text output_path fs layer w = (Return r, w') ->
        success r = true ->
        let ls := fs * 0.8 in
        let lw := fs * 0.6 in
        let tw := float_of_Z (Z.of_nat (String.length text)) * ls - (ls - lw) in
        let corner := (1000 - tw / 2, 1000 - fs / 2) in
        exists ti,
          info r = Some ti /\ position ti = corner /\ width ti = tw /\ height ti = fs
          /\ trace w' = trace w ++ setup_calls layer
                        ++ text_lines layer fs (snd corner) (fst corner)
                             (list_ascii_of_string (str_upper text))
                        ++ [SaveAs output_path])
  /\ (forall lib text output_path fs layer w,
        SpecMore.never_raises lib ->
        exists r w', vectorize_text lib text output_path fs layer w = (Return r, w')
                     /\ success r = true)
  /\ (String.length sharp_s = 1%nat
      /\ str_upper sharp_s = "SS"
      /\ (forall lib layer fs y x w x' w',
            draw_chars lib layer fs (fs * 0.8) y
                       (list_ascii_of_string (str_upper sharp_s)) x w = (Return x', w') ->
            x' = cursor_at fs x 2)
      /\ exists r w',
           vectorize_text recorder sharp_s "out.dxf" 100 "TEXT" fresh = (Return r, w')
           /\ success r = true
           /\ start_position sharp_s 100 = (970, 950)
           /\ text_width sharp_s 100 = 60
           /\ lines_of (trace w')
              = lines_of (char_lines "TEXT" 100 970 950 "S")
                ++ lines_of (char_lines "TEXT" 100 (970 + 80) 950 "S")
           /\ forallb (line_in_box (970 + 80) 950 10 100)
                      (lines_of (char_lines "TEXT" 100 (970 + 80) 950 "S")) = true
           /\ existsb (line_in_box 970 950 60 100)
                      (lines_of (char_lines "TEXT" 100 (970 + 80) 950 "S")) = false).
Proof.
  split; [|split; [|split; [|split; [|split]]]].
  - reflexivity.
  - intros lib layer fs y cs x w x' w' H. split.
    + exact (proj1 (draw_chars_return lib layer fs y cs x w x' w' H)).
    + intros i. reflexivity.
  - intros lib layer fs y text x w x' w' N H.
    rewrite (proj1 (draw_chars_return lib layer fs y _ x w x' w' H)).
    rewrite length_list_ascii_of_string, N. reflexivity.
  - intros lib text output_path fs layer w r w' H S. simpl.
    destruct (vectorize_text_success lib text output_path fs layer w r w' H S) as [T I].
    eexists. split; [exact I|]. simpl.
    split; [reflexivity|]. split; [reflexivity|]. split; [reflexivity|]. exact T.
  - intros lib text output_path fs layer w N.
    rewrite (ScriptFacts.vectorize_text_never_raises lib text output_path fs layer w N).
    eexists _, _. split; reflexivity.
  - split; [reflexivity|]. split; [reflexivity|]. split.
    + intros lib layer fs y x w x' w' H.
      exact (proj1 (draw_chars_return lib layer fs y _ x w x' w' H)).
    + eexists _, _. split; [vm_compute; reflexivity|].
      repeat split; reflexivity.
Qed.

(** The text "A?K" at size 20: the question mark has no glyph, and K is
    still drawn two advances after A. *)
Lemma C6_witness :
  exists r w' ti,
    vectorize_text recorder "A?K" "out.dxf" 20 "TEXT" fresh = (Return r, w')
    /\ success r = true
    /\ info r = Some ti
    /\ position ti = (978, 990) /\ width ti = 44 /\ height ti = 20
    /\ trace w'
       = trace fresh ++ setup_calls "TEXT"
         ++ text_lines "TEXT" 20 990 978 (list_ascii_of_string (str_upper "A?K"))
         ++ [SaveAs "out.dxf"]
    /\ lines_of (text_lines "TEXT" 20 990 978 (list_ascii_of_string (str_upper "A?K")))
       = lines_of (char_lines "TEXT" 20 978 990 "A")
         ++ lines_of (char_lines "TEXT" 20 (978 + 16 + 16) 990 "K").
Proof.
  pose proof (proj1 (proj2 (proj2 (proj2 C6_cursor_and_start_corner)))
                recorder "A?K" "out.dxf" 20 "TEXT" fresh) as C.
  destruct (vectorize_text recorder "A?K" "out.dxf" 20 "TEXT" fresh) as [o w'] eqn:E.
  vm_compute in E. inversion E as [[Eo Ew]]. clear E.
  rewrite <- Eo, <- Ew in C.
  destruct (C _ _ eq_refl eq_refl) as (ti & I & P & W & H & T).
  eexists _, _, ti.
  split; [reflexivity|]. split; [reflexivity|].
  split; [exact I|]. split; [exact P|]. split; [exact W|]. split; [exact H|].
  split; [exact T|]. reflexivity.
Defined.

(** C7: vectorize_text("I", path, 100, "TEXT") draws four lines; the
    last one runs at y = 110 * (100/100) above the base line, from x = 8
    to x = 12 after the cursor, outside the 0..100 body in which the three
    other lines lie. *)
Theorem C7_letter_I_mark :
  forall output_path,
    exists r w' body mark,
      vectorize_text recorder "I" output_path 100 "TEXT" fresh = (Return r, w')
      /\ success r = true
      /\ lines_of (trace w') = body ++ [mark]
      /\ length body = 3%nat
      /\ (let x0 := fst (start_position "I" 100) in
          let y0 := snd (start_position "I" 100) in
          let s := 100 / 100 in
          mark = ((x0 + 8 * s, y0 + 110 * s), (x0 + 12 * s, y0 + 110 * s))
          /\ snd (fst mark) - y0 = 110
          /\ snd (snd mark) - y0 = 110
          /\ forallb (line_in_box x0 y0 10 100) body = true
          /\ line_in_box x0 y0 10 100 mark = false
          /\ nth_error (lines_of (map (segment_line "TEXT" 0 0 1)
                                      match glyph "I" with Some ps => ps | None => [] end)) 3
             = Some ((8, 110), (12, 110))).
Proof.
  intros output_path.
  eexists _, _, [ _; _; _ ], _.
  split; [vm_compute; reflexivity|].
  split; [reflexivity|]. split; [reflexivity|]. split; [reflexivity|].
  simpl. repeat split; reflexivity.
Qed.

End VectorizerClaims.


(* ===================================================================== *)
(** * The dimension patterns capture numbers                              *)
(* ===================================================================== *)

Module ReFacts.
Import Py Re Interp Spec.

Lemma many_sound k s s' :
  In s' (many k s) -> exists w, s = w ++ s' /\ forallb (in_class k) w = true.
Proof.
  induction s as [|c t IH]; simpl.
  - intros [<-|[]]. exists []. split; reflexivity.
  - destruct (in_class k c) eqn:K.
    + intros H. apply in_app_or in H. destruct H as [H|[<-|[]]].
      * destruct (IH H) as (w & -> & W). exists (c :: w). simpl. rewrite K, W. split; reflexivity.
      * exists []. split; reflexivity.
    + intros [<-|[]]. exists []. split; reflexivity.
Qed.

Lemma many1_digit_sound s s' :
  In s' (rests (Many1 Digit) s) ->
  exists w, s = w ++ s' /\ w <> [] /\ forallb is_digit w = true.
Proof.
  simpl. destruct s as [|a t]; [intros []|].
  destruct (is_digit a) eqn:D; [|intros []].
  intros H. apply many_sound in H. destruct H as (w & -> & W).
  change (in_class Digit) with is_digit in W.
  exists (a :: w). split; [reflexivity|]. split; [discriminate|].
  simpl. rewrite D, W. reflexivity.
Qed.

Lemma rests_decimal s s' :
  In s' (rests decimal s) -> exists w, s = w ++ s' /\ is_decimal w.
Proof.
  unfold decimal. cbn [rests]. intros H.
  apply in_flat_map in H. destruct H as (s1 & H1 & H2).
  apply many1_digit_sound in H1. destruct H1 as (ip & -> & Hne & Hip).
  apply in_app_or in H2. destruct H2 as [H2|[<-|[]]].
  - apply in_flat_map in H2. destruct H2 as (s2 & Hdot & Hfp).
    destruct s1 as [|a t]; [destruct Hdot|].
    destruct (Ascii.eqb a ".") eqn:E; [|destruct Hdot].
    apply Ascii.eqb_eq in E. subst a. destruct Hdot as [<-|[]].
    apply many1_digit_sound in Hfp. destruct Hfp as (fp & -> & Fne & Hfp).
    exists (ip ++ "."%char :: fp). split.
    + rewrite <- app_assoc. reflexivity.
    + exists ip, fp. repeat split; auto.
  - exists ip. split; [reflexivity|].
    exists ip, []. repeat split; auto.
Qed.

Lemma captured_app w s' : captured (w ++ s') s' = string_of_list_ascii w.
Proof.
  unfold captured. rewrite length_app.
  replace (length w + length s' - length s')%nat with (length w) by lia.
  rewrite take_app_length. reflexivity.
Qed.

Lemma span_app p a rest :
  forallb p a = true ->
  span p (a ++ rest) = (a ++ fst (span p rest), snd (span p rest)).
Proof.
  induction a as [|c a IH]; simpl; intros H.
  - destruct (span p rest); reflexivity.
  - apply andb_prop in H. destruct H as [Hc Ha]. rewrite Hc, (IH Ha). reflexivity.
Qed.

Lemma span_all p a : forallb p a = true -> span p a = (a, []).
Proof.
  intros H. rewrite <- (app_nil_r a) at 1. rewrite (span_app _ _ _ H).
  simpl. rewrite app_nil_r. reflexivity.
Qed.

Lemma float_of_str_decimal w :
  is_decimal w -> converts (string_of_list_ascii w).
Proof.
  intros (ip & fp & Hne & Hip & Hfp & Hw). unfold converts, float_of_str.
  rewrite list_ascii_of_string_of_list_ascii.
  destruct ip as [|i0 ip]; [congruence|].
  destruct Hw as [->|[Fne ->]].
  - rewrite (span_all _ _ Hip). eexists. reflexivity.
  - rewrite (span_app _ _ _ Hip).
    change (span is_digit ("."%char :: fp)) with (@nil ascii, "."%char :: fp).
    cbn [fst snd]. rewrite app_nil_r. cbn.
    rewrite (span_all _ _ Hfp).
    destruct fp as [|f0 fp]; [congruence|].
    eexists. reflexivity.
Qed.

(** Every way a pattern matches captures as many groups as it has, and
    each of them converts. *)
Lemma runs_capture p :
  captures_decimals p ->
  forall s gs s', In (gs, s') (runs p s) ->
    length gs = groups p /\ Forall converts gs.
Proof.
  intros Hp. induction Hp as [|it p Hit _ IH]; intros s gs s' H.
  - destruct H as [H|[]]. inversion H. split; [reflexivity | constructor].
  - destruct it as [r|r]; cbn [runs] in H.
    + subst r. apply in_flat_map in H. destruct H as (s1 & H1 & H2).
      apply in_map_iff in H2. destruct H2 as ([gs2 s2] & E & H2).
      inversion E. subst. clear E.
      apply rests_decimal in H1. destruct H1 as (w & -> & Hw).
      destruct (IH _ _ _ H2) as [L F].
      rewrite captured_app. split.
      * unfold groups in *. simpl. rewrite L. reflexivity.
      * constructor; [apply float_of_str_decimal; exact Hw | exact F].
    + apply in_flat_map in H. destruct H as (s1 & _ & H2).
      exact (IH _ _ _ H2).
Qed.

Lemma scan_capture p :
  captures_decimals p ->
  forall s k m, In m (scan p s k) ->
    length m = groups p /\ Forall converts m.
Proof.
  intros Hp.
  assert (Hrun : forall s gs s' rest, runs p s = (gs, s') :: rest ->
                   length gs = groups p /\ Forall converts gs).
  { intros s gs s' rest E. apply (runs_capture p Hp s gs s'). rewrite E. left. reflexivity. }
  induction s as [|a t IH]; intros k m H.
  - destruct k; simpl in H; [|destruct H].
    destruct (runs p []) as [|[gs s'] rest] eqn:E; [destruct H|].
    destruct H as [<-|[]]. exact (Hrun _ _ _ _ E).
  - destruct k; cbn [scan] in H.
    + destruct (runs p (a :: t)) as [|[gs s'] rest] eqn:E.
      * exact (IH _ _ H).
      * destruct H as [<-|H]; [exact (Hrun _ _ _ _ E) | exact (IH _ _ H)].
    + exact (IH _ _ H).
Qed.

Lemma findall_capture p text m :
  captures_decimals (items p) ->
  In m (findall p text) ->
  length m = groups (items p) /\ Forall converts m.
Proof. intros Hp H. exact (scan_capture _ Hp _ _ _ H). Qed.

(** The pieces given for each pattern are what its source compiles to. *)
Lemma patterns_compile :
  Forall (fun p => compile (source p) = Some (items p)) patterns.
Proof. repeat constructor. Qed.

Lemma patterns_capture_decimals :
  Forall (fun p => captures_decimals (items p)) patterns.
Proof. repeat constructor. Qed.

End ReFacts.


(* ===================================================================== *)
(** * Claims on the interpretation of a description                       *)
(* ===================================================================== *)

Module InterpClaims.
Import Py Re Interp Spec ReFacts.
Local Open Scope float_scope.

Lemma converts_py_float g : converts g -> exists f, float_of_str g = Some f /\ py_float g = Return f.
Proof. intros [f F]. exists f. unfold py_float. rewrite F. split; reflexivity. Qed.

(** One turn of the loop for the paired pattern. *)
Lemma extract_step_pair text d :
  extract_step text pair_pattern d =
  Return (assign "height" (first_value pair_pattern 1 text)
            (assign "width" (first_value pair_pattern 0 text) d)).
Proof.
  unfold extract_step, first_value.
  destruct (findall pair_pattern (str_lower text)) as [|m ms] eqn:E; [reflexivity|].
  destruct (findall_capture pair_pattern (str_lower text) m) as [L F].
  { repeat constructor. }
  { rewrite E. left. reflexivity. }
  change (groups (items pair_pattern)) with 2%nat in L.
  destruct m as [|a [|b [|c m]]]; try discriminate L.
  inversion F as [|? ? Fa F']. inversion F' as [|? ? Fb _]. subst.
  destruct (converts_py_float a Fa) as (fa & Ea & Pa).
  destruct (converts_py_float b Fb) as (fb & Eb & Pb).
  change (record_match pair_pattern [a; b] d) with
    (obind (py_float a) (fun w => obind (py_float b) (fun h =>
       Return (<["height" := h]> (<["width" := w]> d))))).
  rewrite Pa. cbn [obind]. rewrite Pb. cbn [obind nth]. rewrite Ea, Eb. reflexivity.
Qed.

(** One turn of the loop for a pattern with one group that assigns
    [key]. *)
Lemma extract_step_single p key text d :
  captures_decimals (items p) ->
  groups (items p) = 1%nat ->
  (forall m d, record_match p m d
               = obind (py_float (nth 0 m "")) (fun v => Return (<[key := v]> d))) ->
  extract_step text p d = Return (assign key (first_value p 0 text) d).
Proof.
  intros Hp Hg Hr. unfold extract_step, first_value.
  destruct (findall p (str_lower text)) as [|m ms] eqn:E; [reflexivity|].
  destruct (findall_capture p (str_lower text) m Hp) as [L F].
  { rewrite E. left. reflexivity. }
  rewrite Hg in L. destruct m as [|a [|b m]]; try discriminate L.
  inversion F as [|? ? Fa _]. subst.
  destruct (converts_py_float a Fa) as (fa & Ea & Pa).
  rewrite Hr. cbn [nth]. rewrite Pa, Ea. reflexivity.
Qed.

(** [_extract_dimensions] always returns, and what it returns is read off
    the first match of each pattern, later patterns assigning last. *)
Lemma extract_dimensions_eq text :
  _extract_dimensions text =
  Return
    (assign "diameter" (first_value diameter_pattern 0 text)
       (assign "radius" (first_value radius_pattern 0 text)
          (assign "height" (first_value height_pattern 0 text)
             (assign "width" (first_value width_pattern 0 text)
                (assign "height" (first_value pair_pattern 1 text)
                   (assign "width" (first_value pair_pattern 0 text) ∅)))))).
Proof.
  unfold _extract_dimensions, patterns. cbn [extract_loop].
  rewrite extract_step_pair. cbn [obind].
  rewrite (extract_step_single width_pattern "width") by (try reflexivity; repeat constructor).
  cbn [obind].
  rewrite (extract_step_single height_pattern "height") by (try reflexivity; repeat constructor).
  cbn [obind].
  rewrite (extract_step_single radius_pattern "radius") by (try reflexivity; repeat constructor).
  cbn [obind].
  rewrite (extract_step_single diameter_pattern "diameter") by (try reflexivity; repeat constructor).
  reflexivity.
Qed.

Lemma dom_assign key v (d : gmap string float) (K : gset string) :
  key ∈ K -> dom d ⊆ K -> dom (assign key v d) ⊆ K.
Proof.
  intros HK Hd. destruct v; simpl; [|exact Hd].
  rewrite dom_insert_L. apply union_subseteq. split; [|exact Hd].
  apply singleton_subseteq_l. exact HK.
Qed.

(** Membership in a set of strings written out. *)
Ltac string_set :=
  rewrite ?elem_of_union, ?elem_of_singleton;
  intuition (reflexivity || discriminate).

Lemma lookup_assign key v (d : gmap string float) k :
  assign key v d !! k = if decide (key = k) then or_else v (d !! k) else d !! k.
Proof.
  destruct v as [f|]; simpl.
  - rewrite lookup_insert. destruct (decide (key = k)); reflexivity.
  - destruct (decide (key = k)); reflexivity.
Qed.

(** The paired pattern gives both of its values or none. *)
Lemma pair_values_together text :
  first_value pair_pattern 0 text = None <-> first_value pair_pattern 1 text = None.
Proof.
  unfold first_value.
  destruct (findall pair_pattern (str_lower text)) as [|m ms] eqn:E; [tauto|].
  destruct (findall_capture pair_pattern (str_lower text) m) as [L F].
  { repeat constructor. }
  { rewrite E. left. reflexivity. }
  change (groups (items pair_pattern)) with 2%nat in L.
  destruct m as [|a [|b [|c m]]]; try discriminate L.
  inversion F as [|? ? [fa Fa] F']. inversion F' as [|? ? [fb Fb] _]. subst.
  simpl. rewrite Fa, Fb. split; discriminate.
Qed.

(** A pattern gives a value exactly when it matches: the group of its
    first match always converts. *)
Lemma first_value_none p i text :
  In p patterns ->
  (i < groups (items p))%nat ->
  first_value p i text = None <-> findall p (str_lower text) = [].
Proof.
  intros Hp Hi. unfold first_value.
  destruct (findall p (str_lower text)) as [|m ms] eqn:E; [tauto|].
  split; [|discriminate]. intros N. exfalso.
  pose proof patterns_capture_decimals as P.
  rewrite List.Forall_forall in P. specialize (P p Hp).
  destruct (findall_capture p (str_lower text) m P) as [L F].
  { rewrite E. left. reflexivity. }
  rewrite List.Forall_forall in F.
  destruct (F (nth i m "")) as [f Ef].
  { apply nth_In. rewrite L. exact Hi. }
  congruence.
Qed.

(** C4, as stated, fails.  The specification opposes the type of the
    default category, taken from a sides-count heuristic, to the default
    "custom" of the type table; for the empty description the code
    returns that very default: [_identify_shape_type] falls through to
    its last line, and no sides count is looked at. *)
Lemma C4_counterexample :
  ~ (forall i, interpret_shape_request "" = Return i -> from_sides_count (type i)).
Proof.
  intros H.
  apply (H {| category := "geometric"; type := "custom"; dimensions := ∅;
              style := {| smoothness := "medium"; complexity := "medium" |};
              description := "" |}); reflexivity.
Qed.

(** C4 (amended): interpret_shape_request applied to the empty
    description returns category "geometric", shape type "custom" (the
    fall-through of _identify_shape_type, which has no entry for the
    category "geometric" whatever the text), an empty dimensions mapping,
    and style with smoothness "medium" and complexity "medium". *)
Theorem C4_empty_description :
  interpret_shape_request ""
  = Return {| category := "geometric"; type := "custom"; dimensions := ∅;
              style := {| smoothness := "medium"; complexity := "medium" |};
              description := "" |}
  /\ assoc "geometric" shape_types = None
  /\ forall text, _identify_shape_type text "geometric" = "custom".
Proof. split; [reflexivity|]. split; reflexivity. Qed.

(** C8: interpret_shape_request("bedroom floorplan 4x3m") returns
    category "architectural", type "floorplan" and the dimensions width
    4.0 and height 3.0; the paired pattern matches once, capturing "4"
    and "3", and no other pattern matches. *)
Theorem C8_bedroom_floorplan :
  interpret_shape_request "bedroom floorplan 4x3m"
  = Return {| category := "architectural"; type := "floorplan";
              dimensions := {[ "width" := 4; "height" := 3 ]};
              style := {| smoothness := "medium"; complexity := "medium" |};
              description := "bedroom floorplan 4x3m" |}
  /\ findall pair_pattern (str_lower "bedroom floorplan 4x3m") = [ ["4"; "3"] ]
  /\ map (fun p => findall p (str_lower "bedroom floorplan 4x3m"))
         [width_pattern; height_pattern; radius_pattern; diameter_pattern]
     = [ []; []; []; [] ].
Proof.
  split; [vm_compute; reflexivity|]. split; vm_compute; reflexivity.
Qed.

(** C9: for every input string [_extract_dimensions] returns a mapping
    whose keys are among "width", "height", "radius" and "diameter"; the
    key "teeth" is never there. *)
Theorem C9_dimension_keys :
  forall text,
    exists d, _extract_dimensions text = Return d
              /\ dom d ⊆ dimension_keys
              /\ d !! "teeth" = None.
Proof.
  intros text. rewrite extract_dimensions_eq. eexists. split; [reflexivity|].
  match goal with |- dom ?m ⊆ _ /\ _ => assert (D : dom m ⊆ dimension_keys) end.
  { unfold dimension_keys.
    repeat (apply dom_assign; [string_set|]).
    rewrite dom_empty_L. apply empty_subseteq. }
  split; [exact D|].
  apply not_elem_of_dom. intros T. apply D in T.
  unfold dimension_keys in T. revert T. string_set.
Qed.

(** C10: for every input string the mapping [_extract_dimensions]
    returns is decided by the first match of each pattern: "width" is
    the first match of the standalone width pattern if there is one, and
    otherwise the first number of the first "NxM" match; likewise
    "height"; "radius" and "diameter" come from the first match of their
    own pattern; a pattern gives a value exactly when it matches.  So
    two texts with the same first matches give the same mapping, and a
    standalone width or height overwrites the value of the pair. *)
Theorem C10_first_match_last_pattern :
  (forall text,
      exists d, _extract_dimensions text = Return d
        /\ d !! "width" = or_else (first_value width_pattern 0 text)
                                  (first_value pair_pattern 0 text)
        /\ d !! "height" = or_else (first_value height_pattern 0 text)
                                   (first_value pair_pattern 1 text)
        /\ d !! "radius" = first_value radius_pattern 0 text
        /\ d !! "diameter" = first_value diameter_pattern 0 text)
  /\ (forall p i text,
        In p patterns -> (i < groups (items p))%nat ->
        first_value p i text = None <-> findall p (str_lower text) = [])
  /\ (forall text1 text2,
        Forall (fun p => head (findall p (str_lower text1))
                         = head (findall p (str_lower text2))) patterns ->
        _extract_dimensions text1 = _extract_dimensions text2)
  /\ (findall width_pattern (str_lower "width 1 width 2") = [ ["1"]; ["2"] ]
      /\ _extract_dimensions "width 1 width 2" = Return {[ "width" := 1 ]})
  /\ (findall pair_pattern (str_lower "10x20 width: 5") = [ ["10"; "20"] ]
      /\ findall width_pattern (str_lower "10x20 width: 5") = [ ["5"] ]
      /\ _extract_dimensions "10x20 width: 5" = Return {[ "width" := 5; "height" := 20 ]}).
Proof.
  split; [|split; [|split; [|split]]].
  - intros text. rewrite extract_dimensions_eq. eexists. split; [reflexivity|].
    rewrite !lookup_assign.
    repeat match goal with |- context [decide (?a = ?b)] =>
      destruct (decide (a = b)) as [?|?]; try discriminate; try congruence end.
    rewrite !lookup_empty.
    destruct (first_value width_pattern 0 text), (first_value pair_pattern 0 text),
      (first_value height_pattern 0 text), (first_value pair_pattern 1 text),
      (first_value radius_pattern 0 text), (first_value diameter_pattern 0 text);
      repeat split; reflexivity.
  - exact first_value_none.
  - intros text1 text2 H.
    assert (V : forall p i, In p patterns -> first_value p i text1 = first_value p i text2).
    { intros p i Hp. rewrite List.Forall_forall in H. specialize (H p Hp).
      unfold first_value.
      destruct (findall p (str_lower text1)), (findall p (str_lower text2));
        simpl in H; congruence. }
    rewrite !extract_dimensions_eq.
    rewrite !(V _ _) by (simpl; tauto). reflexivity.
  - split; vm_compute; reflexivity.
  - split; [|split]; vm_compute; reflexivity.
Qed.

(** Two texts that differ only after the first match of every pattern. *)
Lemma C10_witness :
  Forall (fun p => head (findall p (str_lower "3x4 width 1 width 2"))
                   = head (findall p (str_lower "3x4 width 1 width 7 9x9"))) patterns
  /\ _extract_dimensions "3x4 width 1 width 2"
     = _extract_dimensions "3x4 width 1 width 7 9x9".
Proof.
  assert (F : Forall (fun p => head (findall p (str_lower "3x4 width 1 width 2"))
                   = head (findall p (str_lower "3x4 width 1 width 7 9x9"))) patterns).
  { repeat constructor. }
  split; [exact F|].
  exact (proj1 (proj2 (proj2 C10_first_match_last_pattern)) _ _ F).
Defined.

End InterpClaims.


(* ===================================================================== *)
(** * Claims on generation and on the public operations                   *)
(* ===================================================================== *)

Module ShapeClaims.
Import Py Drafting Interp Shape Spec MonadFacts.
Local Open Scope py_scope.

(** None of the builders the dispatch methods call is an attribute of
    the class. *)
Lemma undefined_builders_absent :
  forallb (fun name => negb (has_attribute name)) undefined_builders = true.
Proof. reflexivity. Qed.

(** What the branches of a placeholder interpretation do once the
    document exists: the attribute lookup fails. *)
Lemma placeholder_dispatch lib i w :
  placeholder_branch i = true ->
  self_doc w = true ->
  exists name,
    In name undefined_builders
    /\ generate_shape lib i w = (Raise (AttributeError class_name name), w).
Proof.
  intros P D. unfold generate_shape, bind, get. rewrite D. unfold ret.
  unfold placeholder_branch in P.
  unfold _generate_organic_shape, _generate_mechanical_shape,
    _generate_architectural_shape, _generate_decorative_shape,
    _generate_geometric_shape, call_undefined, raise.
  destruct (String.eqb (category i) "organic").
  { destruct (String.eqb (type i) "apple"); [discriminate P|].
    destruct (String.eqb (type i) "leaf"); eexists; (split; [|reflexivity]); simpl; tauto. }
  destruct (String.eqb (category i) "mechanical").
  { destruct (String.eqb (type i) "gear"); [discriminate P|].
    eexists; (split; [|reflexivity]); simpl; tauto. }
  destruct (String.eqb (category i) "architectural").
  { destruct (String.eqb (type i) "floorplan"); [discriminate P|].
    eexists; (split; [|reflexivity]); simpl; tauto. }
  destruct (String.eqb (category i) "decorative").
  { destruct (String.eqb (type i) "mandala"); [|destruct (String.eqb (type i) "spiral")];
      eexists; (split; [|reflexivity]); simpl; tauto. }
  eexists; (split; [|reflexivity]); simpl; tauto.
Qed.

Lemma create_document_sets_doc lib units_type w w' :
  create_document lib units_type w = (Return tt, w') -> self_doc w' = true.
Proof.
  unfold create_document. intros H.
  apply bind_return_inv in H. destruct H as (? & w1 & I1 & H).
  apply bind_return_inv in H. destruct H as (? & w2 & S2 & H).
  apply bind_return_inv in H. destruct H as (? & w3 & I3 & H).
  apply bind_return_inv in H. destruct H as (? & w4 & I4 & H).
  apply bind_return_inv in H. destruct H as (? & w5 & S5 & H).
  apply bind_return_inv in H. destruct H as (? & w6 & I6 & H).
  apply bind_return_inv in H. destruct H as (? & w7 & I7 & H).
  apply invoke_return_inv in I3, I4, I6, I7, H.
  inversion S2. inversion S5. subst. clear S2 S5.
  destruct I3 as (_ & D3 & _), I4 as (_ & D4 & _), I6 as (_ & D6 & _),
    I7 as (_ & D7 & _), H as (_ & D8 & _).
  rewrite D8, D7, D6. simpl. rewrite D4, D3. reflexivity.
Qed.

(** C1 (the code departs from it): an interpretation routed to a
    placeholder branch never gets a result from [generate_shape].  The
    builder the branch calls is not an attribute of the class, so the
    call raises AttributeError (or, before that, the creation of the
    document raised). *)
Theorem C1_placeholder_branches_raise :
  forall lib i w,
    placeholder_branch i = true ->
    (exists e w', generate_shape lib i w = (Raise e, w'))
    /\ (self_doc w = true ->
        exists name,
          In name undefined_builders /\ has_attribute name = false
          /\ generate_shape lib i w = (Raise (AttributeError class_name name), w))
    /\ (exists name w',
          In name undefined_builders
          /\ generate_shape recorder i w = (Raise (AttributeError class_name name), w')).
Proof.
  intros lib i w P.
  assert (A : forall name, In name undefined_builders -> has_attribute name = false).
  { intros name H. pose proof undefined_builders_absent as U.
    rewrite forallb_forall in U. apply negb_true_iff. apply U. exact H. }
  assert (G : forall lib0 w0, exists e w', generate_shape lib0 i w0 = (Raise e, w')).
  { intros lib0 w0. destruct (self_doc w0) eqn:D.
    - destruct (placeholder_dispatch lib0 i w0 P D) as (name & _ & E). eauto.
    - destruct (create_document lib0 "mm" w0) as [[[]|e] w1] eqn:C.
      + pose proof (create_document_sets_doc _ _ _ _ C) as D1.
        destruct (placeholder_dispatch lib0 i w1 P D1) as (name & _ & E).
        exists (AttributeError class_name name), w1.
        unfold generate_shape, bind, get in *. rewrite D, C. rewrite D1 in E. exact E.
      + exists e, w1. unfold generate_shape, bind, get. rewrite D, C. reflexivity. }
  split; [apply G|]. split.
  - intros D. destruct (placeholder_dispatch lib i w P D) as (name & I & E).
    exists name. split; [exact I|]. split; [apply A; exact I | exact E].
  - destruct (self_doc w) eqn:D.
    + destruct (placeholder_dispatch recorder i w P D) as (name & I & E). eauto.
    + destruct (create_document recorder "mm" w) as [[[]|e] w1] eqn:C.
      * pose proof (create_document_sets_doc _ _ _ _ C) as D1.
        destruct (placeholder_dispatch recorder i w1 P D1) as (name & I & E).
        exists name, w1. split; [exact I|].
        unfold generate_shape, bind, get in *. rewrite D, C. rewrite D1 in E. exact E.
      * exfalso. unfold create_document, bind in C.
        rewrite !invoke_recorder in C. simpl in C. discriminate C.
Qed.

(** The interpretation of the empty description, on a fresh generator. *)
Lemma C1_witness :
  let i := {| category := "geometric"; type := "custom"; dimensions := ∅;
              style := {| smoothness := "medium"; complexity := "medium" |};
              description := "" |} in
  interpret_shape_request "" = Return i
  /\ placeholder_branch i = true
  /\ exists e w', generate_shape recorder i fresh = (Raise e, w').
Proof.
  intros i.
  split; [reflexivity|]. split; [reflexivity|].
  exact (proj1 (C1_placeholder_branches_raise recorder i fresh eq_refl)).
Defined.

(** What the code does at that input. *)
Lemma generate_shape_empty_description :
  generate_shape recorder
    {| category := "geometric"; type := "custom"; dimensions := ∅;
       style := {| smoothness := "medium"; complexity := "medium" |};
       description := "" |} fresh
  = (Raise (AttributeError "Advanced2DShapeGenerator" "_create_polygon"),
     {| trace := [ New "R2010" true; SetUnits "MM"; Modelspace;
                   LayersAdd "CUT" 1; LayersAdd "ENGRAVE" 2; LayersAdd "MARK" 3 ];
        self_doc := true; self_msp := true |}).
Proof. reflexivity. Qed.

(** [interpret_shape_request] itself never raises. *)
Lemma interpret_shape_request_returns description :
  exists i, interpret_shape_request description = Return i.
Proof.
  unfold interpret_shape_request.
  rewrite InterpClaims.extract_dimensions_eq. cbn [obind]. eexists. reflexivity.
Qed.

(** [vectorize_text] always returns a dict, tagged true after a complete
    run and false, with the text of the exception, otherwise. *)
Lemma vectorize_text_returns lib text output_path fs layer w :
  exists r w',
    Vectorizer.vectorize_text lib text output_path fs layer w = (Return r, w')
    /\ ((Vectorizer.success r = true
         /\ Vectorizer.message r = "Texto vectorizado exitosamente: " +:+ text
         /\ Vectorizer.error r = None)
        \/ vectorize_failure r).
Proof.
  unfold Vectorizer.vectorize_text.
  match goal with |- context [try_except ?b _ w] =>
    destruct (try_except_total b
      (fun e => {| Vectorizer.success := false;
                   Vectorizer.message := "Error vectorizando texto: " +:+ str_of_exn e;
                   Vectorizer.file_path := None; Vectorizer.info := None;
                   Vectorizer.error := Some (str_of_exn e) |}) w)
      as (a & w2 & E & Hb)
  end.
  exists a, w2. split; [exact E|].
  destruct Hb as [Hb | (e & _ & ->)].
  - left.
    apply bind_return_inv in Hb. destruct Hb as (? & ? & _ & Hb).
    apply bind_return_inv in Hb. destruct Hb as (? & ? & _ & Hb).
    apply bind_return_inv in Hb. destruct Hb as (? & ? & _ & Hb).
    apply bind_return_inv in Hb. destruct Hb as (? & ? & _ & Hb).
    apply bind_return_inv in Hb. destruct Hb as (? & ? & _ & Hb).
    apply bind_return_inv in Hb. destruct Hb as (? & ? & _ & Hb).
    inversion Hb. subst. simpl. auto.
  - right. exists e. simpl. auto.
Qed.

(** [process_request] always returns a dict: the one of its handler, or
    the one that carries the tag and message of [save_document]. *)
Lemma process_request_returns lib description output_path w :
  exists r w',
    process_request lib description output_path w = (Return r, w')
    /\ ((exists i meta saved, r = process_done i meta saved)
        \/ (exists e, r = process_failure e)).
Proof.
  unfold process_request.
  match goal with |- context [try_except ?b _ w] =>
    destruct (try_except_total b process_failure w) as (a & w2 & E & Hb)
  end.
  exists a, w2. split; [exact E|].
  destruct Hb as [Hb | (e & _ & ->)].
  - left.
    apply bind_return_inv in Hb. destruct Hb as (i & ? & _ & Hb).
    apply bind_return_inv in Hb. destruct Hb as (meta & ? & _ & Hb).
    apply bind_return_inv in Hb. destruct Hb as (saved & ? & _ & Hb).
    inversion Hb. subst. exists i, meta, saved. reflexivity.
  - right. exists e. reflexivity.
Qed.

(** An exception out of [generate_shape] is what the handler of
    [process_request] receives. *)
Lemma process_request_catches_generate lib description output_path w i e w1 :
  interpret_shape_request description = Return i ->
  generate_shape lib i w = (Raise e, w1) ->
  process_request lib description output_path w = (Return (process_failure e), w1).
Proof.
  intros I G. unfold process_request, try_except, bind, lift.
  rewrite I, G. reflexivity.
Qed.

(** The three requests of the usage message of the program, with the
    recording library: the first is generated and saved; the two others
    are interpreted as the message says. *)
Lemma usage_examples :
  process_request recorder "apple logo 100mm" "apple.dxf" fresh
  = (Return
       (process_done
          {| category := "organic"; type := "apple"; dimensions := ∅;
             style := {| smoothness := "medium"; complexity := "medium" |};
             description := "apple logo 100mm" |}
          [ ("type", Str "apple_logo"); ("method", Str "bezier_curves");
            ("complexity", Str "high") ]
          {| save_success := true;
             save_message := "Advanced shape generated successfully";
             save_file_path := Some "apple.dxf";
             save_layers := Some ["CUT"; "ENGRAVE"; "MARK"];
             save_entities_count := Some 0%Z;
             save_error := None |}),
     {| trace := [ New "R2010" true; SetUnits "MM"; Modelspace;
                   LayersAdd "CUT" 1; LayersAdd "ENGRAVE" 2; LayersAdd "MARK" 3;
                   SetHeader "$CUSTOMPROPERTYTAG" "Generated by Ark Cutt Advanced 2D Generator";
                   SaveAs "apple.dxf"; LayerNames; CountEntities ];
        self_doc := true; self_msp := true |})
  /\ interpret_shape_request "12 tooth gear radius 50mm"
     = Return {| category := "mechanical"; type := "gear";
                 dimensions := {[ "radius" := 50%float ]};
                 style := {| smoothness := "medium"; complexity := "medium" |};
                 description := "12 tooth gear radius 50mm" |}
  /\ create_gear {[ "radius" := 50%float ]}
                 {| smoothness := "medium"; complexity := "medium" |}
     = [ ("type", Str "gear"); ("teeth_count", Num (Int 12));
         ("pitch_diameter", Num (Float 100)); ("tooth_height", Num (Float 10));
         ("method", Str "parametric_generation") ]
  /\ create_bedroom_floorplan {[ "width" := 4%float; "height" := 3%float ]}
                 {| smoothness := "medium"; complexity := "medium" |}
     = [ ("type", Str "floorplan"); ("room_type", Str "bedroom");
         ("dimensions", FString [Hole (Float 4); Lit "x"; Hole (Float 3); Lit "mm"]);
         ("method", Str "architectural_standards") ].
Proof. repeat split; vm_compute; reflexivity. Qed.

(** C2, as stated, fails: [generate_shape] has no handler.  On the
    interpretation of "mandala" an exception leaves it; and on the
    interpretation of "apple", whose branch is implemented, an exception
    of the library raised while the document is created leaves it too. *)
Lemma C2_counterexample :
  ~ (forall lib i w, exists r w', generate_shape lib i w = (Return r, w'))
  /\ generate_shape broken
       {| category := "organic"; type := "apple"; dimensions := ∅;
          style := {| smoothness := "medium"; complexity := "medium" |};
          description := "apple" |} fresh
     = (Raise (LibraryError "cannot create document"),
        {| trace := [ New "R2010" true ]; self_doc := false; self_msp := false |}).
Proof.
  split; [|reflexivity].
  intros H.
  destruct (H recorder
              {| category := "decorative"; type := "mandala"; dimensions := ∅;
                 style := {| smoothness := "medium"; complexity := "medium" |};
                 description := "mandala" |} fresh) as (r & w' & E).
  discriminate E.
Qed.

(** C2 (amended): for every input, vectorize_text and process_request
    catch every exception raised in their body and return a result
    tagged success or failure that carries a message; no exception
    reaches the caller of these two operations.  generate_shape has no
    handler of its own: an exception raised while it runs reaches its
    caller, and process_request, which calls it, turns it into a failure
    result. *)
Theorem C2_boundaries_catch :
  (forall lib text output_path fs layer w,
      exists r w',
        Vectorizer.vectorize_text lib text output_path fs layer w = (Return r, w')
        /\ ((Vectorizer.success r = true
             /\ Vectorizer.message r = "Texto vectorizado exitosamente: " +:+ text
             /\ Vectorizer.error r = None)
            \/ vectorize_failure r))
  /\ (forall lib description output_path w,
        exists r w',
          process_request lib description output_path w = (Return r, w')
          /\ ((exists i meta saved, r = process_done i meta saved)
              \/ (exists e, r = process_failure e)))
  /\ (forall lib description output_path w i e w1,
        interpret_shape_request description = Return i ->
        generate_shape lib i w = (Raise e, w1) ->
        process_request lib description output_path w
        = (Return (process_failure e), w1)).
Proof.
  split; [exact vectorize_text_returns|].
  split; [exact process_request_returns|].
  exact process_request_catches_generate.
Qed.

(** The request "detailed mandala": the exception of [generate_shape] comes back
    as a failure result. *)
Lemma C2_witness :
  let i := {| category := "decorative"; type := "mandala"; dimensions := ∅;
              style := {| smoothness := "medium"; complexity := "high" |};
              description := "detailed mandala" |} in
  let e := AttributeError "Advanced2DShapeGenerator" "_create_mandala" in
  let w1 := {| trace := [ New "R2010" true; SetUnits "MM"; Modelspace;
                          LayersAdd "CUT" 1; LayersAdd "ENGRAVE" 2; LayersAdd "MARK" 3 ];
               self_doc := true; self_msp := true |} in
  interpret_shape_request "detailed mandala" = Return i
  /\ generate_shape recorder i fresh = (Raise e, w1)
  /\ process_request recorder "detailed mandala" "mandala.dxf" fresh
     = (Return (process_failure e), w1)
  /\ fst (process_request broken "apple logo 100mm" "apple.dxf" fresh)
     = Return (process_failure (LibraryError "cannot create document"))
  /\ fst (Vectorizer.vectorize_text broken "ARKCUTT" "text.dxf" 50 "ENGRAVE" fresh)
     = Return {| Vectorizer.success := false;
                 Vectorizer.message := "Error vectorizando texto: cannot create document";
                 Vectorizer.file_path := None;
                 Vectorizer.info := None;
                 Vectorizer.error := Some "cannot create document" |}.
Proof.
  intros i e w1.
  assert (I : interpret_shape_request "detailed mandala" = Return i) by (vm_compute; reflexivity).
  assert (G : generate_shape recorder i fresh = (Raise e, w1)) by reflexivity.
  split; [exact I|]. split; [exact G|].
  split; [|split; vm_compute; reflexivity].
  exact (proj2 (proj2 C2_boundaries_catch) recorder "detailed mandala" "mandala.dxf"
           fresh i e w1 I G).
Defined.

End ShapeClaims.


(* ===================================================================== *)
(** * More on the interpretation of a description                         *)
(* ===================================================================== *)

Module InterpMore.
Import Py Re Interp Spec SpecMore ReFacts.
Local Open Scope float_scope.

(** Case analysis over the 256 characters. *)
Ltac each_char c :=
  destruct c as [b0 b1 b2 b3 b4 b5 b6 b7];
  destruct b0, b1, b2, b3, b4, b5, b6, b7.

Lemma lower_char_idem c : lower_char (lower_char c) = lower_char c.
Proof. each_char c; reflexivity. Qed.

Lemma str_lower_idem s : str_lower (str_lower s) = str_lower s.
Proof.
  induction s as [|c s IH]; [reflexivity|].
  cbn [str_lower]. rewrite lower_char_idem, IH. reflexivity.
Qed.

Lemma first_value_lower p i text :
  first_value p i (str_lower text) = first_value p i text.
Proof. unfold first_value. rewrite str_lower_idem. reflexivity. Qed.

Lemma extract_dimensions_lower text :
  _extract_dimensions (str_lower text) = _extract_dimensions text.
Proof.
  rewrite !InterpClaims.extract_dimensions_eq, !first_value_lower. reflexivity.
Qed.

(** What [interpret_shape_request] returns, written out. *)
Lemma interpret_eq description :
  exists dimensions,
    _extract_dimensions description = Return dimensions
    /\ interpret_shape_request description
       = Return {| category := match first_hit shape_patterns (str_lower description) with
                               | Some cat => cat
                               | None => "geometric"
                               end;
                   type := _identify_shape_type (str_lower description)
                             match first_hit shape_patterns (str_lower description) with
                             | Some cat => cat
                             | None => "geometric"
                             end;
                   dimensions := dimensions;
                   style := _extract_style_modifiers (str_lower description);
                   description := description |}.
Proof.
  unfold interpret_shape_request.
  rewrite InterpClaims.extract_dimensions_eq. cbn [obind].
  eexists. split; reflexivity.
Qed.

Lemma first_hit_in table text k :
  first_hit table text = Some k -> In k (map fst table).
Proof.
  unfold first_hit. destruct (find _ table) as [entry|] eqn:F; [|discriminate].
  intros H. inversion H. subst. apply find_some in F. apply in_map. exact (proj1 F).
Qed.

Lemma extract_dimensions_keys text d :
  _extract_dimensions text = Return d -> dom d ⊆ dimension_keys.
Proof.
  rewrite InterpClaims.extract_dimensions_eq. intros H. inversion H. subst.
  unfold dimension_keys.
  repeat (apply InterpClaims.dom_assign; [InterpClaims.string_set|]).
  rewrite dom_empty_L. apply empty_subseteq.
Qed.

(** X1: every description is interpreted (nothing is raised), and the
    result is well formed: the category is one of the five, the type is
    one the table has for that category or "custom", both style values
    are low, medium or high, the dimension keys are among width, height,
    radius and diameter, and the description is handed back unchanged. *)
Theorem X1_interpretation_well_formed :
  forall description,
    exists i,
      interpret_shape_request description = Return i
      /\ (exists types, assoc (category i) category_types = Some types /\ In (type i) types)
      /\ In (smoothness (style i)) levels
      /\ In (complexity (style i)) levels
      /\ dom (dimensions i) ⊆ dimension_keys
      /\ Interp.description i = description.
Proof.
  intros d. destruct (interpret_eq d) as (dims & E & I).
  eexists. split; [exact I|]. cbn [category type style dimensions Interp.description].
  split; [|split; [|split; [|split; [|reflexivity]]]].
  - destruct (first_hit shape_patterns (str_lower d)) as [cat|] eqn:C.
    + apply first_hit_in in C. simpl in C.
      unfold _identify_shape_type.
      destruct C as [<-|[<-|[<-|[<-|[<-|[]]]]]]; cbn [assoc find option_map String.eqb
        Ascii.eqb Bool.eqb fst snd shape_types category_types andb];
        try (eexists; split; [reflexivity|]);
        try (match goal with |- In (match first_hit ?t ?x with _ => _ end) _ =>
               destruct (first_hit t x) as [k|] eqn:K;
               [apply first_hit_in in K; simpl in K; simpl; tauto | simpl; tauto] end).
      simpl. tauto.
    + eexists. split; [reflexivity|]. simpl. tauto.
  - unfold _extract_style_modifiers, levels. cbn [smoothness].
    repeat destruct (any_in _ _); simpl; tauto.
  - unfold _extract_style_modifiers, levels. cbn [complexity].
    repeat destruct (any_in _ _); simpl; tauto.
  - exact (extract_dimensions_keys d dims E).
Qed.

(** X2: the interpretation does not depend on the case of the letters:
    a description and its lower-cased form get the same category, type,
    dimensions and style. *)
Theorem X2_interpretation_ignores_case :
  forall description,
    exists i j,
      interpret_shape_request description = Return i
      /\ interpret_shape_request (str_lower description) = Return j
      /\ category i = category j
      /\ type i = type j
      /\ dimensions i = dimensions j
      /\ style i = style j.
Proof.
  intros d.
  destruct (interpret_eq d) as (dims & E & I).
  destruct (interpret_eq (str_lower d)) as (dims' & E' & I').
  rewrite extract_dimensions_lower, E in E'. inversion E'. subst dims'.
  rewrite str_lower_idem in I'.
  eexists _, _. split; [exact I|]. split; [exact I'|].
  repeat split; reflexivity.
Qed.

Lemma smooth_words_are_organic text :
  any_in ["smooth"; "curved"; "organic"] text = true ->
  any_in ["apple"; "leaf"; "flower"; "organic"; "curved"; "smooth"] text = true.
Proof.
  unfold any_in. cbn [existsb].
  destruct (str_in "smooth" text), (str_in "curved" text), (str_in "organic" text),
    (str_in "apple" text), (str_in "leaf" text), (str_in "flower" text);
    simpl; intros H; try reflexivity; discriminate H.
Qed.

Lemma first_hit_organic text :
  first_hit shape_patterns text = Some "organic" <->
  any_in ["apple"; "leaf"; "flower"; "organic"; "curved"; "smooth"] text = true.
Proof.
  unfold first_hit, shape_patterns. cbn [find snd].
  destruct (any_in ["apple"; "leaf"; "flower"; "organic"; "curved"; "smooth"] text).
  - split; reflexivity.
  - split; [|discriminate]. intros H.
    repeat match type of H with
           | context [if ?b then _ else _] => destruct b; [discriminate H|]
           end.
    discriminate H.
Qed.

(** X3: the three words that make the smoothness high (smooth, curved,
    organic) are keywords of the first category, so a description with
    high smoothness is always organic, whatever else it names (a "smooth
    gear" is not mechanical); and an organic description of type
    "custom" always has high smoothness. *)
Theorem X3_high_smoothness_is_organic :
  forall description,
    exists i,
      interpret_shape_request description = Return i
      /\ (smoothness (style i) = "high" -> category i = "organic")
      /\ (category i = "organic" -> type i = "custom" -> smoothness (style i) = "high").
Proof.
  intros d. destruct (interpret_eq d) as (dims & _ & I).
  eexists. split; [exact I|]. cbn [category type style].
  set (t := str_lower d).
  assert (S : smoothness (_extract_style_modifiers t) = "high"
              <-> any_in ["smooth"; "curved"; "organic"] t = true).
  { unfold _extract_style_modifiers. cbn [smoothness].
    destruct (any_in ["smooth"; "curved"; "organic"] t).
    - split; reflexivity.
    - destruct (any_in ["sharp"; "angular"; "precise"] t); split; discriminate. }
  split.
  - intros H. apply S in H. apply smooth_words_are_organic in H.
    apply first_hit_organic in H. rewrite H. reflexivity.
  - intros C T. apply S.
    assert (O : first_hit shape_patterns t = Some "organic").
    { destruct (first_hit shape_patterns t); [congruence | discriminate C]. }
    rewrite O in T. apply first_hit_organic in O.
    unfold _identify_shape_type in T.
    cbn [assoc find option_map String.eqb Ascii.eqb Bool.eqb fst snd shape_types andb] in T.
    unfold first_hit in T. cbn [find snd fst option_map] in T.
    clear S C I. unfold any_in in *. cbn [existsb] in *.
    destruct (str_in "apple" t), (str_in "fruit" t), (str_in "leaf" t),
      (str_in "foliage" t), (str_in "flower" t), (str_in "petal" t),
      (str_in "bloom" t), (str_in "smooth" t), (str_in "curved" t),
      (str_in "organic" t);
      simpl in T, O |- *; try reflexivity; try discriminate T; discriminate O.
Qed.

(** "smooth gear": organic, not mechanical. *)
Lemma X3_witness :
  exists i,
    interpret_shape_request "smooth gear" = Return i
    /\ smoothness (style i) = "high"
    /\ category i = "organic"
    /\ type i = "custom".
Proof.
  destruct (X3_high_smoothness_is_organic "smooth gear") as (i & I & H & _).
  exists i. split; [exact I|].
  assert (E : interpret_shape_request "smooth gear"
              = Return {| category := "organic"; type := "custom"; dimensions := ∅;
                          style := {| smoothness := "high"; complexity := "medium" |};
                          description := "smooth gear" |}) by (vm_compute; reflexivity).
  rewrite E in I. inversion I. subst i. cbn.
  split; [reflexivity|]. split; [|reflexivity].
  apply H. reflexivity.
Defined.

(** The two keys the gear builder looks up, in the dimensions of a
    description. *)
Lemma extracted_radius_and_teeth text d :
  _extract_dimensions text = Return d ->
  d !! "radius" = first_value radius_pattern 0 text /\ d !! "teeth" = None.
Proof.
  rewrite InterpClaims.extract_dimensions_eq. intros H. inversion H. subst d.
  rewrite !InterpClaims.lookup_assign.
  repeat match goal with |- context [decide (?a = ?b)] =>
    destruct (decide (a = b)) as [?|?]; try discriminate; try congruence end.
  rewrite !lookup_empty.
  destruct (first_value radius_pattern 0 text); split; reflexivity.
Qed.

(** X4: for the dimensions of any description the gear builder reports
    12 teeth, the default, because no pattern extracts a tooth count;
    its pitch diameter and tooth height follow the radius of the
    description (twice it, and 0.2 times it), or the default radius 50
    when the description gives none.  A diameter in the description is
    not used. *)
Theorem X4_gear_from_description :
  forall description,
    exists i,
      interpret_shape_request description = Return i
      /\ assoc "teeth_count" (Shape.create_gear (dimensions i) (style i))
         = Some (Num (Int 12))
      /\ assoc "pitch_diameter" (Shape.create_gear (dimensions i) (style i))
         = Some (Num match first_value radius_pattern 0 description with
                     | Some r => Float (r * 2)
                     | None => Int 100
                     end)
      /\ assoc "tooth_height" (Shape.create_gear (dimensions i) (style i))
         = Some (Num match first_value radius_pattern 0 description with
                     | Some r => Float (r * 0.2)
                     | None => Float 10
                     end).
Proof.
  intros d. destruct (interpret_eq d) as (dims & E & I).
  eexists. split; [exact I|]. cbn [dimensions style].
  destruct (extracted_radius_and_teeth d dims E) as [R T].
  unfold Shape.create_gear, Shape.get_dimension. rewrite R, T.
  destruct (first_value radius_pattern 0 d); repeat split; reflexivity.
Qed.


(** ** Descriptions without a digit *)

Lemma many_digitless k s s' :
  digitless s = true -> In s' (many k s) -> digitless s' = true.
Proof.
  induction s as [|c t IH]; simpl.
  - intros _ [<-|[]]. reflexivity.
  - intros H. pose proof H as H'. apply andb_prop in H'. destruct H' as [_ Ht].
    destruct (in_class k c).
    + intros I. apply in_app_or in I. destruct I as [I|[<-|[]]].
      * exact (IH Ht I).
      * exact H.
    + intros [<-|[]]. exact H.
Qed.

(** What an expression leaves of a text without a digit has no digit. *)
Lemma rests_digitless r :
  forall s s', digitless s = true -> In s' (rests r s) -> digitless s' = true.
Proof.
  induction r as [|c|k|a IHa b IHb|a IHa b IHb|a IHa|k|k]; intros s s' H I; cbn [rests] in I.
  - destruct I as [<-|[]]. exact H.
  - destruct s as [|x t]; [destruct I|].
    apply andb_prop in H. destruct H as [_ Ht].
    destruct (Ascii.eqb x c); [|destruct I]. destruct I as [<-|[]]. exact Ht.
  - destruct s as [|x t]; [destruct I|].
    apply andb_prop in H. destruct H as [_ Ht].
    destruct (in_class k x); [|destruct I]. destruct I as [<-|[]]. exact Ht.
  - apply in_flat_map in I. destruct I as (s1 & I1 & I2).
    exact (IHb _ _ (IHa _ _ H I1) I2).
  - apply in_app_or in I. destruct I as [I|I]; [exact (IHa _ _ H I) | exact (IHb _ _ H I)].
  - apply in_app_or in I. destruct I as [I|[<-|[]]]; [exact (IHa _ _ H I) | exact H].
  - exact (many_digitless _ _ _ H I).
  - destruct s as [|x t]; [destruct I|].
    apply andb_prop in H. destruct H as [_ Ht].
    destruct (in_class k x); [|destruct I]. exact (many_digitless _ _ _ Ht I).
Qed.

Lemma decimal_needs_digit s : digitless s = true -> rests decimal s = [].
Proof.
  unfold decimal. cbn [rests]. destruct s as [|x t]; [reflexivity|].
  cbn [digitless forallb in_class]. intros H. apply andb_prop in H. destruct H as [Hx _].
  destruct (is_digit x); [discriminate Hx | reflexivity].
Qed.

Lemma flat_map_nil {A B} (f : A -> list B) (l : list A) :
  (forall a, In a l -> f a = []) -> flat_map f l = [].
Proof.
  induction l as [|a l IH]; intros H; [reflexivity|].
  cbn [flat_map]. rewrite (H a (or_introl eq_refl)), IH; [reflexivity|].
  intros b Hb. apply H. right. exact Hb.
Qed.

(** A pattern with a number to capture matches nowhere in a text without
    a digit. *)
Lemma runs_digitless p :
  Exists (fun it => it = Cap decimal) p ->
  forall s, digitless s = true -> runs p s = [].
Proof.
  induction p as [|it p IH]; intros E s H.
  - inversion E.
  - destruct it as [r|r]; cbn [runs].
    + inversion E as [? ? Q|? ? E']; subst.
      * inversion Q. rewrite (decimal_needs_digit s H). reflexivity.
      * apply flat_map_nil. intros s1 I.
        rewrite (IH E' s1 (rests_digitless _ _ _ H I)). reflexivity.
    + apply flat_map_nil. intros s1 I.
      assert (E' : Exists (fun it => it = Cap decimal) p).
      { inversion E as [? ? Q'|]; [discriminate Q' | assumption]. }
      exact (IH E' s1 (rests_digitless _ _ _ H I)).
Qed.


Lemma scan_digitless p :
  Exists (fun it => it = Cap decimal) p ->
  forall s k, digitless s = true -> scan p s k = [].
Proof.
  intros E. induction s as [|a t IH]; intros k H.
  - destruct k; [|reflexivity]. cbn [scan]. rewrite (runs_digitless p E [] H). reflexivity.
  - pose proof H as H'. apply andb_prop in H'. destruct H' as [_ Ht].
    destruct k; cbn [scan].
    + rewrite (runs_digitless p E _ H). exact (IH 0%nat Ht).
    + exact (IH k Ht).
Qed.

Lemma is_digit_lower c : is_digit (lower_char c) = is_digit c.
Proof. each_char c; reflexivity. Qed.

Lemma no_digit_lower s : no_digit (str_lower s) = no_digit s.
Proof.
  unfold no_digit. induction s as [|c s IH]; [reflexivity|].
  cbn [str_lower list_ascii_of_string forallb]. rewrite is_digit_lower, IH. reflexivity.
Qed.

Lemma patterns_capture_a_number :
  Forall (fun p => Exists (fun it => it = Cap decimal) (items p)) patterns.
Proof.
  unfold patterns. repeat match goal with |- Forall _ _ => constructor end; cbn;
    repeat (first [ apply Exists_cons_hd; reflexivity | apply Exists_cons_tl ]).
Qed.

Lemma first_value_no_digit p i text :
  In p patterns -> no_digit text = true -> first_value p i text = None.
Proof.
  intros P H. unfold first_value, findall.
  pose proof (proj1 (List.Forall_forall _ _) patterns_capture_a_number p P) as E.
  rewrite (scan_digitless _ E); [reflexivity|].
  change (no_digit (str_lower text) = true). rewrite no_digit_lower. exact H.
Qed.

(** X5: a description without any decimal digit gives no dimension at
    all: the dimensions of its interpretation are empty. *)
Theorem X5_no_digit_no_dimensions :
  forall description,
    no_digit description = true ->
    exists i,
      interpret_shape_request description = Return i /\ dimensions i = ∅.
Proof.
  intros d H. destruct (interpret_eq d) as (dims & E & I).
  eexists. split; [exact I|]. cbn [dimensions].
  rewrite InterpClaims.extract_dimensions_eq in E. inversion E.
  rewrite !first_value_no_digit by (try exact H; unfold patterns; simpl; tauto).
  reflexivity.
Qed.

Lemma X5_witness :
  no_digit "a smooth gear, width: unknown" = true
  /\ exists i, interpret_shape_request "a smooth gear, width: unknown" = Return i
               /\ dimensions i = ∅.
Proof.
  split; [reflexivity|].
  apply (X5_no_digit_no_dimensions "a smooth gear, width: unknown"). reflexivity.
Defined.


(** ** A pair of numbers "a x b" *)

Lemma list_ascii_of_string_app s1 s2 :
  list_ascii_of_string (s1 +:+ s2) = list_ascii_of_string s1 ++ list_ascii_of_string s2.
Proof.
  induction s1 as [|c s1 IH]; [reflexivity|].
  change (String c s1 +:+ s2) with (String c (s1 +:+ s2)).
  cbn [list_ascii_of_string app]. rewrite IH. reflexivity.
Qed.

Lemma list_lower s :
  list_ascii_of_string (str_lower s) = map lower_char (list_ascii_of_string s).
Proof.
  induction s as [|c s IH]; [reflexivity|].
  cbn [str_lower list_ascii_of_string map]. rewrite IH. reflexivity.
Qed.

Lemma plain_lower c : plain c = true -> lower_char c = c.
Proof. each_char c; intros H; try reflexivity; discriminate H. Qed.

Lemma map_lower_plain l : forallb plain l = true -> map lower_char l = l.
Proof.
  induction l as [|c l IH]; [reflexivity|]. cbn [forallb map]. intros H.
  apply andb_prop in H. destruct H as [Hc Hl]. rewrite (plain_lower c Hc), (IH Hl). reflexivity.
Qed.

Lemma digitless_lower l : digitless (map lower_char l) = digitless l.
Proof.
  unfold digitless. induction l as [|c l IH]; [reflexivity|].
  cbn [map forallb]. rewrite is_digit_lower, IH. reflexivity.
Qed.

Lemma forallb_weaken (p q : ascii -> bool) l :
  (forall c, p c = true -> q c = true) -> forallb p l = true -> forallb q l = true.
Proof.
  intros W. induction l as [|c l IH]; [reflexivity|]. cbn [forallb]. intros H.
  apply andb_prop in H. destruct H as [Hc Hl]. rewrite (W c Hc), (IH Hl). reflexivity.
Qed.

Lemma digit_plain c : is_digit c = true -> plain c = true.
Proof. unfold plain. intros ->. reflexivity. Qed.

Lemma space_plain c : in_class Space c = true -> plain c = true.
Proof. unfold plain. intros ->. rewrite !orb_true_r. reflexivity. Qed.

Lemma space_not_digit c : in_class Space c = true -> is_digit c = false.
Proof. each_char c; intros H; try reflexivity; discriminate H. Qed.

Lemma space_not_dot c : in_class Space c = true -> Ascii.eqb c "." = false.
Proof. each_char c; intros H; try reflexivity; discriminate H. Qed.

Lemma decimal_plain w : is_decimal w -> forallb plain w = true.
Proof.
  intros (ip & fp & _ & Hip & Hfp & [->|[_ ->]]).
  - exact (forallb_weaken _ _ _ digit_plain Hip).
  - rewrite forallb_app. cbn [forallb].
    rewrite (forallb_weaken _ _ _ digit_plain Hip), (forallb_weaken _ _ _ digit_plain Hfp).
    reflexivity.
Qed.

Lemma decimal_starts_with_digit w :
  is_decimal w -> exists d w', w = d :: w' /\ is_digit d = true.
Proof.
  intros (ip & fp & Hne & Hip & _ & Hw).
  destruct ip as [|d ip]; [congruence|].
  cbn [forallb] in Hip. apply andb_prop in Hip. destruct Hip as [Hd _].
  destruct Hw as [->|[_ ->]]; eexists _, _; (split; [reflexivity | exact Hd]).
Qed.

Lemma span_spec p l :
  forall a b, span p l = (a, b) -> l = a ++ b /\ forallb p a = true.
Proof.
  induction l as [|c l IH]; intros a b H; cbn [span] in H.
  - inversion H. split; reflexivity.
  - destruct (p c) eqn:P.
    + destruct (span p l) as [a' b'] eqn:E. inversion H. subst.
      destruct (IH _ _ eq_refl) as [-> Ha]. split; [reflexivity|].
      cbn [forallb]. rewrite P, Ha. reflexivity.
    + inversion H. split; reflexivity.
Qed.

(** The strings [float_of_str] converts are the numbers the patterns
    capture. *)
Lemma float_of_str_shape s f :
  float_of_str s = Some f -> is_decimal (list_ascii_of_string s).
Proof.
  unfold float_of_str.
  destruct (span is_digit (list_ascii_of_string s)) as [ip rest] eqn:E.
  destruct (span_spec _ _ _ _ E) as [L Hip]. rewrite L.
  destruct ip as [|i0 ip]; [discriminate|].
  destruct rest as [|c fp].
  - intros _. exists (i0 :: ip), []. rewrite app_nil_r.
    repeat split; [discriminate | exact Hip | left; reflexivity].
  - destruct (Ascii.eqb_spec c ".") as [->|N].
    + destruct (span is_digit fp) as [fa fb] eqn:F.
      destruct (span_spec _ _ _ _ F) as [-> Hfa].
      destruct fa as [|f0 fa]; [discriminate|]. destruct fb; [|discriminate].
      intros _. exists (i0 :: ip), (f0 :: fa). rewrite app_nil_r.
      repeat split; [discriminate | exact Hip | exact Hfa |].
      right. split; [discriminate | reflexivity].
    + intros H. exfalso. each_char c; try discriminate H. apply N. reflexivity.
Qed.

(** *** The first match of the paired pattern *)

Lemma many_nonempty k s : exists h tl, many k s = h :: tl.
Proof.
  induction s as [|c t (h & tl & IH)]; cbn [many].
  - eexists _, _. reflexivity.
  - destruct (in_class k c).
    + rewrite IH. eexists _, _. reflexivity.
    + eexists _, _. reflexivity.
Qed.

(** A greedy run takes the whole of [a] first when it cannot go on. *)
Lemma many_head k a t :
  forallb (in_class k) a = true -> stops k t = true ->
  exists tl, many k (a ++ t) = t :: tl.
Proof.
  intros Ha Ht. induction a as [|c a IH]; cbn [app].
  - destruct t as [|c t]; cbn [many]; [eexists; reflexivity|].
    cbn [stops] in Ht. apply negb_true_iff in Ht. rewrite Ht. eexists. reflexivity.
  - cbn [forallb] in Ha. apply andb_prop in Ha. destruct Ha as [Hc Ha].
    cbn [many]. rewrite Hc. destruct (IH Ha) as (tl & ->). eexists. reflexivity.
Qed.

Lemma many1_head a t :
  a <> [] -> forallb is_digit a = true -> stops Digit t = true ->
  exists tl, rests (Many1 Digit) (a ++ t) = t :: tl.
Proof.
  intros Hne Ha Ht. destruct a as [|c a]; [congruence|].
  cbn [forallb] in Ha. apply andb_prop in Ha. destruct Ha as [Hc Ha].
  cbn [app rests in_class]. rewrite Hc. exact (many_head Digit a t Ha Ht).
Qed.

Lemma rests_cat a b s : rests (Cat a b) s = flat_map (rests b) (rests a s).
Proof. reflexivity. Qed.

Lemma rests_opt a s : rests (Opt a) s = rests a s ++ [s].
Proof. reflexivity. Qed.

(** The number takes the whole of [w] first, when no digit follows and
    no fraction can be read from what follows. *)
Lemma rests_decimal_head w t :
  is_decimal w -> stops Digit t = true ->
  rests (Cat (Chr ".") (Many1 Digit)) t = [] ->
  exists tl, rests decimal (w ++ t) = t :: tl.
Proof.
  intros (ip & fp & Hne & Hip & Hfp & Hw) Ht Hfrac. unfold decimal.
  rewrite rests_cat. destruct Hw as [->|[Fne ->]].
  - destruct (many1_head ip t Hne Hip Ht) as (tl & ->).
    cbn [flat_map]. rewrite rests_opt, Hfrac. eexists. reflexivity.
  - rewrite <- app_assoc. cbn [app].
    destruct (many1_head ip ("."%char :: fp ++ t) Hne Hip eq_refl) as (tl & ->).
    cbn [flat_map]. rewrite rests_opt, rests_cat.
    change (rests (Chr ".") ("."%char :: fp ++ t)) with [fp ++ t].
    cbn [flat_map]. destruct (many1_head fp t Fne Hfp Ht) as (tl' & ->).
    eexists. reflexivity.
Qed.

Lemma runs_cap_head r p s t tl gs s'' tl' :
  rests r s = t :: tl -> runs p t = (gs, s'') :: tl' ->
  exists tl'', runs (Cap r :: p) s = (captured s t :: gs, s'') :: tl''.
Proof.
  intros R P. cbn [runs]. rewrite R. cbn [flat_map]. rewrite P.
  eexists. reflexivity.
Qed.

Lemma runs_skip_head r p s t tl gs s'' tl' :
  rests r s = t :: tl -> runs p t = (gs, s'') :: tl' ->
  exists tl'', runs (Skip r :: p) s = (gs, s'') :: tl''.
Proof.
  intros R P. cbn [runs]. rewrite R. cbn [flat_map]. rewrite P.
  eexists. reflexivity.
Qed.

Lemma scan_head p s gs s' tl :
  runs p s = (gs, s') :: tl -> exists tl', scan p s 0 = gs :: tl'.
Proof.
  intros R. destruct s; cbn [scan]; rewrite R; eexists; reflexivity.
Qed.

Lemma scan_pass p pre t :
  (forall c t', In c pre -> runs p (c :: t') = []) ->
  scan p (pre ++ t) 0 = scan p t 0.
Proof.
  induction pre as [|c pre IH]; intros H; [reflexivity|].
  cbn [app scan]. rewrite (H c _ (or_introl eq_refl)).
  apply IH. intros c' t' I. apply H. right. exact I.
Qed.

Lemma digitless_no_fraction t :
  digitless t = true -> rests (Cat (Chr ".") (Many1 Digit)) t = [].
Proof.
  intros H. rewrite rests_cat. destruct t as [|c t]; [reflexivity|].
  cbn [rests]. destruct (Ascii.eqb c "."); [|reflexivity].
  cbn [flat_map]. rewrite app_nil_r.
  destruct t as [|d t]; [reflexivity|].
  cbn [digitless forallb] in H. apply andb_prop in H. destruct H as [_ H].
  apply andb_prop in H. destruct H as [H _]. apply negb_true_iff in H.
  cbn [rests in_class]. rewrite H. reflexivity.
Qed.

Lemma digitless_stops t : digitless t = true -> stops Digit t = true.
Proof.
  destruct t as [|c t]; [reflexivity|]. cbn [digitless forallb stops in_class].
  intros H. apply andb_prop in H. exact (proj1 H).
Qed.

(** The two pieces after the second number always match. *)
Lemma pair_tail s :
  exists s' tl, runs [Skip (Many Space); Skip unit_suffix] s = ([], s') :: tl.
Proof.
  cbn [runs rests unit_suffix].
  destruct (many_nonempty Space s) as (h & tl & ->). cbn [flat_map].
  destruct (_ ++ _ ++ _) as [|x xs]; cbn; eexists _, _; reflexivity.
Qed.


Lemma digit_not_space c : is_digit c = true -> in_class Space c = false.
Proof.
  intros D. destruct (in_class Space c) eqn:S; [|reflexivity].
  apply space_not_digit in S. congruence.
Qed.

Lemma pair_first_match lpre la sp1 sp2 lb lrest :
  digitless lpre = true -> is_decimal la ->
  forallb (in_class Space) sp1 = true -> forallb (in_class Space) sp2 = true ->
  is_decimal lb -> digitless lrest = true ->
  exists tl,
    scan (items pair_pattern) (lpre ++ la ++ sp1 ++ "x"%char :: sp2 ++ lb ++ lrest) 0
    = [string_of_list_ascii la; string_of_list_ascii lb] :: tl.
Proof.
  intros Hpre Ha H1 H2 Hb Hrest.
  change (items pair_pattern)
    with [Cap decimal; Skip (Many Space); Skip (Chr "x"); Skip (Many Space);
          Cap decimal; Skip (Many Space); Skip unit_suffix].
  rewrite scan_pass.
  2:{ intros c t' I. unfold digitless in Hpre.
      pose proof (proj1 (List.forallb_forall _ _) Hpre c I) as Hc.
      apply negb_true_iff in Hc.
      cbn [runs]. unfold decimal. rewrite rests_cat. cbn [rests in_class].
      rewrite Hc. reflexivity. }
  destruct (pair_tail lrest) as (s' & tl7 & R7).
  destruct (rests_decimal_head lb lrest Hb (digitless_stops _ Hrest)
              (digitless_no_fraction _ Hrest)) as (tl5 & R5).
  destruct (runs_cap_head _ _ _ _ _ _ _ _ R5 R7) as (tl5' & P5).
  rewrite captured_app in P5.
  assert (S2 : stops Space (lb ++ lrest) = true).
  { destruct (decimal_starts_with_digit lb Hb) as (d & w' & -> & D).
    cbn [app stops]. rewrite (digit_not_space d D). reflexivity. }
  destruct (many_head Space sp2 (lb ++ lrest) H2 S2) as (tl4 & R4).
  destruct (runs_skip_head (Many Space) _ _ _ _ _ _ _ R4 P5) as (tl4' & P4).
  assert (R3 : rests (Chr "x") ("x"%char :: sp2 ++ lb ++ lrest) = [sp2 ++ lb ++ lrest])
    by reflexivity.
  destruct (runs_skip_head _ _ _ _ _ _ _ _ R3 P4) as (tl3' & P3).
  destruct (many_head Space sp1 ("x"%char :: sp2 ++ lb ++ lrest) H1 eq_refl) as (tl2 & R2).
  destruct (runs_skip_head (Many Space) _ _ _ _ _ _ _ R2 P3) as (tl2' & P2).
  assert (S1 : stops Digit (sp1 ++ "x"%char :: sp2 ++ lb ++ lrest) = true
               /\ rests (Cat (Chr ".") (Many1 Digit))
                    (sp1 ++ "x"%char :: sp2 ++ lb ++ lrest) = []).
  { destruct sp1 as [|c sp1]; [split; reflexivity|].
    cbn [forallb] in H1. apply andb_prop in H1. destruct H1 as [Hc _].
    cbn [app stops in_class]. rewrite (space_not_digit c Hc). split; [reflexivity|].
    rewrite rests_cat. cbn [rests]. rewrite (space_not_dot c Hc). reflexivity. }
  destruct (rests_decimal_head la _ Ha (proj1 S1) (proj2 S1)) as (tl1 & R1).
  destruct (runs_cap_head _ _ _ _ _ _ _ _ R1 P2) as (tl1' & P1).
  rewrite captured_app in P1.
  exact (scan_head _ _ _ _ _ P1).
Qed.

(** *** The keyword patterns find nothing *)

Lemma lit_runs word p :
  forall s,
    runs (map (fun c => Skip (Chr c)) word ++ p) s
    = match strip word s with
      | Some s' => runs p s'
      | None => []
      end.
Proof.
  induction word as [|k word IH]; intros s; [reflexivity|].
  cbn [map app runs rests strip]. destruct s as [|c t]; [reflexivity|].
  destruct (Ascii.eqb c k); [|reflexivity].
  cbn [flat_map]. rewrite app_nil_r. apply IH.
Qed.

Lemma strip_into_digit word :
  forall u d t,
    strip word u = None -> digitless word = true -> is_digit d = true ->
    strip word (u ++ d :: t) = None.
Proof.
  induction word as [|k word IH]; intros u d t N W D; [discriminate N|].
  cbn [digitless forallb] in W. apply andb_prop in W. destruct W as [Hk W].
  apply negb_true_iff in Hk.
  destruct u as [|c u]; cbn [app strip] in *.
  - destruct (Ascii.eqb_spec d k) as [->|_]; [congruence | reflexivity].
  - destruct (Ascii.eqb c k); [exact (IH _ _ _ N W D) | reflexivity].
Qed.

Lemma prefix_strip word :
  forall s, String.prefix word s = false ->
    strip (list_ascii_of_string word) (list_ascii_of_string s) = None.
Proof.
  induction word as [|k word IH]; intros s H.
  - destruct s; discriminate H.
  - destruct s as [|c s]; [reflexivity|].
    cbn [String.prefix] in H. cbn [list_ascii_of_string strip].
    destruct (ascii_dec k c) as [->|N].
    + rewrite Ascii.eqb_refl. exact (IH _ H).
    + destruct (Ascii.eqb_spec c k) as [->|_]; [congruence | reflexivity].
Qed.

Lemma str_in_strip word u1 :
  forall s u2,
    str_in word s = false -> list_ascii_of_string s = u1 ++ u2 ->
    strip (list_ascii_of_string word) u2 = None.
Proof.
  induction u1 as [|c u1 IH]; intros s u2 H L.
  - cbn [app] in L. subst u2.
    destruct s; cbn [str_in] in H; apply orb_false_elim in H;
      exact (prefix_strip _ _ (proj1 H)).
  - destruct s as [|c' s]; [discriminate L|].
    cbn [list_ascii_of_string app] in L. inversion L. subst c'.
    cbn [str_in] in H. apply orb_false_elim in H. exact (IH _ _ (proj2 H) H2).
Qed.

Lemma scan_nowhere p pre t :
  (forall u1 u2, pre = u1 ++ u2 -> u2 <> [] -> runs p (u2 ++ t) = []) ->
  (forall k, scan p t k = []) ->
  forall k, scan p (pre ++ t) k = [].
Proof.
  induction pre as [|c pre IH]; intros H Ht k; [exact (Ht k)|].
  assert (IH' : forall k, scan p (pre ++ t) k = []).
  { apply IH; [|exact Ht]. intros u1 u2 E N. apply (H (c :: u1) u2); [|exact N].
    rewrite E. reflexivity. }
  destruct k; cbn [app scan].
  - pose proof (H [] (c :: pre) eq_refl ltac:(discriminate)) as R.
    cbn [app] in R. rewrite R. exact (IH' 0%nat).
  - exact (IH' k).
Qed.

Lemma scan_chars p a t :
  (forall c t', In c a -> runs p (c :: t') = []) ->
  (forall k, scan p t k = []) ->
  forall k, scan p (a ++ t) k = [].
Proof.
  intros H. apply scan_nowhere. intros u1 u2 E N.
  destruct u2 as [|c u2]; [congruence|]. cbn [app]. apply H.
  rewrite E. apply in_or_app. right. left. reflexivity.
Qed.

Lemma keyword_nowhere kw lpre body lrest :
  In kw dimension_words ->
  (forall u1 u2, lpre = u1 ++ u2 -> strip (list_ascii_of_string kw) u2 = None) ->
  forallb plain body = true ->
  (exists d body', body = d :: body' /\ is_digit d = true) ->
  digitless lrest = true ->
  forall k, scan (keyword_items kw) (lpre ++ body ++ lrest) k = [].
Proof.
  intros K Hpre Hbody (d & body' & -> & D) Hrest.
  assert (W : digitless (list_ascii_of_string kw) = true
              /\ exists k0 w, list_ascii_of_string kw = k0 :: w /\ plain k0 = false).
  { destruct K as [<-|[<-|[<-|[<-|[]]]]]; (split; [reflexivity|]);
      eexists _, _; split; reflexivity. }
  destruct W as (Wd & k0 & w & Wk & Wp).
  unfold keyword_items. apply scan_nowhere.
  - intros u1 u2 E _. rewrite lit_runs. cbn [app].
    rewrite (strip_into_digit _ _ _ _ (Hpre u1 u2 E) Wd D). reflexivity.
  - apply scan_chars.
    + intros c t' I. rewrite lit_runs, Wk. cbn [strip].
      pose proof (proj1 (List.forallb_forall _ _) Hbody c I) as Pc.
      destruct (Ascii.eqb_spec c k0) as [->|_]; [congruence | reflexivity].
    + intros k. apply scan_digitless; [|exact Hrest].
      apply List.Exists_exists. exists (Cap decimal). split; [|reflexivity].
      apply in_or_app. right. right. right. left. reflexivity.
Qed.


(** X6: a pair of numbers "a x b" is read as width and height.  When the
    description holds two numbers a and b (digits, or digits, a dot and
    digits) separated by the letter x in either case, with white space
    allowed around it, when no other digit occurs in the description
    and none of the words width, height, radius and diameter occurs
    before the pair, the dimensions are exactly width = float(a) and
    height = float(b).  Text before the pair and a unit or other text
    after it do not matter. *)
Theorem X6_width_by_height :
  forall pre a sp1 sep sp2 b rest w h,
    no_digit pre = true ->
    any_in dimension_words (str_lower pre) = false ->
    float_of_str a = Some w ->
    all_space sp1 = true ->
    sep = "x" \/ sep = "X" ->
    all_space sp2 = true ->
    float_of_str b = Some h ->
    no_digit rest = true ->
    exists i,
      interpret_shape_request (pre +:+ a +:+ sp1 +:+ sep +:+ sp2 +:+ b +:+ rest) = Return i
      /\ dimensions i = <["height" := h]> (<["width" := w]> ∅).
Proof.
  intros pre a sp1 sep sp2 b rest w h Hpre Hkw Ha H1 Hsep H2 Hb Hrest.
  pose proof (float_of_str_shape _ _ Ha) as Da.
  pose proof (float_of_str_shape _ _ Hb) as Db.
  set (text := pre +:+ a +:+ sp1 +:+ sep +:+ sp2 +:+ b +:+ rest).
  set (lpre := map lower_char (list_ascii_of_string pre)).
  set (lrest := map lower_char (list_ascii_of_string rest)).
  set (la := list_ascii_of_string a) in *.
  set (lb := list_ascii_of_string b) in *.
  set (l1 := list_ascii_of_string sp1).
  set (l2 := list_ascii_of_string sp2).
  assert (P1 : forallb plain l1 = true) by exact (forallb_weaken _ _ _ space_plain H1).
  assert (P2 : forallb plain l2 = true) by exact (forallb_weaken _ _ _ space_plain H2).
  assert (L : list_ascii_of_string (str_lower text)
              = lpre ++ la ++ l1 ++ "x"%char :: l2 ++ lb ++ lrest).
  { unfold text. rewrite list_lower, !list_ascii_of_string_app, !map_app.
    fold lpre lrest la lb l1 l2.
    rewrite (map_lower_plain la (decimal_plain _ Da)), (map_lower_plain lb (decimal_plain _ Db)),
      (map_lower_plain l1 P1), (map_lower_plain l2 P2).
    destruct Hsep as [->| ->]; reflexivity. }
  assert (Dpre : digitless lpre = true).
  { unfold lpre. rewrite digitless_lower. exact Hpre. }
  assert (Drest : digitless lrest = true).
  { unfold lrest. rewrite digitless_lower. exact Hrest. }
  destruct (pair_first_match lpre la l1 l2 lb lrest Dpre Da H1 H2 Db Drest) as (tl & Pair).
  assert (KW : forall kw, In kw dimension_words ->
                 scan (keyword_items kw) (list_ascii_of_string (str_lower text)) 0 = []).
  { intros kw K. rewrite L.
    replace (la ++ l1 ++ "x"%char :: l2 ++ lb ++ lrest)
      with ((la ++ l1 ++ "x"%char :: l2 ++ lb) ++ lrest)
      by (repeat first [rewrite <- app_assoc | rewrite <- app_comm_cons]; reflexivity).
    apply keyword_nowhere; [exact K | | | | exact Drest].
    - intros u1 u2 E. unfold lpre in E. rewrite <- list_lower in E.
      unfold any_in, dimension_words in Hkw. cbn [existsb] in Hkw.
      repeat (apply orb_false_elim in Hkw; destruct Hkw as [? Hkw]).
      destruct K as [<-|[<-|[<-|[<-|[]]]]]; eapply str_in_strip; eassumption.
    - repeat first [rewrite forallb_app | progress cbn [forallb]].
      rewrite (decimal_plain _ Da), (decimal_plain _ Db), P1, P2. reflexivity.
    - destruct (decimal_starts_with_digit la Da) as (d & w' & E & D).
      rewrite E. eexists _, _. split; [reflexivity | exact D]. }
  destruct (interpret_eq text) as (dims & E & I).
  eexists. split; [exact I|]. cbn [dimensions].
  rewrite InterpClaims.extract_dimensions_eq in E. inversion E as [E']. clear E E' I.
  unfold first_value, findall.
  change (items width_pattern) with (keyword_items "width").
  change (items height_pattern) with (keyword_items "height").
  change (items radius_pattern) with (keyword_items "radius").
  change (items diameter_pattern) with (keyword_items "diameter").
  rewrite !KW by (unfold dimension_words; simpl; tauto).
  rewrite L, Pair. cbn [nth]. unfold la, lb.
  rewrite !string_of_list_ascii_of_string, Ha, Hb. reflexivity.
Qed.

Lemma X6_witness :
  exists i,
    interpret_shape_request "Plate 10.5 X20mm thick" = Return i
    /\ dimensions i = <["height" := 20%float]> (<["width" := 10.5%float]> ∅).
Proof.
  apply (X6_width_by_height "Plate " "10.5" " " "X" "" "20" "mm thick" 10.5%float 20%float);
    first [reflexivity | right; reflexivity].
Defined.


(** ** A keyword and its number *)

Lemma strip_same word t : strip word (word ++ t) = Some t.
Proof.
  induction word as [|k word IH]; [reflexivity|].
  cbn [app strip]. rewrite Ascii.eqb_refl. exact IH.
Qed.

(** One step of reading a keyword over a text that starts with the
    characters [u]. *)
Ltac keyword_step u :=
  let c := fresh "c" in
  let E := fresh "E" in
  destruct u as [|c u]; cbn [app strip list_ascii_of_string] in *;
  [ try reflexivity; try congruence
  | match goal with
    | |- context [Ascii.eqb c ?k] =>
        destruct (Ascii.eqb c k) eqn:E; [apply Ascii.eqb_eq in E; subst c | reflexivity]
    end ].

(** None of the four keywords overlaps itself: it cannot start inside
    the text before its first occurrence and run into that occurrence. *)
Lemma keyword_first kw u tail :
  In kw dimension_words ->
  strip (list_ascii_of_string kw) u = None -> u <> [] ->
  strip (list_ascii_of_string kw) (u ++ list_ascii_of_string kw ++ tail) = None.
Proof.
  intros K N U. destruct u as [|c0 u]; [congruence|]. clear U.
  destruct K as [<-|[<-|[<-|[<-|[]]]]]; cbn [app strip list_ascii_of_string] in *;
    (destruct (Ascii.eqb c0 _) eqn:E0; [|reflexivity]);
    repeat keyword_step u; discriminate N.
Qed.

Lemma scan_pass_positions p pre t :
  (forall u1 u2, pre = u1 ++ u2 -> u2 <> [] -> runs p (u2 ++ t) = []) ->
  scan p (pre ++ t) 0 = scan p t 0.
Proof.
  induction pre as [|c pre IH]; intros H; [reflexivity|].
  pose proof (H [] (c :: pre) eq_refl ltac:(discriminate)) as R.
  cbn [app] in R |- *. cbn [scan]. rewrite R.
  apply IH. intros u1 u2 E N. apply (H (c :: u1) u2); [|exact N].
  rewrite E. reflexivity.
Qed.

Lemma ends_number_spec t :
  ends_number t = true ->
  stops Digit t = true /\ rests (Cat (Chr ".") (Many1 Digit)) t = [].
Proof.
  destruct t as [|c t]; [split; reflexivity|].
  cbn [ends_number stops in_class]. intros H.
  apply andb_prop in H. destruct H as [Hc H]. split; [exact Hc|].
  rewrite rests_cat. cbn [rests]. destruct (Ascii.eqb c "."); [|reflexivity].
  cbn [flat_map]. rewrite app_nil_r. destruct t as [|d t]; [reflexivity|].
  cbn [andb] in H. apply negb_true_iff in H. cbn [rests in_class]. rewrite H. reflexivity.
Qed.

Lemma dot_lower c : Ascii.eqb (lower_char c) "." = Ascii.eqb c ".".
Proof. each_char c; reflexivity. Qed.

Lemma ends_number_lower l : ends_number (map lower_char l) = ends_number l.
Proof.
  destruct l as [|c [|d l]]; cbn [map ends_number]; [reflexivity| |];
    rewrite ?is_digit_lower, ?dot_lower; reflexivity.
Qed.

Lemma plain_not_colon c : plain c = true -> Ascii.eqb c ":" = false.
Proof. each_char c; intros H; try reflexivity; discriminate H. Qed.

(** The first way a keyword pattern matches at the keyword. *)
Lemma keyword_run kw colon sp num rest :
  colon = [] \/ colon = [":"%char] ->
  forallb (in_class Space) sp = true ->
  is_decimal num -> ends_number rest = true ->
  exists tl,
    runs (keyword_items kw) (list_ascii_of_string kw ++ colon ++ sp ++ num ++ rest)
    = ([string_of_list_ascii num], rest) :: tl.
Proof.
  intros Hc Hsp Hnum Hrest. unfold keyword_items. rewrite lit_runs, strip_same.
  destruct (ends_number_spec rest Hrest) as [S F].
  destruct (rests_decimal_head num rest Hnum S F) as (tl3 & R3).
  destruct (runs_cap_head decimal [] _ _ _ [] rest [] R3 eq_refl) as (tl3' & P3).
  rewrite captured_app in P3.
  destruct (decimal_starts_with_digit num Hnum) as (d & num' & En & D).
  assert (S2 : stops Space (num ++ rest) = true).
  { rewrite En. cbn [app stops]. rewrite (digit_not_space d D). reflexivity. }
  destruct (many_head Space sp (num ++ rest) Hsp S2) as (tl2 & R2).
  destruct (runs_skip_head (Many Space) _ _ _ _ _ _ _ R2 P3) as (tl2' & P2).
  assert (R1 : exists tl1, rests (Opt (Chr ":")) (colon ++ sp ++ num ++ rest)
                           = (sp ++ num ++ rest) :: tl1).
  { rewrite rests_opt. destruct Hc as [->| ->].
    - cbn [app]. assert (Pl : exists c t, sp ++ num ++ rest = c :: t /\ plain c = true).
      { destruct sp as [|c sp].
        - rewrite En. eexists _, _. split; [reflexivity | exact (digit_plain d D)].
        - cbn [forallb] in Hsp. apply andb_prop in Hsp.
          eexists _, _. split; [reflexivity | exact (space_plain c (proj1 Hsp))]. }
      destruct Pl as (c & t & -> & Pc). cbn [rests].
      rewrite (plain_not_colon c Pc). eexists. reflexivity.
    - cbn [app rests]. eexists. reflexivity. }
  destruct R1 as (tl1 & R1).
  destruct (runs_skip_head _ _ _ _ _ _ _ _ R1 P2) as (tl1' & P1).
  eexists. exact P1.
Qed.

(** X18: a keyword followed by a number gives that dimension.  When the
    first occurrence of one of the words width, height, radius,
    diameter (in any case) is followed by an optional colon, optional
    white space and a number that ends there, the dimensions hold that
    number under that key, whatever the rest of the description is. *)
Theorem X18_keyword_value :
  forall kw pre word colon sp num rest v,
    In kw dimension_words ->
    str_in kw (str_lower pre) = false ->
    str_lower word = kw ->
    colon = "" \/ colon = ":" ->
    all_space sp = true ->
    float_of_str num = Some v ->
    ends_number (list_ascii_of_string rest) = true ->
    exists i,
      interpret_shape_request (pre +:+ word +:+ colon +:+ sp +:+ num +:+ rest) = Return i
      /\ dimensions i !! kw = Some v.
Proof.
  intros kw pre word colon sp num rest v K Hpre Hword Hcolon Hsp Hnum Hrest.
  pose proof (float_of_str_shape _ _ Hnum) as Dn.
  set (text := pre +:+ word +:+ colon +:+ sp +:+ num +:+ rest).
  set (lpre := list_ascii_of_string (str_lower pre)).
  set (lrest := map lower_char (list_ascii_of_string rest)).
  set (ln := list_ascii_of_string num) in *.
  set (ls := list_ascii_of_string sp).
  set (lc := list_ascii_of_string colon).
  assert (L : list_ascii_of_string (str_lower text)
              = lpre ++ list_ascii_of_string kw ++ lc ++ ls ++ ln ++ lrest).
  { unfold text. rewrite list_lower, !list_ascii_of_string_app, !map_app.
    rewrite <- !list_lower, Hword. fold lpre. rewrite !list_lower. fold ln ls lc lrest.
    rewrite (map_lower_plain ln (decimal_plain _ Dn)),
      (map_lower_plain ls (forallb_weaken _ _ _ space_plain Hsp)).
    unfold lc. destruct Hcolon as [->| ->]; reflexivity. }
  assert (Hc : lc = [] \/ lc = [":"%char]).
  { unfold lc. destruct Hcolon as [->| ->]; [left | right]; reflexivity. }
  assert (Er : ends_number lrest = true).
  { unfold lrest. rewrite ends_number_lower. exact Hrest. }
  destruct (keyword_run kw lc ls ln lrest Hc Hsp Dn Er) as (tl & Run).
  assert (F : first_value {| source := ""; items := keyword_items kw |} 0 text = Some v).
  { unfold first_value, findall. cbn [items]. rewrite L, scan_pass_positions.
    - destruct (scan_head _ _ _ _ _ Run) as (tl' & ->). cbn [nth]. unfold ln.
      rewrite string_of_list_ascii_of_string. exact Hnum.
    - intros u1 u2 E N. unfold keyword_items. rewrite lit_runs.
      rewrite (keyword_first kw u2 _ K); [reflexivity | | exact N].
      exact (str_in_strip kw u1 (str_lower pre) u2 Hpre E). }
  destruct (interpret_eq text) as (dims & E & I).
  eexists. split; [exact I|]. cbn [dimensions].
  rewrite InterpClaims.extract_dimensions_eq in E. inversion E as [E']. clear E E' I.
  unfold first_value, findall in F |- *. cbn [items] in F.
  change (items width_pattern) with (keyword_items "width").
  change (items height_pattern) with (keyword_items "height").
  change (items radius_pattern) with (keyword_items "radius").
  change (items diameter_pattern) with (keyword_items "diameter").
  destruct K as [<-|[<-|[<-|[<-|[]]]]];
    rewrite !InterpClaims.lookup_assign;
    repeat match goal with |- context [decide (?a = ?b)] =>
      destruct (decide (a = b)) as [?|?]; try discriminate; try congruence end;
    rewrite ?F; try reflexivity;
    repeat match goal with |- context [match ?x with Some _ => _ | None => _ end] =>
      destruct x end; reflexivity.
Qed.

Lemma X18_witness :
  exists i,
    interpret_shape_request "12 tooth gear Radius: 50mm" = Return i
    /\ dimensions i !! "radius" = Some 50%float.
Proof.
  apply (X18_keyword_value "radius" "12 tooth gear " "Radius" ":" " " "50" "mm" 50%float);
    first [reflexivity | right; reflexivity | simpl; tauto].
Defined.

End InterpMore.


(* ===================================================================== *)
(** * More on generation, saving and the agent                            *)
(* ===================================================================== *)

Module ShapeMore.
Import Py Drafting Interp Shape Spec SpecMore MonadFacts RunFacts.
Local Open Scope py_scope.

(** Opens every call to the library in the goal, by cases on whether it
    raises. *)
Ltac by_raises lib :=
  repeat (match goal with
          | |- context [raises lib ?t ?c] => destruct (raises lib t c)
          end; cbn [trace self_doc self_msp]).

Ltac trace_done :=
  cbn [trace self_doc self_msp]; rewrite <- ?app_assoc; cbn [app];
  first [reflexivity | rewrite app_nil_r; reflexivity].

(** What a run of [create_document] does. *)
Lemma create_document_run lib w :
  exists o w' done,
    create_document lib "mm" w = (o, w')
    /\ trace w' = trace w ++ done
    /\ done `prefix_of` document_calls
    /\ (o = Return tt -> done = document_calls /\ self_doc w' = true /\ self_msp w' = true).
Proof.
  unfold create_document, bind, invoke, set_doc, set_msp.
  change (str_upper "mm") with "MM". cbn [trace self_doc self_msp].
  by_raises lib;
    (eexists _, _, _; split; [reflexivity|]; split; [trace_done|];
     split; [eexists; reflexivity|]; intros H; try discriminate H;
     repeat split; reflexivity).
Qed.

Ltac dispatch i :=
  unfold _generate_organic_shape, _generate_mechanical_shape,
    _generate_architectural_shape, _generate_decorative_shape,
    _generate_geometric_shape, call_undefined, raise, ret, placeholder_branch;
  destruct (String.eqb (category i) "organic"),
    (String.eqb (category i) "mechanical"),
    (String.eqb (category i) "architectural"),
    (String.eqb (category i) "decorative"),
    (String.eqb (type i) "apple"), (String.eqb (type i) "leaf"),
    (String.eqb (type i) "gear"), (String.eqb (type i) "floorplan"),
    (String.eqb (type i) "mandala"), (String.eqb (type i) "spiral").

(** Once a document exists [generate_shape] leaves the state alone: it
    only picks a builder, and its outcome depends on the interpretation
    alone. *)
Lemma generate_shape_dispatch i :
  exists o,
    (forall lib w, self_doc w = true -> generate_shape lib i w = (o, w))
    /\ (placeholder_branch i = false <-> exists meta, o = Return meta).
Proof.
  assert (H : exists o, forall lib w, self_doc w = true -> generate_shape lib i w = (o, w)).
  { unfold generate_shape, bind, get.
    dispatch i; eexists; intros lib w ->; reflexivity. }
  destruct H as (o & H). exists o. split; [exact H|].
  specialize (H recorder {| trace := []; self_doc := true; self_msp := true |} eq_refl).
  revert H. unfold generate_shape, bind, get. cbn [self_doc].
  dispatch i; intros H; inversion H; subst; split; intros Q;
    try discriminate Q; try (eexists; reflexivity);
    try (destruct Q as [meta Q]; discriminate Q); reflexivity.
Qed.

Lemma generate_shape_run lib i w :
  exists o w' done,
    generate_shape lib i w = (o, w')
    /\ trace w' = trace w ++ done
    /\ done `prefix_of` document_calls
    /\ lines_of (trace w') = lines_of (trace w)
    /\ (self_doc w = true -> done = [] /\ w' = w)
    /\ (forall meta, o = Return meta ->
          self_doc w' = true
          /\ placeholder_branch i = false
          /\ (self_doc w = false -> done = document_calls /\ self_msp w' = true)).
Proof.
  destruct (generate_shape_dispatch i) as (o & G & P).
  destruct (self_doc w) eqn:D.
  - exists o, w, []. rewrite (G lib w D), app_nil_r.
    split; [reflexivity|]. split; [reflexivity|]. split; [apply prefix_nil|].
    split; [reflexivity|]. split; [auto|].
    intros meta ->. split; [exact D|]. split; [|discriminate].
    apply P. eexists. reflexivity.
  - destruct (create_document_run lib w) as (o1 & w1 & done & C & T & Pre & R).
    assert (L : lines_of (trace w1) = lines_of (trace w)).
    { rewrite T, lines_of_app, (lines_of_prefix _ _ Pre eq_refl), app_nil_r. reflexivity. }
    destruct o1 as [[]|e].
    + destruct (R eq_refl) as (-> & D1 & M1).
      exists o, w1, document_calls.
      split.
      { pose proof (G lib w1 D1) as G1. unfold generate_shape, bind, get in G1 |- *.
        rewrite D1 in G1. rewrite D, C. exact G1. }
      split; [exact T|]. split; [exact Pre|]. split; [exact L|].
      split; [discriminate|].
      intros meta ->. split; [exact D1|]. split; [|auto].
      apply P. eexists. reflexivity.
    + exists (Raise e), w1, done.
      split. { unfold generate_shape, bind, get. rewrite D, C. reflexivity. }
      split; [exact T|]. split; [exact Pre|]. split; [exact L|].
      split; [discriminate|]. intros meta Q. discriminate Q.
Qed.


(** X7: [generate_shape] never draws.  When the generator already has a
    document it makes no library call and leaves the state as it is;
    otherwise its only calls are those of [create_document], all six of
    them when it returns.  No call adds an entity to the drawing,
    whatever the interpretation, and it returns only for an
    interpretation whose builder exists. *)
Theorem X7_generate_shape_never_draws :
  forall lib i w,
    exists o w' done,
      generate_shape lib i w = (o, w')
      /\ trace w' = trace w ++ done
      /\ done `prefix_of` document_calls
      /\ lines_of (trace w') = lines_of (trace w)
      /\ (self_doc w = true -> done = [] /\ w' = w)
      /\ (forall meta, o = Return meta ->
            self_doc w' = true
            /\ placeholder_branch i = false
            /\ (self_doc w = false -> done = document_calls /\ self_msp w' = true)).
Proof. exact generate_shape_run. Qed.

(** *** [create_document] and [save_document] as lists of calls *)

Lemma create_document_script lib w :
  fst (create_document lib "mm" w) = fst (run_calls lib document_calls w)
  /\ trace (snd (create_document lib "mm" w)) = trace (snd (run_calls lib document_calls w))
  /\ (fst (create_document lib "mm" w) = Return tt ->
        self_doc (snd (create_document lib "mm" w)) = true
        /\ self_msp (snd (create_document lib "mm" w)) = true).
Proof.
  unfold create_document, document_calls, run_calls, bind, invoke, set_doc, set_msp, ret.
  change (str_upper "mm") with "MM". cbn [trace self_doc self_msp].
  by_raises lib; cbn [fst snd trace self_doc self_msp];
    (split; [reflexivity|]; split; [reflexivity|]; intros H; try discriminate H;
     split; reflexivity).
Qed.

(** What a run of [create_document] does, for any library. *)
Lemma create_document_outcome lib w :
  exists o w' done,
    create_document lib "mm" w = (o, w')
    /\ trace w' = trace w ++ done
    /\ ((o = Return tt /\ done = document_calls
         /\ passes lib (trace w) document_calls = true
         /\ self_doc w' = true /\ self_msp w' = true)
        \/ (exists e pre c,
              o = Raise e /\ done = pre ++ [c]
              /\ stops_at lib (trace w) document_calls pre c e)).
Proof.
  destruct (create_document_script lib w) as (F & T & S).
  destruct (run_calls_spec lib document_calls w) as (o & w1 & done & R & T1 & _ & _ & H).
  rewrite R in F, T. cbn [fst snd] in F, T.
  destruct (create_document lib "mm" w) as [o' w'] eqn:C. cbn [fst snd] in *. subst o'.
  exists o, w', done. split; [reflexivity|]. split; [rewrite T; exact T1|].
  destruct H as [(-> & -> & P)|(e & pre & c & -> & -> & St)].
  - left. destruct (S eq_refl) as [D Ms]. repeat split; assumption.
  - right. exists e, pre, c. split; [reflexivity|]. split; [reflexivity | exact St].
Qed.

Lemma save_document_no_document lib output_path w :
  self_doc w = false ->
  save_document lib output_path w
  = (Return (save_failure (Exception "No document to save")), w).
Proof.
  intros D. unfold save_document, try_except, bind, get, raise, ret. rewrite D. reflexivity.
Qed.

Lemma save_document_script lib output_path w :
  self_doc w = true -> self_msp w = true ->
  save_document lib output_path w
  = match run_calls lib (save_calls output_path) w with
    | (Return _, w') => (Return (saved lib (trace w) output_path), w')
    | (Raise e, w') => (Return (save_failure e), w')
    end.
Proof.
  intros D Ms.
  unfold save_document, save_calls, run_calls, try_except, bind, get, invoke, ret, raise.
  rewrite D. cbn [trace self_doc self_msp]. rewrite Ms.
  by_raises lib; rewrite ?D, ?Ms; try reflexivity.
  unfold saved, save_calls. cbn [firstn]. rewrite <- !app_assoc. reflexivity.
Qed.

Lemma save_document_script_no_modelspace lib output_path w :
  self_doc w = true -> self_msp w = false ->
  save_document lib output_path w
  = match run_calls lib (firstn 3 (save_calls output_path)) w with
    | (Return _, w') =>
        (Return (save_failure (TypeError "'NoneType' object is not iterable")), w')
    | (Raise e, w') => (Return (save_failure e), w')
    end.
Proof.
  intros D Ms.
  unfold save_document, save_calls, run_calls, try_except, bind, get, invoke, ret, raise.
  cbn [firstn]. rewrite D. cbn [trace self_doc self_msp]. rewrite Ms.
  by_raises lib; rewrite ?D, ?Ms; reflexivity.
Qed.

(** What a run of [save_document] does, for any library and state. *)
Lemma save_document_outcome lib output_path w :
  exists r w' done,
    save_document lib output_path w = (Return r, w')
    /\ trace w' = trace w ++ done
    /\ self_doc w' = self_doc w /\ self_msp w' = self_msp w
    /\ ((self_doc w = false /\ done = []
         /\ r = save_failure (Exception "No document to save"))
        \/ (self_doc w = true
            /\ exists e pre c,
                 stops_at lib (trace w)
                          (if self_msp w then save_calls output_path
                           else firstn 3 (save_calls output_path)) pre c e
                 /\ done = pre ++ [c]
                 /\ r = save_failure e)
        \/ (self_doc w = true /\ self_msp w = false
            /\ passes lib (trace w) (firstn 3 (save_calls output_path)) = true
            /\ done = firstn 3 (save_calls output_path)
            /\ r = save_failure (TypeError "'NoneType' object is not iterable"))
        \/ (self_doc w = true /\ self_msp w = true
            /\ passes lib (trace w) (save_calls output_path) = true
            /\ done = save_calls output_path
            /\ r = saved lib (trace w) output_path)).
Proof.
  destruct (self_doc w) eqn:D.
  - destruct (self_msp w) eqn:Ms.
    + rewrite (save_document_script lib output_path w D Ms).
      destruct (run_calls_spec lib (save_calls output_path) w)
        as (o & w' & done & -> & T & D' & Ms' & H).
      rewrite D in D'. rewrite Ms in Ms'.
      destruct H as [(-> & -> & P)|(e & pre & c & -> & -> & St)].
      * eexists _, w', _. split; [reflexivity|]. split; [exact T|].
        split; [exact D'|]. split; [exact Ms'|]. right. right. right.
        repeat split. exact P.
      * eexists _, w', _. split; [reflexivity|]. split; [exact T|].
        split; [exact D'|]. split; [exact Ms'|]. right. left.
        split; [reflexivity|]. exists e, pre, c.
        split; [exact St|]. split; reflexivity.
    + rewrite (save_document_script_no_modelspace lib output_path w D Ms).
      destruct (run_calls_spec lib (firstn 3 (save_calls output_path)) w)
        as (o & w' & done & -> & T & D' & Ms' & H).
      rewrite D in D'. rewrite Ms in Ms'.
      destruct H as [(-> & -> & P)|(e & pre & c & -> & -> & St)].
      * eexists _, w', _. split; [reflexivity|]. split; [exact T|].
        split; [exact D'|]. split; [exact Ms'|]. right. right. left.
        repeat split. exact P.
      * eexists _, w', _. split; [reflexivity|]. split; [exact T|].
        split; [exact D'|]. split; [exact Ms'|]. right. left.
        split; [reflexivity|]. exists e, pre, c.
        split; [exact St|]. split; reflexivity.
  - rewrite (save_document_no_document lib output_path w D).
    eexists _, w, []. split; [reflexivity|]. split; [rewrite app_nil_r; reflexivity|].
    split; [exact D|]. split; [reflexivity|]. left. repeat split.
Qed.

(** X8: [save_document] never raises, and what it does is fixed by the
    state and by the library.  Without a document it makes no call and
    reports "No document to save".  With one, its calls are, in order,
    the header, the save, the layer names and the entity count.  When a
    call raises, every call before it passed, none is made after it, and
    the failure reported carries the text of that exception.  When the
    generator has no modelspace the first three calls are made and the
    failure is that of counting the entities of nothing.  Success is
    reported exactly when all four calls passed, with the path, the
    layers and the entity count the library answers. *)
Theorem X8_save_document_contract :
  forall lib output_path w,
    exists r w' done,
      save_document lib output_path w = (Return r, w')
      /\ trace w' = trace w ++ done
      /\ self_doc w' = self_doc w /\ self_msp w' = self_msp w
      /\ ((self_doc w = false /\ done = []
           /\ r = save_failure (Exception "No document to save"))
          \/ (self_doc w = true
              /\ exists e pre c,
                   stops_at lib (trace w)
                            (if self_msp w then save_calls output_path
                             else firstn 3 (save_calls output_path)) pre c e
                   /\ done = pre ++ [c]
                   /\ r = save_failure e)
          \/ (self_doc w = true /\ self_msp w = false
              /\ passes lib (trace w) (firstn 3 (save_calls output_path)) = true
              /\ done = firstn 3 (save_calls output_path)
              /\ r = save_failure (TypeError "'NoneType' object is not iterable"))
          \/ (self_doc w = true /\ self_msp w = true
              /\ passes lib (trace w) (save_calls output_path) = true
              /\ done = save_calls output_path
              /\ r = saved lib (trace w) output_path)).
Proof. exact save_document_outcome. Qed.

(** Whether the builder exists, read off the description. *)
Lemma placeholder_supported description i :
  interpret_shape_request description = Return i ->
  negb (placeholder_branch i) = supported_request description.
Proof.
  destruct (InterpMore.interpret_eq description) as (dims & _ & ->).
  intros H. inversion H. subst i. clear H.
  unfold placeholder_branch, supported_request, _identify_shape_type, first_hit,
    shape_patterns, shape_types.
  cbn [category type find fst snd option_map].
  set (text := str_lower description).
  repeat (match goal with
          | |- context [if any_in ?l text then _ else _] =>
              let E := fresh "E" in destruct (any_in l text) eqn:E
          end;
          cbn -[any_in];
          repeat match goal with
                 | H : any_in ?l text = _ |- context [any_in ?l text] => rewrite H
                 end);
    reflexivity.
Qed.


(** *** The whole request, on a new agent *)

Lemma generate_shape_new lib i o w :
  (forall lib' w', self_doc w' = true -> generate_shape lib' i w' = (o, w')) ->
  self_doc w = false ->
  generate_shape lib i w
  = match create_document lib "mm" w with
    | (Return _, w1) => (o, w1)
    | (Raise e, w1) => (Raise e, w1)
    end.
Proof.
  intros G D.
  destruct (create_document lib "mm" w) as [[[]|e] w1] eqn:C.
  - pose proof (ShapeClaims.create_document_sets_doc _ _ _ _ C) as D1.
    pose proof (G lib w1 D1) as G1. unfold generate_shape, bind, get in G1 |- *.
    rewrite D1 in G1. rewrite D, C. exact G1.
  - unfold generate_shape, bind, get. rewrite D, C. reflexivity.
Qed.

(** What a request on a new agent does, for any library. *)
Lemma process_request_outcome lib description output_path :
  exists i o r w' done,
    interpret_shape_request description = Return i
    /\ (forall lib' w, self_doc w = true -> generate_shape lib' i w = (o, w))
    /\ (placeholder_branch i = false <-> exists meta, o = Return meta)
    /\ process_request lib description output_path fresh = (Return r, w')
    /\ trace w' = done
    /\ lines_of done = []
    /\ ((exists e pre c,
           stops_at lib [] document_calls pre c e
           /\ done = pre ++ [c]
           /\ r = process_failure e)
        \/ (passes lib [] document_calls = true
            /\ exists e,
                 o = Raise e
                 /\ done = document_calls
                 /\ r = process_failure e)
        \/ (passes lib [] document_calls = true
            /\ exists meta,
                 o = Return meta
                 /\ ((passes lib document_calls (save_calls output_path) = true
                      /\ done = document_calls ++ save_calls output_path
                      /\ r = process_done i meta (saved lib document_calls output_path))
                     \/ (exists e pre c,
                           stops_at lib document_calls (save_calls output_path) pre c e
                           /\ done = document_calls ++ pre ++ [c]
                           /\ r = process_done i meta (save_failure e))))).
Proof.
  destruct (ShapeClaims.interpret_shape_request_returns description) as (i & I).
  destruct (generate_shape_dispatch i) as (o & G & P).
  exists i, o.
  unfold process_request, try_except, bind, lift.
  rewrite I, (generate_shape_new lib i o fresh G eq_refl).
  destruct (create_document_outcome lib fresh) as (o1 & w1 & d1 & C & T1 & H1).
  rewrite C. cbn [trace fresh app] in T1, H1.
  destruct H1 as [(-> & -> & Pd & D1 & M1)|(e & pre & c & -> & -> & St)].
  - destruct o as [meta|e].
    + destruct (save_document_outcome lib output_path w1)
        as (r & w2 & d2 & S & T2 & _ & _ & H2).
      rewrite S. unfold ret. rewrite T1, D1, M1 in H2. rewrite T1 in T2.
      exists (process_done i meta r), w2, (document_calls ++ d2).
      split; [reflexivity|]. split; [exact G|]. split; [exact P|].
      split; [reflexivity|]. split; [exact T2|].
      destruct H2 as [(Q & _)|[(_ & e & pre & c & St & -> & ->)
                               |[(_ & Q & _)|(_ & _ & Ps & -> & ->)]]];
        try discriminate Q.
      * split.
        { rewrite lines_of_app.
          rewrite (lines_of_prefix _ _ (stops_at_prefix _ _ _ _ _ _ St) eq_refl).
          reflexivity. }
        right. right. split; [exact Pd|]. exists meta. split; [reflexivity|].
        right. exists e, pre, c. split; [exact St|]. split; reflexivity.
      * split; [reflexivity|].
        right. right. split; [exact Pd|]. exists meta. split; [reflexivity|].
        left. split; [exact Ps|]. split; reflexivity.
    + unfold ret. exists (process_failure e), w1, document_calls.
      split; [reflexivity|]. split; [exact G|]. split; [exact P|].
      split; [reflexivity|]. split; [exact T1|]. split; [reflexivity|].
      right. left. split; [exact Pd|]. exists e. repeat split.
  - unfold ret. exists (process_failure e), w1, (pre ++ [c]).
    split; [reflexivity|]. split; [exact G|]. split; [exact P|].
    split; [reflexivity|]. split; [exact T1|].
    split; [exact (lines_of_prefix _ _ (stops_at_prefix _ _ _ _ _ _ St) eq_refl)|].
    left. exists e, pre, c. split; [exact St|]. split; reflexivity.
Qed.

(** X9: what a request on a new agent does, for every library.
    [process_request] never raises and never draws.  It interprets the
    description, then makes the six calls of [create_document] and,
    when the builder of the interpretation exists, the four calls of
    [save_document].  A call that raises is the last one made: while
    the document is created the request fails with the text of that
    exception; while it is saved the request reports the failure of the
    save.  When the six calls passed and the builder is missing, the
    request fails with the builder's error and nothing is saved.  The
    request reports the success of the save exactly when all ten calls
    passed. *)
Theorem X9_process_request_calls :
  forall lib description output_path,
    exists i o r w' done,
      interpret_shape_request description = Return i
      /\ (forall lib' w, self_doc w = true -> generate_shape lib' i w = (o, w))
      /\ (placeholder_branch i = false <-> exists meta, o = Return meta)
      /\ process_request lib description output_path fresh = (Return r, w')
      /\ trace w' = done
      /\ lines_of done = []
      /\ ((exists e pre c,
             stops_at lib [] document_calls pre c e
             /\ done = pre ++ [c]
             /\ r = process_failure e)
          \/ (passes lib [] document_calls = true
              /\ exists e,
                   o = Raise e
                   /\ done = document_calls
                   /\ r = process_failure e)
          \/ (passes lib [] document_calls = true
              /\ exists meta,
                   o = Return meta
                   /\ ((passes lib document_calls (save_calls output_path) = true
                        /\ done = document_calls ++ save_calls output_path
                        /\ r = process_done i meta (saved lib document_calls output_path))
                       \/ (exists e pre c,
                             stops_at lib document_calls (save_calls output_path) pre c e
                             /\ done = document_calls ++ pre ++ [c]
                             /\ r = process_done i meta (save_failure e))))).
Proof. exact process_request_outcome. Qed.

Lemma never_raises_stops lib t cs pre c e :
  never_raises lib -> stops_at lib t cs pre c e -> False.
Proof.
  intros N S. apply stops_at_not_passes in S.
  rewrite (never_raises_passes lib cs N t) in S. discriminate S.
Qed.

(** The error of a missing builder. *)
Lemma missing_builder i o e :
  (forall lib w, self_doc w = true -> generate_shape lib i w = (o, w)) ->
  (placeholder_branch i = false <-> exists meta, o = Return meta) ->
  o = Raise e ->
  placeholder_branch i = true
  /\ exists name, In name undefined_builders /\ e = AttributeError class_name name.
Proof.
  intros G P ->.
  assert (Ph : placeholder_branch i = true).
  { destruct (placeholder_branch i); [reflexivity|].
    destruct (proj1 P eq_refl) as (meta & Q). discriminate Q. }
  split; [exact Ph|].
  destruct (ShapeClaims.placeholder_dispatch recorder i
              {| trace := []; self_doc := true; self_msp := true |} Ph eq_refl)
    as (name & N & E).
  rewrite (G recorder {| trace := []; self_doc := true; self_msp := true |} eq_refl) in E.
  exists name. split; [exact N|]. inversion E. reflexivity.
Qed.

(** X10: with a library no call of which raises, what becomes of a
    request on a new agent depends on its interpretation alone.  It
    succeeds exactly when the builder of the interpretation exists
    (apple, gear or floor plan): the ten calls of the document and of
    the save are made, and the result carries the layers and the entity
    count the library answers.  Otherwise the document is created,
    nothing is saved, and the failure names the missing builder. *)
Theorem X10_working_library :
  forall lib,
    never_raises lib ->
    forall description output_path,
      exists i r w',
        interpret_shape_request description = Return i
        /\ process_request lib description output_path fresh = (Return r, w')
        /\ success r = negb (placeholder_branch i)
        /\ (placeholder_branch i = false ->
              trace w' = document_calls ++ save_calls output_path
              /\ exists meta,
                   r = process_done i meta (saved lib document_calls output_path))
        /\ (placeholder_branch i = true ->
              trace w' = document_calls
              /\ exists name,
                   In name undefined_builders
                   /\ r = process_failure (AttributeError class_name name)).
Proof.
  intros lib N description output_path.
  destruct (process_request_outcome lib description output_path)
    as (i & o & r & w' & done & I & G & P & E & T & _ & H).
  exists i, r, w'. split; [exact I|]. split; [exact E|]. rewrite T.
  destruct H as [(e & pre & c & St & _)
                |[(_ & e & Eo & -> & ->)
                 |(_ & meta & Eo & [(_ & -> & ->)|(e & pre & c & St & _)])]].
  - destruct (never_raises_stops _ _ _ _ _ _ N St).
  - destruct (missing_builder i o e G P Eo) as (Ph & name & In_ & ->).
    rewrite Ph. split; [reflexivity|]. split; [discriminate|]. intros _.
    split; [reflexivity|]. exists name. split; [exact In_ | reflexivity].
  - rewrite (proj2 P (ex_intro _ meta Eo)).
    split; [reflexivity|]. split; [|discriminate]. intros _.
    split; [reflexivity|]. exists meta. reflexivity.
  - destruct (never_raises_stops _ _ _ _ _ _ N St).
Qed.

(** The recording library never raises; the request "apple logo 100mm"
    on it. *)
Lemma X10_witness :
  never_raises recorder
  /\ exists i r w',
       interpret_shape_request "apple logo 100mm" = Return i
       /\ process_request recorder "apple logo 100mm" "apple.dxf" fresh = (Return r, w')
       /\ success r = negb (placeholder_branch i)
       /\ (placeholder_branch i = false ->
             trace w' = document_calls ++ save_calls "apple.dxf"
             /\ exists meta,
                  r = process_done i meta (saved recorder document_calls "apple.dxf"))
       /\ (placeholder_branch i = true ->
             trace w' = document_calls
             /\ exists name,
                  In name undefined_builders
                  /\ r = process_failure (AttributeError class_name name)).
Proof.
  assert (N : never_raises recorder) by (intros t c; reflexivity).
  split; [exact N|].
  exact (X10_working_library recorder N "apple logo 100mm" "apple.dxf").
Defined.

(** X19: which requests succeed.  For every library, a request on a
    new agent succeeds exactly when two things hold.  In the lower-cased
    description the first category that has a keyword comes with a
    keyword of its one implemented type: organic with apple or fruit,
    mechanical with gear, cog, tooth or wheel, architectural with floor,
    room, plan or house.  And none of the ten library calls raises: the
    six of the document, then the header, the save, the layer names and
    the entity count.  A description of the decorative or geometric
    category, or with no keyword at all, fails whatever the library
    does. *)
Theorem X19_requests_that_succeed :
  forall lib description output_path,
    exists r w',
      process_request lib description output_path fresh = (Return r, w')
      /\ (success r = true
          <-> (supported_request description = true
               /\ passes lib [] (document_calls ++ save_calls output_path) = true)).
Proof.
  intros lib description output_path.
  destruct (process_request_outcome lib description output_path)
    as (i & o & r & w' & done & I & G & P & E & _ & _ & H).
  exists r, w'. split; [exact E|].
  rewrite <- (placeholder_supported description i I), passes_app. cbn [app].
  destruct H as [(e & pre & c & St & _ & ->)
                |[(Pd & e & Eo & _ & ->)
                 |(Pd & meta & Eo & [(Ps & _ & ->)|(e & pre & c & St & _ & ->)])]].
  - rewrite (stops_at_not_passes _ _ _ _ _ _ St). cbn.
    split; [intros Q; discriminate Q | intros [_ Q]; discriminate Q].
  - destruct (missing_builder i o e G P Eo) as (Ph & _). rewrite Ph. cbn.
    split; [intros Q; discriminate Q | intros [Q _]; discriminate Q].
  - rewrite (proj2 P (ex_intro _ meta Eo)), Pd, Ps. cbn. tauto.
  - rewrite (stops_at_not_passes _ _ _ _ _ _ St), andb_false_r. cbn.
    split; [intros Q; discriminate Q | intros [_ Q]; discriminate Q].
Qed.

End ShapeMore.


(* ===================================================================== *)
(** * More on the text vectorizer                                         *)
(* ===================================================================== *)

Module VectorizerMore.
Import Py Drafting Vectorizer Spec SpecMore MonadFacts RunFacts VectorizerFacts ScriptFacts.
Local Open Scope float_scope.
Local Open Scope py_scope.

(** X11: [vectorize_text] is all or stop, for every library.  It makes
    the calls of its script in order (set-up, one line per glyph
    segment, save).  When none of them raises it returns the success
    dict after all of them.  Otherwise the first call that raises is the
    last call made: every call before it passed, none is made after it,
    and the failure dict carries the text of its exception, no path and
    no text_info.  So a failed draw call means that nothing is saved. *)
Theorem X11_vectorize_all_or_stop :
  forall lib text output_path fs layer w,
    exists r w' done,
      vectorize_text lib text output_path fs layer w = (Return r, w')
      /\ trace w' = trace w ++ done
      /\ ((passes lib (trace w) (script text output_path fs layer) = true
           /\ r = vectorized text output_path fs layer
           /\ done = script text output_path fs layer)
          \/ (exists e pre c,
                stops_at lib (trace w) (script text output_path fs layer) pre c e
                /\ r = vectorize_failed e
                /\ done = pre ++ [c])).
Proof.
  intros lib text output_path fs layer w.
  destruct (vectorize_text_run lib text output_path fs layer w)
    as (r & w' & done & E & T & _ & _ & H).
  exists r, w', done. split; [exact E|]. split; [exact T | exact H].
Qed.

Lemma char_lines_on_layer layer fs x y c :
  Forall (on_layer layer) (char_lines layer fs x y c).
Proof.
  unfold char_lines. destruct (glyph c) as [paths|]; [|constructor].
  apply List.Forall_forall. intros l I. apply in_map_iff in I.
  destruct I as (path & <- & _). reflexivity.
Qed.

Lemma text_lines_on_layer layer fs y cs :
  forall x, Forall (on_layer layer) (text_lines layer fs y x cs).
Proof.
  induction cs as [|c cs IH]; intros x; [constructor|].
  rewrite text_lines_cons. apply Forall_app. split; [apply char_lines_on_layer | apply IH].
Qed.

Lemma script_on_layer text output_path fs layer :
  Forall (on_layer layer) (script text output_path fs layer).
Proof.
  unfold script. apply Forall_app. split.
  - unfold setup_calls. repeat constructor.
  - apply Forall_app. split; [apply text_lines_on_layer | repeat constructor].
Qed.

(** X12: everything [vectorize_text] puts in the file is on the layer
    it was asked for: the only layer it adds is that one, with color 2,
    and every line it draws names it. *)
Theorem X12_one_layer :
  forall lib text output_path fs layer w,
    exists r w' done,
      vectorize_text lib text output_path fs layer w = (Return r, w')
      /\ trace w' = trace w ++ done
      /\ Forall (on_layer layer) done.
Proof.
  intros lib text output_path fs layer w.
  pose proof (script_on_layer text output_path fs layer) as F.
  destruct (vectorize_text_run lib text output_path fs layer w)
    as (r & w' & done & E & T & _ & _ & H).
  exists r, w', done. split; [exact E|]. split; [exact T|].
  destruct H as [(_ & _ & ->)|(e & pre & c & S & _ & ->)]; [exact F|].
  destruct (stops_at_prefix _ _ _ _ _ _ S) as [rest Q].
  rewrite Q in F. apply Forall_app in F. exact (proj1 F).
Qed.

(** *** Capitals *)

Lemma upper_char_idem c : str_upper (upper_char c) = upper_char c.
Proof.
  destruct c as [b0 b1 b2 b3 b4 b5 b6 b7];
    destruct b0, b1, b2, b3, b4, b5, b6, b7; reflexivity.
Qed.

Lemma append_assoc3 (a b c : string) : (a +:+ b) +:+ c = a +:+ (b +:+ c).
Proof.
  induction a as [|x a IH]; [reflexivity|].
  change ((String x a +:+ b) +:+ c) with (String x ((a +:+ b) +:+ c)).
  change (String x a +:+ (b +:+ c)) with (String x (a +:+ (b +:+ c))).
  rewrite IH. reflexivity.
Qed.

Lemma str_upper_app a b : str_upper (a +:+ b) = str_upper a +:+ str_upper b.
Proof.
  induction a as [|x a IH]; [reflexivity|].
  change (String x a +:+ b) with (String x (a +:+ b)).
  cbn [str_upper]. rewrite IH, append_assoc3. reflexivity.
Qed.

Lemma str_upper_idem s : str_upper (str_upper s) = str_upper s.
Proof.
  induction s as [|c s IH]; [reflexivity|].
  cbn [str_upper]. rewrite str_upper_app, upper_char_idem, IH. reflexivity.
Qed.

(** X13: lower-case letters are drawn as their capitals.  For a text
    whose upper-cased form has the same length, [vectorize_text] makes
    the same library calls, at the same coordinates, for the text and
    for its upper-cased form, and reports the same outcome, position and
    width, whatever the library does. *)
Theorem X13_drawn_as_capitals :
  forall lib text output_path fs layer w,
    String.length (str_upper text) = String.length text ->
    exists r r' w',
      vectorize_text lib text output_path fs layer w = (Return r, w')
      /\ vectorize_text lib (str_upper text) output_path fs layer w = (Return r', w')
      /\ success r = success r'
      /\ error r = error r'
      /\ option_map position (info r) = option_map position (info r')
      /\ option_map width (info r) = option_map width (info r').
Proof.
  intros lib text output_path fs layer w N.
  assert (S : script (str_upper text) output_path fs layer = script text output_path fs layer).
  { unfold script, start_position, text_width.
    rewrite str_upper_idem, N. reflexivity. }
  rewrite !vectorize_text_script, S.
  destruct (run_calls lib (script text output_path fs layer) w) as [[[]|e] w'];
    eexists _, _, _; (split; [reflexivity|]); (split; [reflexivity|]);
    cbn [vectorized vectorize_failed success error info option_map position width];
    unfold start_position, text_width; rewrite ?N;
    repeat split; reflexivity.
Qed.

Lemma X13_witness :
  String.length (str_upper "ArkCutt") = String.length "ArkCutt"
  /\ exists r r' w',
       vectorize_text recorder "ArkCutt" "out.dxf" 50 "ENGRAVE" fresh = (Return r, w')
       /\ vectorize_text recorder "ARKCUTT" "out.dxf" 50 "ENGRAVE" fresh = (Return r', w')
       /\ success r = success r'
       /\ error r = error r'
       /\ option_map position (info r) = option_map position (info r')
       /\ option_map width (info r) = option_map width (info r').
Proof.
  split; [reflexivity|].
  exact (X13_drawn_as_capitals recorder "ArkCutt" "out.dxf" 50 "ENGRAVE" fresh eq_refl).
Defined.

(** *** Texts that draw nothing *)

Lemma blank_char_lines layer fs x y c :
  blank c = true -> char_lines layer fs x y c = [].
Proof.
  unfold blank, char_lines. destruct (glyph c) as [[|path paths]|];
    intros H; try reflexivity; discriminate H.
Qed.

Lemma blank_text_lines layer fs y cs :
  forallb blank cs = true -> forall x, text_lines layer fs y x cs = [].
Proof.
  induction cs as [|c cs IH]; intros H x; [reflexivity|].
  cbn [forallb] in H. apply andb_prop in H. destruct H as [Hc Hcs].
  rewrite text_lines_cons, (blank_char_lines _ _ _ _ c Hc), (IH Hcs). reflexivity.
Qed.

(** X14: a text none of whose upper-cased characters has a glyph with
    segments (digits, punctuation, spaces, the empty text) draws
    nothing, for every library: the only calls of [vectorize_text] are
    the four set-up calls and the save, up to the first that raises, and
    when none of the five raises the run is reported as a success. *)
Theorem X14_blank_text :
  forall lib text output_path fs layer w,
    forallb blank (list_ascii_of_string (str_upper text)) = true ->
    exists r w' done,
      vectorize_text lib text output_path fs layer w = (Return r, w')
      /\ trace w' = trace w ++ done
      /\ lines_of done = []
      /\ ((passes lib (trace w) (setup_calls layer ++ [SaveAs output_path]) = true
           /\ r = vectorized text output_path fs layer
           /\ done = setup_calls layer ++ [SaveAs output_path])
          \/ (exists e pre c,
                stops_at lib (trace w) (setup_calls layer ++ [SaveAs output_path]) pre c e
                /\ r = vectorize_failed e
                /\ done = pre ++ [c])).
Proof.
  intros lib text output_path fs layer w B.
  assert (S : script text output_path fs layer = setup_calls layer ++ [SaveAs output_path]).
  { unfold script. rewrite (blank_text_lines _ _ _ _ B). reflexivity. }
  destruct (vectorize_text_run lib text output_path fs layer w)
    as (r & w' & done & E & T & _ & _ & H).
  rewrite S in H. exists r, w', done. split; [exact E|]. split; [exact T|].
  split; [|exact H].
  destruct H as [(_ & _ & ->)|(e & pre & c & St & _ & ->)]; [reflexivity|].
  exact (lines_of_prefix _ _ (stops_at_prefix _ _ _ _ _ _ St) eq_refl).
Qed.

(** The text "2024 (v2)": with a library that never raises it is reported
    as vectorized, and no line is drawn. *)
Lemma X14_witness :
  forallb blank (list_ascii_of_string (str_upper "2024 (v2)")) = true
  /\ exists r w' done,
       vectorize_text recorder "2024 (v2)" "out.dxf" 20 "TEXT" fresh = (Return r, w')
       /\ trace w' = trace fresh ++ done
       /\ lines_of done = []
       /\ ((passes recorder (trace fresh) (setup_calls "TEXT" ++ [SaveAs "out.dxf"]) = true
            /\ r = vectorized "2024 (v2)" "out.dxf" 20 "TEXT"
            /\ done = setup_calls "TEXT" ++ [SaveAs "out.dxf"])
           \/ (exists e pre c,
                 stops_at recorder (trace fresh) (setup_calls "TEXT" ++ [SaveAs "out.dxf"])
                          pre c e
                 /\ r = vectorize_failed e
                 /\ done = pre ++ [c])).
Proof.
  split; [reflexivity|].
  apply (X14_blank_text recorder "2024 (v2)" "out.dxf" 20 "TEXT" fresh). reflexivity.
Defined.

End VectorizerMore.


(* ===================================================================== *)
(** * The command lines                                                   *)
(* ===================================================================== *)

Module CliMore.
Import Py Drafting Interp Spec SpecMore MonadFacts RunFacts Cli.

(** *** Printing *)

Lemma prints_spec con ls :
  forall written,
    (forall key, snd (prints con written ls) <> KeyError key)
    /\ (forall e, snd (prints con written ls) = Uncaught e ->
          exists l, print_raises con (fst (prints con written ls)) l = Some e)
    /\ (snd (prints con written ls) = Done ->
          fst (prints con written ls) = written ++ ls).
Proof.
  induction ls as [|l ls IH]; intros written; cbn [prints].
  - cbn [fst snd]. split; [discriminate|]. split; [discriminate|].
    intros _. rewrite app_nil_r. reflexivity.
  - destruct (print_raises con written l) as [e|] eqn:P.
    + cbn [fst snd]. split; [discriminate|]. split; [|discriminate].
      intros e' H. inversion H. subst. exists l. exact P.
    + destruct (IH (written ++ [l])) as (K & U & D).
      split; [exact K|]. split; [exact U|].
      intros H. rewrite (D H), <- app_assoc. reflexivity.
Qed.

Lemma prints_always con ls :
  always_prints con -> forall written, prints con written ls = (written ++ ls, Done).
Proof.
  intros A. induction ls as [|l ls IH]; intros written; cbn [prints].
  - rewrite app_nil_r. reflexivity.
  - rewrite (A written l), IH, <- app_assoc. reflexivity.
Qed.

Lemma prints_cons con written l ls :
  prints con written (l :: ls)
  = match print_raises con written l with
    | Some e => (written, Uncaught e)
    | None => prints con (written ++ [l]) ls
    end.
Proof. reflexivity. Qed.

Lemma prints_one con l :
  prints con [] [l]
  = match print_raises con [] l with
    | Some e => ([], Uncaught e)
    | None => ([l], Done)
    end.
Proof. reflexivity. Qed.

(** *** The shape generator *)

(** What a request on a new agent returns. *)
Lemma process_request_result lib description output_path :
  exists r w,
    Shape.process_request lib description output_path fresh = (Return r, w)
    /\ lines_of (trace w) = []
    /\ (Shape.success r = true -> exists i, Shape.interpretation_of r = Some i).
Proof.
  destruct (ShapeMore.process_request_outcome lib description output_path)
    as (i & o & r & w & done & _ & _ & _ & E & T & L & H).
  exists r, w. split; [exact E|]. split; [rewrite T; exact L|].
  destruct H as [(e & pre & c & _ & _ & ->)
                |[(_ & e & _ & _ & ->)
                 |(_ & meta & _ & [(_ & _ & ->)|(e & pre & c & _ & _ & ->)])]];
    cbn; intros Q; try discriminate Q; exists i; reflexivity.
Qed.

(** What [main] of the shape generator does, for any library and
    console. *)
Lemma shape_main_run lib con argv :
  ((length argv <? 3)%nat = true
   /\ calls (Shapes.main lib con argv) = []
   /\ (stdout (Shapes.main lib con argv), ending_of (Shapes.main lib con argv))
      = prints con [] Shapes.usage)
  \/ ((length argv <? 3)%nat = false
      /\ exists res w,
           Shape.process_request lib (nth 1 argv "") (nth 2 argv "") fresh = (Return res, w)
           /\ lines_of (trace w) = []
           /\ (Shape.success res = true -> exists i, Shape.interpretation_of res = Some i)
           /\ calls (Shapes.main lib con argv) = trace w
           /\ (stdout (Shapes.main lib con argv), ending_of (Shapes.main lib con argv))
              = prints con [] (shape_report res (nth 2 argv ""))).
Proof.
  unfold Shapes.main. destruct (length argv <? 3)%nat.
  - left. split; [reflexivity|].
    destruct (prints con [] Shapes.usage) as [out e]. split; reflexivity.
  - right. split; [reflexivity|].
    destruct (process_request_result lib (nth 1 argv "") (nth 2 argv ""))
      as (r & w & E & L & S).
    exists r, w. rewrite E. split; [reflexivity|]. split; [exact L|]. split; [exact S|].
    unfold shape_report. cbn [prints].
    destruct (print_raises con [] (Message (Shape.message r))) as [e|].
    { split; reflexivity. }
    cbn [app]. destruct (Shape.success r).
    + destruct (S eq_refl) as (i & ->).
      destruct (prints con [Message (Shape.message r)] _) as [out e]. split; reflexivity.
    + split; reflexivity.
Qed.

Lemma in_file_saved (i : interpretation) output_path p :
  In (FileSaved p)
     ([Interpreted (category i) (type i)]
      ++ (if bool_decide (dimensions i = ∅) then [] else [Dimensions (dimensions i)])
      ++ [Style (style i)] ++ [FileSaved output_path])
  <-> p = output_path.
Proof.
  destruct (bool_decide (dimensions i = ∅)); simpl; split.
  - intros [H|[H|[H|[]]]]; try discriminate H. inversion H. reflexivity.
  - intros ->. tauto.
  - intros [H|[H|[H|[H|[]]]]]; try discriminate H. inversion H. reflexivity.
  - intros ->. tauto.
Qed.

(** X15: the command line of the shape generator, for every library,
    console and list of arguments.  It never draws.  The only exception
    that can leave it is one [print] raises: every exception of the
    request is caught, and the key 'interpretation' is there whenever
    the result is a success.  With fewer than two arguments it prints
    the usage text and does not touch the library.  Otherwise its
    calls are those of [process_request] on the first two arguments,
    and it prints, up to the first [print] that raises, the message of
    the result and, after a success only, the interpretation, the
    dimensions if any, the style and the path: on a console that takes
    every line, "File saved" is printed exactly when the request
    succeeded, with the second argument as the path. *)
Theorem X15_shape_main :
  forall lib con argv,
    lines_of (calls (Shapes.main lib con argv)) = []
    /\ (forall key, ending_of (Shapes.main lib con argv) <> KeyError key)
    /\ (forall e,
          ending_of (Shapes.main lib con argv) = Uncaught e ->
          exists l, print_raises con (stdout (Shapes.main lib con argv)) l = Some e)
    /\ ((length argv <? 3)%nat = true ->
          calls (Shapes.main lib con argv) = []
          /\ (stdout (Shapes.main lib con argv), ending_of (Shapes.main lib con argv))
             = prints con [] Shapes.usage)
    /\ ((length argv <? 3)%nat = false ->
          exists res w,
            Shape.process_request lib (nth 1 argv "") (nth 2 argv "") fresh = (Return res, w)
            /\ calls (Shapes.main lib con argv) = trace w
            /\ (stdout (Shapes.main lib con argv), ending_of (Shapes.main lib con argv))
               = prints con [] (shape_report res (nth 2 argv ""))
            /\ (always_prints con ->
                  ending_of (Shapes.main lib con argv) = Done
                  /\ forall p,
                       In (FileSaved p) (stdout (Shapes.main lib con argv))
                       <-> (Shape.success res = true /\ p = nth 2 argv ""))).
Proof.
  intros lib con argv.
  destruct (shape_main_run lib con argv)
    as [(A & C & P)|(A & res & w & E & L & S & C & P)].
  - destruct (prints_spec con Shapes.usage []) as (K & U & _).
    rewrite <- P in K, U. cbn [fst snd] in K, U.
    split; [rewrite C; reflexivity|]. split; [exact K|]. split; [exact U|].
    split; [intros _; split; [exact C | exact P]|].
    rewrite A. intros Q. discriminate Q.
  - destruct (prints_spec con (shape_report res (nth 2 argv "")) []) as (K & U & _).
    rewrite <- P in K, U. cbn [fst snd] in K, U.
    split; [rewrite C; exact L|]. split; [exact K|]. split; [exact U|].
    split; [rewrite A; intros Q; discriminate Q|].
    intros _. exists res, w. split; [exact E|]. split; [exact C|]. split; [exact P|].
    intros Al. rewrite (prints_always con _ Al) in P. injection P as Po Pe.
    split; [exact Pe|]. intros p. rewrite Po. cbn [app]. unfold shape_report.
    destruct (Shape.success res).
    + destruct (S eq_refl) as (i & ->). split.
      * intros [H|H]; [discriminate H|]. apply in_file_saved in H. tauto.
      * intros [_ ->]. right. apply in_file_saved. reflexivity.
    + split.
      * intros [H|[]]. discriminate H.
      * intros [H _]. discriminate H.
Qed.


(** *** The vectorizer *)

(** What [main] of the vectorizer does once the font size is read. *)
Lemma text_main_run lib con builtin_float argv font_size :
  (length argv <? 4)%nat = false ->
  builtin_float (nth 3 argv "") = Return font_size ->
  exists res w,
    Vectorizer.vectorize_text lib (nth 1 argv "") (nth 2 argv "") font_size
      (if (4 <? length argv)%nat then nth 4 argv "" else "TEXT") fresh = (Return res, w)
    /\ Forall (on_layer (if (4 <? length argv)%nat then nth 4 argv "" else "TEXT")) (trace w)
    /\ calls (Texts.main lib con builtin_float argv) = trace w
    /\ (stdout (Texts.main lib con builtin_float argv),
        ending_of (Texts.main lib con builtin_float argv))
       = prints con [] (text_report res).
Proof.
  intros A F. unfold Texts.main. rewrite A, F.
  set (layer := if (4 <? length argv)%nat then nth 4 argv "" else "TEXT").
  destruct (ScriptFacts.vectorize_text_run lib (nth 1 argv "") (nth 2 argv "") font_size
              layer fresh) as (r & w & done & E & T & _ & _ & H).
  exists r, w. rewrite E. split; [reflexivity|]. split.
  { rewrite T. cbn [trace fresh app].
    pose proof (VectorizerMore.script_on_layer (nth 1 argv "") (nth 2 argv "") font_size
                  layer) as L.
    destruct H as [(_ & _ & ->)|(e & pre & c & S & _ & ->)]; [exact L|].
    destruct (stops_at_prefix _ _ _ _ _ _ S) as [rest Q].
    rewrite Q in L. apply Forall_app in L. exact (proj1 L). }
  unfold text_report. rewrite prints_one, prints_cons.
  destruct (print_raises con [] (Message (Vectorizer.message r))) as [e|].
  { split; reflexivity. }
  cbn [app]. destruct (Vectorizer.success r); [|split; reflexivity].
  destruct (Vectorizer.info r) as [info|]; [|split; reflexivity].
  destruct (prints con [Message (Vectorizer.message r)] _) as [out e]. split; reflexivity.
Qed.

(** X16: the command line of the vectorizer, for every library, console
    and list of arguments.  An exception leaves it in two cases only:
    [float] rejects the third argument, the font size, which is
    converted outside any handler, and then nothing has been printed
    and the library has not been called; or a [print] raises.  Every
    exception of [vectorize_text] is caught.  With fewer than three
    arguments it prints the usage line and does not touch the library.
    Otherwise its calls are those of [vectorize_text], it prints, up to
    the first [print] that raises, the message of the result and, after
    a success, the position, the size and the layer; every layer it
    names is the fourth argument, or TEXT when there is none. *)
Theorem X16_text_main :
  forall lib con builtin_float argv,
    (forall key, ending_of (Texts.main lib con builtin_float argv) <> KeyError key)
    /\ (forall e,
          ending_of (Texts.main lib con builtin_float argv) = Uncaught e ->
          ((length argv <? 4)%nat = false
           /\ builtin_float (nth 3 argv "") = Raise e
           /\ stdout (Texts.main lib con builtin_float argv) = []
           /\ calls (Texts.main lib con builtin_float argv) = [])
          \/ (exists l,
                print_raises con (stdout (Texts.main lib con builtin_float argv)) l
                = Some e))
    /\ ((length argv <? 4)%nat = true ->
          calls (Texts.main lib con builtin_float argv) = []
          /\ (stdout (Texts.main lib con builtin_float argv),
              ending_of (Texts.main lib con builtin_float argv))
             = prints con [] [Usage 0])
    /\ ((length argv <? 4)%nat = false ->
          forall e,
            builtin_float (nth 3 argv "") = Raise e ->
            Texts.main lib con builtin_float argv
            = {| stdout := []; ending_of := Uncaught e; calls := [] |})
    /\ ((length argv <? 4)%nat = false ->
          forall font_size,
            builtin_float (nth 3 argv "") = Return font_size ->
            exists res w,
              Vectorizer.vectorize_text lib (nth 1 argv "") (nth 2 argv "") font_size
                (if (4 <? length argv)%nat then nth 4 argv "" else "TEXT") fresh
              = (Return res, w)
              /\ calls (Texts.main lib con builtin_float argv) = trace w
              /\ (stdout (Texts.main lib con builtin_float argv),
                  ending_of (Texts.main lib con builtin_float argv))
                 = prints con [] (text_report res))
    /\ Forall (on_layer (if (4 <? length argv)%nat then nth 4 argv "" else "TEXT"))
              (calls (Texts.main lib con builtin_float argv)).
Proof.
  intros lib con builtin_float argv.
  destruct (length argv <? 4)%nat eqn:A.
  { assert (P : calls (Texts.main lib con builtin_float argv) = []
                /\ (stdout (Texts.main lib con builtin_float argv),
                    ending_of (Texts.main lib con builtin_float argv))
                   = prints con [] [Usage 0]).
    { unfold Texts.main. rewrite A. destruct (prints con [] [Usage 0]) as [out e].
      split; reflexivity. }
    destruct (prints_spec con [Usage 0] []) as (K & U & _).
    rewrite <- (proj2 P) in K, U. cbn [fst snd] in K, U.
    split; [exact K|]. split; [intros e H; right; exact (U e H)|].
    split; [intros _; exact P|]. split; [intros Q; discriminate Q|].
    split; [intros Q; discriminate Q|]. rewrite (proj1 P). constructor. }
  destruct (builtin_float (nth 3 argv "")) as [fs|e0] eqn:F.
  - destruct (text_main_run lib con builtin_float argv fs A F) as (res & w & V & L & C & P).
    destruct (prints_spec con (text_report res) []) as (K & U & _).
    rewrite <- P in K, U. cbn [fst snd] in K, U.
    split; [exact K|]. split; [intros e H; right; exact (U e H)|].
    split; [intros Q; discriminate Q|]. split; [intros _ e Q; discriminate Q|].
    split; [|rewrite C; exact L].
    intros _ font_size Q. inversion Q. subst font_size.
    exists res, w. split; [exact V|]. split; [exact C | exact P].
  - assert (M : Texts.main lib con builtin_float argv
                = {| stdout := []; ending_of := Uncaught e0; calls := [] |}).
    { unfold Texts.main. rewrite A, F. reflexivity. }
    rewrite M. cbn [ending_of stdout calls].
    split; [intros key Q; discriminate Q|]. split.
    { intros e Q. inversion Q. subst e. left. repeat split. }
    split; [intros Q; discriminate Q|]. split.
    { intros _ e Q. inversion Q. reflexivity. }
    split; [intros _ fs Q; discriminate Q|]. constructor.
Qed.

(** X17: with a library no call of which raises, a console that takes
    every line and a font size [float] accepts, the vectorizer program
    given three arguments prints four lines and returns: the message of
    the success result, the start corner, the size (the text width by
    the font size) and the layer TEXT; its calls are exactly the script
    of [vectorize_text]. *)
Theorem X17_text_main_prints :
  forall lib con builtin_float program text output_path size font_size,
    never_raises lib ->
    always_prints con ->
    builtin_float size = Return font_size ->
    Texts.main lib con builtin_float [program; text; output_path; size]
    = {| stdout :=
           [ Message (Vectorizer.message (vectorized text output_path font_size "TEXT"));
             Position (fst (Vectorizer.start_position text font_size))
                      (snd (Vectorizer.start_position text font_size));
             Size (Vectorizer.text_width text font_size) font_size;
             Layer "TEXT" ];
         ending_of := Done;
         calls := script text output_path font_size "TEXT" |}.
Proof.
  intros lib con builtin_float program text output_path size font_size N A F.
  unfold Texts.main. cbn [length Nat.ltb Nat.leb nth]. rewrite F.
  rewrite (ScriptFacts.vectorize_text_never_raises lib text output_path font_size "TEXT"
             fresh N).
  rewrite (prints_always con _ A).
  cbn [Vectorizer.success Vectorizer.info vectorized app].
  rewrite (prints_always con _ A). reflexivity.
Qed.

Lemma X17_witness :
  never_raises recorder
  /\ always_prints accepting
  /\ py_float "20" = Return 20%float
  /\ Texts.main recorder accepting py_float ["vectorizer.py"; "Ark"; "ark.dxf"; "20"]
     = {| stdout :=
            [ Message (Vectorizer.message (vectorized "Ark" "ark.dxf" 20 "TEXT"));
              Position 978 990; Size 44 20; Layer "TEXT" ];
          ending_of := Done;
          calls := script "Ark" "ark.dxf" 20 "TEXT" |}.
Proof.
  assert (N : never_raises recorder) by (intros t c; reflexivity).
  assert (A : always_prints accepting) by (intros t l; reflexivity).
  split; [exact N|]. split; [exact A|]. split; [reflexivity|].
  exact (X17_text_main_prints recorder accepting py_float "vectorizer.py" "Ark" "ark.dxf"
           "20" 20%float N A eq_refl).
Defined.

End CliMore.
